(** * Tacloban City coastal vulnerability viewer: model of [app.py]

    The script loads two static files, computes a vulnerability index per
    landmark, classifies it into a colour, and renders a map and a details
    panel with Streamlit.  This development embeds the script in Rocq:

    - Python values that come out of [json.load] are the type [pyval];
    - Python floats are IEEE binary64 numbers, represented by the standard
      library's [spec_float] with precision 53 and maximal exponent 1024,
      and Python ints are [Z];
    - Python exceptions are the type [exn]; a computation that may raise
      returns a [result];
    - the Streamlit calls of one run of the script are recorded as a trace
      of [ui_event]s next to the result.

    The library calls [json.load] and [ET.parse] are not modelled: the
    script's inputs are what they return (or the fact that they raised).
    The Streamlit and folium calls are taken to return without raising.
    A [str] is modelled with code points below 256.

    The definitions come first, in the order of the script; the theorems
    follow. *)

From Stdlib Require Import ZArith QArith Qabs Lia List Bool Ascii String.
From Stdlib Require Import Floats.SpecFloat.
From stdpp Require Import base option list gmap strings.

Import ListNotations.
Close Scope Q_scope.
Local Open Scope Z_scope.

(** ** Exceptions and results *)

Inductive exn : Type :=
| KeyError
| TypeError
| ValueError
| ZeroDivisionError
| OverflowError
| AttributeError
| StopIteration
| FileNotFoundError
| JSONDecodeError
| XMLParseError.

Inductive result (A : Type) : Type :=
| Ret (a : A)
| Raise (e : exn).

Arguments Ret {A} a.
Arguments Raise {A} e.

Definition rbind {A B : Type} (r : result A) (k : A -> result B) : result B :=
  match r with
  | Ret a => k a
  | Raise e => Raise e
  end.

Declare Scope py_scope.
Delimit Scope py_scope with py.
Notation "x <- r ;; k" := (rbind r (fun x => k))
  (at level 100, r at next level, right associativity) : py_scope.
Local Open Scope py_scope.

Definition is_ret {A : Type} (r : result A) : bool :=
  match r with Ret _ => true | Raise _ => false end.

Fixpoint rmap {A B : Type} (f : A -> result B) (l : list A) : result (list B) :=
  match l with
  | [] => Ret []
  | a :: l' => b <- f a ;; bs <- rmap f l' ;; Ret (b :: bs)
  end.

(** ** Binary64 floats *)

Definition prec64 : Z := 53.
Definition emax64 : Z := 1024.

Definition b64_add : spec_float -> spec_float -> spec_float := SFadd prec64 emax64.
Definition b64_sub : spec_float -> spec_float -> spec_float := SFsub prec64 emax64.
Definition b64_div : spec_float -> spec_float -> spec_float := SFdiv prec64 emax64.
Definition b64_leb : spec_float -> spec_float -> bool := SFleb.
Definition b64_valid : spec_float -> bool := valid_binary prec64 emax64.

(** The binary64 number nearest to the integer [z] (ties to even), as the
    conversion of a Python int to a float computes it; an infinity when [z]
    is out of range. *)
Definition b64_of_Z (z : Z) : spec_float :=
  binary_normalize prec64 emax64 z 0 false.

(** The binary64 number nearest to the quotient [a / b] of two integers,
    [b] nonzero.  [SFdiv] rounds the exact quotient of the two mantissas,
    of whatever size, once. *)
Definition b64_of_ratio (a b : Z) : spec_float :=
  let sgn := xorb (a <? 0) (b <? 0) in
  match Z.abs a, Z.abs b with
  | Zpos p, Zpos q => b64_div (S754_finite sgn p 0) (S754_finite false q 0)
  | Z0, Zpos _ => S754_zero sgn
  | _, _ => S754_nan
  end.

(** The float a decimal numeral [digits * 10 ^ exp10] denotes, as Python's
    correctly rounded string conversion computes it. *)
Definition b64_of_decimal (neg : bool) (digits : N) (exp10 : Z) : spec_float :=
  match digits with
  | N0 => S754_zero neg
  | Npos d =>
      if 0 <=? exp10
      then binary_normalize prec64 emax64
             (cond_Zopp neg (Zpos d * 10 ^ exp10)) 0 false
      else b64_div (S754_finite neg d 0)
                   (S754_finite false (Z.to_pos (10 ^ (- exp10))) 0)
  end.

Definition is_finite (f : spec_float) : bool :=
  match f with
  | S754_zero _ | S754_finite _ _ _ => true
  | _ => false
  end.

Definition is_zero (f : spec_float) : bool :=
  match f with
  | S754_zero _ => true
  | _ => false
  end.

Definition is_inf (f : spec_float) : bool :=
  match f with
  | S754_infinity _ => true
  | _ => false
  end.

(** Exact comparison of an int with a float, as Python compares them. *)
Definition Z_b64_compare (z : Z) (f : spec_float) : option comparison :=
  match f with
  | S754_nan => None
  | S754_infinity s => Some (if s then Gt else Lt)
  | S754_zero _ => Some (z ?= 0)
  | S754_finite s m e =>
      let sm := cond_Zopp s (Zpos m) in
      if 0 <=? e then Some (z ?= sm * 2 ^ e)
      else Some (z * 2 ^ (- e) ?= sm)
  end.

(** The float literals of the script. *)
Definition f_1_0 : spec_float := Eval vm_compute in b64_of_decimal false 10 (-1).
Definition f_2_0 : spec_float := Eval vm_compute in b64_of_decimal false 20 (-1).
Definition f_3_0 : spec_float := Eval vm_compute in b64_of_decimal false 30 (-1).
Definition f_4_0 : spec_float := Eval vm_compute in b64_of_decimal false 40 (-1).
Definition f_0_6 : spec_float := Eval vm_compute in b64_of_decimal false 6 (-1).
Definition f_13_5 : spec_float := Eval vm_compute in b64_of_decimal false 135 (-1).
Definition f_11_230 : spec_float := Eval vm_compute in b64_of_decimal false 11230 (-3).
Definition f_125_003 : spec_float := Eval vm_compute in b64_of_decimal false 125003 (-3).

(** ** Python values *)

#[warnings="-register-all"] Inductive pyval : Type :=
| VNone
| VBool (b : bool)
| VInt (z : Z)
| VFloat (f : spec_float)
| VStr (s : string)
| VList (l : list pyval)
| VDict (d : list (string * pyval)).

(** A number, after [bool] has been read as the int it is. *)
Inductive pynum : Type :=
| NInt (z : Z)
| NFloat (f : spec_float).

Definition as_num (v : pyval) : option pynum :=
  match v with
  | VBool b => Some (NInt (Z.b2z b))
  | VInt z => Some (NInt z)
  | VFloat f => Some (NFloat f)
  | _ => None
  end.

(** [float(n)] for an operand of float arithmetic. *)
Definition to_float (n : pynum) : result spec_float :=
  match n with
  | NFloat f => Ret f
  | NInt z =>
      let f := b64_of_Z z in
      if is_inf f then Raise OverflowError else Ret f
  end.

(** [v + w] *)
Definition py_add (v w : pyval) : result pyval :=
  match as_num v, as_num w with
  | Some (NInt a), Some (NInt b) => Ret (VInt (a + b))
  | Some a, Some b =>
      x <- to_float a ;; y <- to_float b ;; Ret (VFloat (b64_add x y))
  | _, _ =>
      match v, w with
      | VStr s, VStr t => Ret (VStr (s ++ t))
      | VList l, VList l' => Ret (VList (l ++ l'))
      | _, _ => Raise TypeError
      end
  end.

(** [v / w] *)
Definition py_truediv (v w : pyval) : result pyval :=
  match as_num v, as_num w with
  | Some (NInt a), Some (NInt b) =>
      if b =? 0 then Raise ZeroDivisionError
      else
        let q := b64_of_ratio a b in
        if is_inf q then Raise OverflowError else Ret (VFloat q)
  | Some a, Some b =>
      x <- to_float a ;; y <- to_float b ;;
      if is_zero y then Raise ZeroDivisionError
      else Ret (VFloat (b64_div x y))
  | _, _ => Raise TypeError
  end.

(** The integer nearest to [m * 2 ^ e * 10 ^ nd], ties to even: the decimal
    digits the float-to-string conversion produces for [nd] places. *)
Definition round_half_even_scaled (m : positive) (e : Z) (nd : N) : N :=
  let scaled := (Zpos m * 10 ^ Z.of_N nd)%Z in
  if (0 <=? e)%Z then Z.to_N (scaled * 2 ^ e)
  else
    let den := (2 ^ (- e))%Z in
    let q := (scaled / den)%Z in
    let r := (scaled mod den)%Z in
    match (2 * r ?= den)%Z with
    | Lt => Z.to_N q
    | Gt => Z.to_N (q + 1)
    | Eq => if Z.even q then Z.to_N q else Z.to_N (q + 1)
    end.

(** [round(x, ndigits)] on a float: the float is printed with [ndigits]
    decimals, correctly rounded, and the numeral is read back. *)
Definition b64_round (f : spec_float) (ndigits : N) : spec_float :=
  match f with
  | S754_finite s m e =>
      if (323 <? ndigits)%N then f
      else b64_of_decimal s (round_half_even_scaled m e ndigits) (- Z.of_N ndigits)
  | _ => f
  end.

(** [round(v, ndigits)] for [ndigits >= 0] *)
Definition py_round (v : pyval) (ndigits : N) : result pyval :=
  match as_num v with
  | Some (NInt z) => Ret (VInt z)
  | Some (NFloat f) =>
      let r := b64_round f ndigits in
      if is_inf r && is_finite f then Raise OverflowError else Ret (VFloat r)
  | None => Raise TypeError
  end.

(** [v <= c] for a float [c] *)
Definition py_le_float (v : pyval) (c : spec_float) : result bool :=
  match as_num v with
  | Some (NInt z) =>
      Ret match Z_b64_compare z c with
          | Some (Lt | Eq) => true
          | _ => false
          end
  | Some (NFloat f) => Ret (b64_leb f c)
  | None => Raise TypeError
  end.

(** [d[k]] on a dict *)
Fixpoint dict_get (d : list (string * pyval)) (k : string) : option pyval :=
  match d with
  | [] => None
  | (k', v) :: d' => if String.eqb k' k then Some v else dict_get d' k
  end.

(** [v[k]] for a string [k] *)
Definition py_getitem (v : pyval) (k : string) : result pyval :=
  match v with
  | VDict d =>
      match dict_get d k with
      | Some x => Ret x
      | None => Raise KeyError
      end
  | _ => Raise TypeError
  end.

(** ** CVI logic *)

(** [l[field]["score"]] *)
Definition sub_score (l : pyval) (field : string) : result pyval :=
  a <- py_getitem l field ;; py_getitem a "score".

Definition compute_cvi (l : pyval) : result pyval :=
  gs <- sub_score l "geomorphology" ;;
  ns <- sub_score l "natural_buffers" ;;
  s1 <- py_add gs ns ;;
  es <- sub_score l "engineering_structures" ;;
  s2 <- py_add s1 es ;;
  q <- py_truediv s2 (VInt 3) ;;
  py_round q 2.

Definition get_color (cvi : pyval) : result string :=
  c1 <- py_le_float cvi f_1_0 ;;
  if c1 : bool then Ret "red"%string else
  c2 <- py_le_float cvi f_2_0 ;;
  if c2 : bool then Ret "orange"%string else
  c3 <- py_le_float cvi f_3_0 ;;
  if c3 : bool then Ret "yellow"%string else
  c4 <- py_le_float cvi f_4_0 ;;
  if c4 : bool then Ret "green"%string else
  Ret "blue"%string.


(** ** Strings

    A Python [str] is a [string] whose characters are the code points
    below 256. *)

Definition code (c : ascii) : N := N_of_ascii c.

(** [c.isspace()] *)
Definition is_space (c : ascii) : bool :=
  let n := code c in
  ((9 <=? n) && (n <=? 13) || (28 <=? n) && (n <=? 32)
   || (n =? 133) || (n =? 160))%N.

Definition is_digit (c : ascii) : bool :=
  let n := code c in ((48 <=? n) && (n <=? 57))%N.

Definition digit_val (c : ascii) : N := (code c - 48)%N.

Definition is_empty (s : string) : bool :=
  match s with
  | EmptyString => true
  | String _ _ => false
  end.

(** The whitespace [float] skips around a numeral: of the characters
    below 128 only the six of C's [isspace]. *)
Definition is_float_space (c : ascii) : bool :=
  let n := code c in
  ((9 <=? n) && (n <=? 13) || (n =? 32) || (n =? 133) || (n =? 160))%N.

Fixpoint lstrip (space : ascii -> bool) (s : string) : string :=
  match s with
  | EmptyString => EmptyString
  | String c s' => if space c then lstrip space s' else s
  end.

Fixpoint rstrip (space : ascii -> bool) (s : string) : string :=
  match s with
  | EmptyString => EmptyString
  | String c s' =>
      let r := rstrip space s' in
      if space c && is_empty r then EmptyString else String c r
  end.

(** [s.strip()] *)
Definition py_strip (s : string) : string := lstrip is_space (rstrip is_space s).

(** [s.split()]: the maximal runs of characters that are not whitespace;
    [tok] is the run being read. *)
Fixpoint split_ws (s : string) (tok : string) : list string :=
  match s with
  | EmptyString => if is_empty tok then [] else [tok]
  | String c s' =>
      if is_space c
      then if is_empty tok then split_ws s' EmptyString
           else tok :: split_ws s' EmptyString
      else split_ws s' (tok ++ String c EmptyString)
  end.

Definition py_split (s : string) : list string := split_ws s EmptyString.

(** [s.split(sep)] for a one-character separator: empty fields are kept. *)
Fixpoint split_on (sep : ascii) (s : string) (tok : string) : list string :=
  match s with
  | EmptyString => [tok]
  | String c s' =>
      if Ascii.eqb c sep then tok :: split_on sep s' EmptyString
      else split_on sep s' (tok ++ String c EmptyString)
  end.

Definition py_split_on (sep : ascii) (s : string) : list string :=
  split_on sep s EmptyString.

(** *** [float(s)] *)

(** Underscores may only stand between two digits; they are dropped. *)
Fixpoint drop_underscores (prev : option ascii) (s : string) : option string :=
  match s with
  | EmptyString =>
      match prev with
      | Some "_"%char => None
      | _ => Some EmptyString
      end
  | String c s' =>
      if Ascii.eqb c "_" then
        match prev with
        | Some p => if is_digit p then drop_underscores (Some c) s' else None
        | None => None
        end
      else
        match prev with
        | Some "_"%char =>
            if is_digit c then String c <$> drop_underscores (Some c) s'
            else None
        | _ => String c <$> drop_underscores (Some c) s'
        end
  end.

Definition parse_sign (s : string) : bool * string :=
  match s with
  | String "-" r => (true, r)
  | String "+" r => (false, r)
  | _ => (false, s)
  end.

(** Reads a run of digits: the number read after [acc], how many digits,
    and the rest. *)
Fixpoint take_digits (s : string) (acc : N) (count : nat) : N * nat * string :=
  match s with
  | String c r =>
      if is_digit c then take_digits r (10 * acc + digit_val c)%N (S count)
      else (acc, count, s)
  | EmptyString => (acc, count, EmptyString)
  end.

Definition to_lower (c : ascii) : ascii :=
  let n := code c in
  if ((65 <=? n) && (n <=? 90))%N then ascii_of_N (n + 32) else c.

Fixpoint lower (s : string) : string :=
  match s with
  | EmptyString => EmptyString
  | String c r => String (to_lower c) (lower r)
  end.

(** A decimal numeral without sign: digits, an optional fraction, an
    optional exponent; the result is [(digits, exp10)]. *)
Definition parse_decimal (s : string) : option (N * Z) :=
  let '(ip, n1, r1) := take_digits s 0%N 0%nat in
  let '(fp, n2, r2) :=
    match r1 with
    | String "." r => take_digits r ip 0%nat
    | _ => (ip, 0%nat, r1)
    end in
  if (n1 + n2 =? 0)%nat then None
  else
    match r2 with
    | EmptyString => Some (fp, - Z.of_nat n2)
    | String c r3 =>
        if Ascii.eqb (to_lower c) "e" then
          let '(neg, r4) := parse_sign r3 in
          let '(ex, n3, r5) := take_digits r4 0%N 0%nat in
          if (n3 =? 0)%nat || negb (is_empty r5) then None
          else Some (fp, cond_Zopp neg (Z.of_N ex) - Z.of_nat n2)
        else None
    end.

(** [float(s)] on a string *)
Definition py_float (s : string) : result spec_float :=
  match drop_underscores None (lstrip is_float_space (rstrip is_float_space s)) with
  | None => Raise ValueError
  | Some u =>
      let '(neg, r) := parse_sign u in
      let w := lower r in
      if String.eqb w "inf" || String.eqb w "infinity"
      then Ret (S754_infinity neg)
      else if String.eqb w "nan" then Ret S754_nan
      else
        match parse_decimal r with
        | Some (d, e) => Ret (b64_of_decimal neg d e)
        | None => Raise ValueError
        end
  end.

(** ** More of Python's operations on values *)

Definition both_nan (a b : pyval) : bool :=
  match a, b with
  | VFloat S754_nan, VFloat S754_nan => true
  | _, _ => false
  end.

Definition num_eq (a b : pynum) : bool :=
  match a, b with
  | NInt x, NInt y => x =? y
  | NFloat x, NFloat y => SFeqb x y
  | NInt x, NFloat y =>
      match Z_b64_compare x y with Some Eq => true | _ => false end
  | NFloat x, NInt y =>
      match Z_b64_compare y x with Some Eq => true | _ => false end
  end.

(** [a == b].  Inside a list or a dict Python compares two items by
    identity first; every not-a-number that [json.load] produces is one and
    the same object, whence [both_nan]. *)
Fixpoint py_eq (a b : pyval) {struct a} : bool :=
  match a, b with
  | VNone, VNone => true
  | VStr s, VStr t => String.eqb s t
  | VList l, VList l' =>
      (fix items (l l' : list pyval) {struct l} : bool :=
         match l, l' with
         | [], [] => true
         | x :: xs, y :: ys => (both_nan x y || py_eq x y) && items xs ys
         | _, _ => false
         end) l l'
  | VDict d, VDict d' =>
      (length d =? length d')%nat &&
      (fix entries (d : list (string * pyval)) {struct d} : bool :=
         match d with
         | [] => true
         | (k, x) :: r =>
             match dict_get d' k with
             | Some y => (both_nan x y || py_eq x y) && entries r
             | None => false
             end
         end) d
  | _, _ =>
      match as_num a, as_num b with
      | Some x, Some y => num_eq x y
      | _, _ => false
      end
  end.

(** The truth value of [v], as [not v] tests it. *)
Definition py_truthy (v : pyval) : bool :=
  match v with
  | VNone => false
  | VBool b => b
  | VInt z => negb (z =? 0)
  | VFloat f => negb (is_zero f)
  | VStr s => negb (is_empty s)
  | VList l => match l with [] => false | _ => true end
  | VDict d => match d with [] => false | _ => true end
  end.

(** The items [for x in v] runs through. *)
Definition py_iter (v : pyval) : result (list pyval) :=
  match v with
  | VList l => Ret l
  | VDict d => Ret (map (fun kv => VStr (fst kv)) d)
  | VStr s => Ret (map (fun c => VStr (String c EmptyString)) (list_ascii_of_string s))
  | _ => Raise TypeError
  end.

(** [v.get(k, default)] *)
Definition py_get (v : pyval) (k : string) (default : pyval) : result pyval :=
  match v with
  | VDict d =>
      match dict_get d k with
      | Some x => Ret x
      | None => Ret default
      end
  | _ => Raise AttributeError
  end.

(** How the interpreter that runs the script sums floats: [sum] adds from
    left to right up to CPython 3.11, and from 3.12 on it also carries
    Neumaier's compensation term. *)
Inductive sum_algorithm : Type :=
| LeftToRight
| Compensated.

Fixpoint plain_sum (f : spec_float) (xs : list spec_float) : spec_float :=
  match xs with
  | [] => f
  | x :: r => plain_sum (b64_add f x) r
  end.

Fixpoint neumaier_sum (f c : spec_float) (xs : list spec_float) : spec_float :=
  match xs with
  | [] => if negb (is_zero c) && is_finite c then b64_add f c else f
  | x :: r =>
      let t := b64_add f x in
      let c' :=
        if b64_leb (SFabs x) (SFabs f)
        then b64_add c (b64_add (b64_sub f t) x)
        else b64_add c (b64_add (b64_sub x t) f) in
      neumaier_sum t c' r
  end.

(** [sum(xs)] for floats [xs]: the start value is the int 0, to which the
    first float is added. *)
Definition py_sum (alg : sum_algorithm) (xs : list spec_float) : pyval :=
  match xs with
  | [] => VInt 0
  | x :: r =>
      let f0 := b64_add (S754_zero false) x in
      VFloat match alg with
             | LeftToRight => plain_sum f0 r
             | Compensated => neumaier_sum f0 (S754_zero false) r
             end
  end.

Definition to_upper (c : ascii) : ascii :=
  let n := code c in
  if ((97 <=? n) && (n <=? 122))%N then ascii_of_N (n - 32) else c.

(** [s.capitalize()] on ASCII letters *)
Definition py_capitalize (s : string) : string :=
  match s with
  | EmptyString => EmptyString
  | String c r => String (to_upper c) (lower r)
  end.

(** ** Landmark store *)

(** What [open("landmarks.json")] and [json.load] find. *)
Inductive json_source : Type :=
| JsonMissing
| JsonMalformed
| JsonValue (v : pyval).

(** [json.load(f)["landmarks"]] *)
Definition load_landmarks (src : json_source) : result pyval :=
  match src with
  | JsonMissing => Raise FileNotFoundError
  | JsonMalformed => Raise JSONDecodeError
  | JsonValue v => py_getitem v "landmarks"
  end.

(** ** Boundary store *)

(** A [Placemark] element, as far as [load_kml] looks at it: what
    [find("kml:name")] and [find(".//kml:coordinates")] return ([None] when
    there is no such element) and the element's [text] ([None] when it is
    empty). *)
Record placemark : Type := {
  pm_name : option (option string);
  pm_coordinates : option (option string)
}.

(** What [ET.parse] finds: the [Placemark] elements in document order. *)
Inductive kml_source : Type :=
| KmlMissing
| KmlMalformed
| KmlTree (placemarks : list placemark).

(** A stored point [[lat, lon]]. *)
Definition coord : Type := spec_float * spec_float.

(** [lon, lat, _ = map(float, c.split(","))] and the pair [[lat, lon]].
    The unpacking draws three items from the lazy [map], then a fourth to
    see that there is none. *)
Definition parse_coordinate (c : string) : result coord :=
  match py_split_on "," c with
  | [] => Raise ValueError
  | a :: r1 =>
      lon <- py_float a ;;
      match r1 with
      | [] => Raise ValueError
      | b :: r2 =>
          lat <- py_float b ;;
          match r2 with
          | [] => Raise ValueError
          | z :: r3 =>
              _ <- py_float z ;;
              match r3 with
              | [] => Ret (lat, lon)
              | d :: _ => _ <- py_float d ;; Raise ValueError
              end
          end
      end
  end.

(** The inner loop of [load_kml] over [coords_text.split()]. *)
Definition parse_ring (coords_text : string) : result (list coord) :=
  rmap parse_coordinate (py_split coords_text).

(** One turn of the loop over the placemarks. *)
Definition load_placemark (polygons : gmap (option string) (list coord))
    (pm : placemark) : result (gmap (option string) (list coord)) :=
  name <- match pm_name pm with
          | Some text => Ret text
          | None => Raise AttributeError
          end ;;
  coords_text <- match pm_coordinates pm with
                 | Some (Some text) => Ret (py_strip text)
                 | _ => Raise AttributeError
                 end ;;
  coords <- parse_ring coords_text ;;
  Ret (<[name := coords]> polygons).

Fixpoint load_placemarks (polygons : gmap (option string) (list coord))
    (pms : list placemark) : result (gmap (option string) (list coord)) :=
  match pms with
  | [] => Ret polygons
  | pm :: r => p <- load_placemark polygons pm ;; load_placemarks p r
  end.

Definition load_kml (kml_file : kml_source)
  : result (gmap (option string) (list coord)) :=
  match kml_file with
  | KmlMissing => Raise FileNotFoundError
  | KmlMalformed => Raise XMLParseError
  | KmlTree pms => load_placemarks ∅ pms
  end.

(** [kml_polygons[key]]: the keys are strings or [None]; a list or a dict
    cannot be hashed, and a number equals no key. *)
Definition kml_getitem (kml_polygons : gmap (option string) (list coord))
    (key : pyval) : result (list coord) :=
  match key with
  | VStr s =>
      match kml_polygons !! Some s with
      | Some c => Ret c
      | None => Raise KeyError
      end
  | VNone =>
      match kml_polygons !! None with
      | Some c => Ret c
      | None => Raise KeyError
      end
  | VList _ | VDict _ => Raise TypeError
  | _ => Raise KeyError
  end.

(** ** The map *)

Record polygon : Type := {
  locations : list coord;
  fill : bool;
  fill_color : string;
  fill_opacity : spec_float;
  color : string;
  weight : Z
}.

Inductive map_child : Type :=
| FullscreenControl
| PolygonLayer (p : polygon).

Record folium_map : Type := {
  location : list pyval;
  zoom_start : pyval;
  children : list map_child
}.

(** ** What one run renders *)

Inductive container : Type :=
| Page
| Sidebar
| Column (group index : nat).

Inductive widget : Type :=
| SidebarTitle
| Radio (options : list pyval)
| PageTitle
| StFolium (m : folium_map)
| SubheaderNoSelection
| InfoSelectLandmark
| Subheader (name : pyval)
| MarkdownIndex (cvi : pyval) (level : string)
| MarkdownBreakdownHeading
| MarkdownBreakdown (values : list pyval)
| MarkdownInterpretation
| MarkdownPhotosHeading
| InfoSelectForImages
| WarningNoImages
| Image (img_path : pyval) (caption : pyval)
| MarkdownRule
| MarkdownCopyright.

Inductive ui_event : Type :=
| PageConfig
| Columns (group count : nat)
| Render (place : container) (w : widget).

(** A piece of the script: it appends to the trace of what has been
    rendered, and returns or raises. *)
Definition ui (A : Type) : Type := list ui_event -> list ui_event * result A.

Definition ui_ret {A : Type} (a : A) : ui A := fun tr => (tr, Ret a).

Definition ui_bind {A B : Type} (m : ui A) (k : A -> ui B) : ui B :=
  fun tr =>
    match m tr with
    | (tr', Ret a) => k a tr'
    | (tr', Raise e) => (tr', Raise e)
    end.

Definition emit (e : ui_event) : ui unit := fun tr => (tr ++ [e], Ret tt).

Definition lift {A : Type} (r : result A) : ui A := fun tr => (tr, r).

Notation "x <~ m ;; k" := (ui_bind m (fun x => k))
  (at level 100, m at next level, right associativity) : py_scope.
Notation "m ;;; k" := (ui_bind m (fun _ => k))
  (at level 100, right associativity) : py_scope.

(** ** Map centre logic *)

Record selection : Type := {
  map_center : list pyval;
  zoom_level : pyval;
  selected_landmark : pyval;
  selected_cvi : pyval;
  selected_color : pyval
}.

(** [next(l for l in landmarks if l["name"] == selected_name)] *)
Fixpoint next_named (landmarks : list pyval) (selected_name : pyval) : result pyval :=
  match landmarks with
  | [] => Raise StopIteration
  | l :: r =>
      name <- py_getitem l "name" ;;
      if py_eq name selected_name then Ret l else next_named r selected_name
  end.

Definition map_center_logic (alg : sum_algorithm) (landmarks : list pyval)
    (kml_polygons : gmap (option string) (list coord))
    (selected_name : pyval) : result selection :=
  match selected_name with
  | VNone =>
      Ret {| map_center := [VFloat f_11_230; VFloat f_125_003];
             zoom_level := VFloat f_13_5;
             selected_landmark := VNone;
             selected_cvi := VNone;
             selected_color := VNone |}
  | _ =>
      l <- next_named landmarks selected_name ;;
      cvi <- compute_cvi l ;;
      col <- get_color cvi ;;
      selected_coords <- kml_getitem kml_polygons selected_name ;;
      let n := VInt (Z.of_nat (length selected_coords)) in
      c0 <- py_truediv (py_sum alg (map fst selected_coords)) n ;;
      c1 <- py_truediv (py_sum alg (map snd selected_coords)) n ;;
      Ret {| map_center := [c0; c1];
             zoom_level := VInt 15;
             selected_landmark := l;
             selected_cvi := cvi;
             selected_color := VStr col |}
  end.

(** ** Map *)

(** One turn of the loop that draws the landmarks. *)
Definition draw_landmark (kml_polygons : gmap (option string) (list coord))
    (selected_name : pyval) (l : pyval) : result polygon :=
  cvi <- compute_cvi l ;;
  col <- get_color cvi ;;
  name <- py_getitem l "name" ;;
  coords <- kml_getitem kml_polygons name ;;
  let border_weight := if py_eq name selected_name then 4 else 1 in
  Ret {| locations := coords;
         fill := true;
         fill_color := col;
         fill_opacity := f_0_6;
         color := "black";
         weight := border_weight |}.

Definition draw_map (landmarks : list pyval)
    (kml_polygons : gmap (option string) (list coord))
    (selected_name : pyval) (sel : selection) : result folium_map :=
  polys <- rmap (draw_landmark kml_polygons selected_name) landmarks ;;
  Ret {| location := map_center sel;
         zoom_start := zoom_level sel;
         children := FullscreenControl :: map PolygonLayer polys |}.

(** ** Main UI *)

Definition details_panel (selected_name : pyval) (sel : selection) : ui unit :=
  match selected_name with
  | VNone =>
      emit (Render (Column 0 1) SubheaderNoSelection) ;;;
      emit (Render (Column 0 1) InfoSelectLandmark)
  | _ =>
      emit (Render (Column 0 1) (Subheader selected_name)) ;;;
      level <~ lift match selected_color sel with
                    | VStr c => Ret (py_capitalize c)
                    | _ => Raise AttributeError
                    end ;;
      emit (Render (Column 0 1) (MarkdownIndex (selected_cvi sel) level)) ;;;
      emit (Render (Column 0 1) MarkdownBreakdownHeading) ;;;
      values <~ lift (
        let l := selected_landmark sel in
        g <- py_getitem l "geomorphology" ;;
        gs <- py_getitem g "score" ;;
        g' <- py_getitem l "geomorphology" ;;
        gd <- py_getitem g' "description" ;;
        n <- py_getitem l "natural_buffers" ;;
        ns <- py_getitem n "score" ;;
        n' <- py_getitem l "natural_buffers" ;;
        nd <- py_getitem n' "description" ;;
        e <- py_getitem l "engineering_structures" ;;
        es <- py_getitem e "score" ;;
        e' <- py_getitem l "engineering_structures" ;;
        ed <- py_getitem e' "description" ;;
        Ret [gs; gd; ns; nd; es; ed]) ;;
      emit (Render (Column 0 1) (MarkdownBreakdown values))
  end.

(** ** Image showcase *)

(** The loop over [enumerate(images)], from index [idx] on. *)
Fixpoint show_images (selected_name : pyval) (idx : nat) (images : list pyval) : ui unit :=
  match images with
  | [] => ui_ret tt
  | img_path :: r =>
      emit (Render (Column 1 (idx mod 3)) (Image img_path selected_name)) ;;;
      show_images selected_name (S idx) r
  end.

Definition image_showcase (selected_name : pyval) (sel : selection) : ui unit :=
  emit (Render Page MarkdownPhotosHeading) ;;;
  match selected_name with
  | VNone => emit (Render Page InfoSelectForImages)
  | _ =>
      images <~ lift (py_get (selected_landmark sel) "images" (VList [])) ;;
      if negb (py_truthy images) then emit (Render Page WarningNoImages)
      else
        emit (Columns 1 3) ;;;
        items <~ lift (py_iter images) ;;
        show_images selected_name 0 items
  end.

(** ** The script *)

(** The two files, the value the sidebar's radio widget returns in this
    run ([VNone], or the option the user has picked), and the interpreter's
    way of summing floats. *)
Record world : Type := {
  landmarks_json : json_source;
  boundaries_kml : kml_source;
  radio_value : pyval;
  python_sum : sum_algorithm
}.

Definition script (w : world) : ui unit :=
  emit PageConfig ;;;
  landmarks <~ lift (load_landmarks (landmarks_json w)) ;;
  kml_polygons <~ lift (load_kml (boundaries_kml w)) ;;
  emit (Render Sidebar SidebarTitle) ;;;
  ls <~ lift (py_iter landmarks) ;;
  landmark_names <~ lift (rmap (fun l => py_getitem l "name") ls) ;;
  emit (Render Sidebar (Radio landmark_names)) ;;;
  let selected_name := radio_value w in
  sel <~ lift (map_center_logic (python_sum w) ls kml_polygons selected_name) ;;
  m <~ lift (draw_map ls kml_polygons selected_name sel) ;;
  emit (Render Page PageTitle) ;;;
  emit (Columns 0 2) ;;;
  emit (Render (Column 0 0) (StFolium m)) ;;;
  details_panel selected_name sel ;;;
  emit (Render Page MarkdownInterpretation) ;;;
  image_showcase selected_name sel ;;;
  emit (Render Page MarkdownRule) ;;;
  emit (Render Page MarkdownCopyright).

Definition run (w : world) : list ui_event * result unit := script w [].
(** ** Exact values

    The rational numbers the Python numbers denote; the theorems compare
    the script's float arithmetic with them. *)

(** The rational number a finite float denotes. *)
Definition b64_value (f : spec_float) : option Q :=
  match f with
  | S754_zero _ => Some (inject_Z 0)
  | S754_finite s m e =>
      let sm := cond_Zopp s (Zpos m) in
      Some (if 0 <=? e then inject_Z (sm * 2 ^ e)
            else Qmake sm (Z.to_pos (2 ^ (- e))))
  | _ => None
  end.

(** The rational number a Python number denotes. *)
Definition py_value (v : pyval) : option Q :=
  match as_num v with
  | Some (NInt z) => Some (inject_Z z)
  | Some (NFloat f) => b64_value f
  | None => None
  end.

(** A float value is a canonical binary64 number. *)
Definition py_valid (v : pyval) : bool :=
  match v with
  | VFloat f => b64_valid f
  | _ => true
  end.

(** A finite float, and a number, as an integer multiple of [2 ^ -1074]. *)
Definition b64_scaled (f : spec_float) : Z :=
  match f with
  | S754_finite s m e => cond_Zopp s (Zpos m) * 2 ^ (e + 1074)
  | _ => 0
  end.

Definition py_scaled (v : pyval) : Z :=
  match as_num v with
  | Some (NInt z) => z * 2 ^ 1074
  | Some (NFloat f) => b64_scaled f
  | None => 0
  end.

Definition two_1074 : positive := Z.to_pos (2 ^ 1074).

(** The five colours, from the most to the least severe bucket. *)
Definition colors : list string :=
  ["red"; "orange"; "yellow"; "green"; "blue"]%string.

Definition severity_rank (c : string) : nat :=
  if String.eqb c "red" then 0
  else if String.eqb c "orange" then 1
  else if String.eqb c "yellow" then 2
  else if String.eqb c "green" then 3
  else if String.eqb c "blue" then 4
  else 5.

(** The floats the numerals [1.01] and [4.01] denote. *)
Definition f_1_01 : spec_float := Eval vm_compute in b64_of_decimal false 101 (-2).
Definition f_4_01 : spec_float := Eval vm_compute in b64_of_decimal false 401 (-2).

(** ** The index in exact arithmetic *)

(** The arithmetic mean of three integer scores. *)
Definition mean3 (g n e : Z) : Q := (inject_Z (g + n + e) / inject_Z 3)%Q.

(** The two-decimal number [k / 100]. *)
Definition hundredths (k : Z) : Q := (inject_Z k / inject_Z 100)%Q.

(** The float the two-decimal numeral [k / 100] denotes. *)
Definition b64_of_hundredths (k : Z) : spec_float :=
  b64_of_decimal (k <? 0) (Z.abs_N k) (-2).

(** Structural equality of floats. *)
Definition b64_same (f g : spec_float) : bool :=
  match f, g with
  | S754_zero s, S754_zero s' => Bool.eqb s s'
  | S754_infinity s, S754_infinity s' => Bool.eqb s s'
  | S754_nan, S754_nan => true
  | S754_finite s m e, S754_finite s' m' e' =>
      Bool.eqb s s' && Pos.eqb m m' && Z.eqb e e'
  | _, _ => false
  end.

(** The index of a record whose three scores are ints of sum [s]. *)
Definition cvi_of_sum (s : Z) : result pyval :=
  q <- py_truediv (VInt s) (VInt 3) ;; py_round q 2.

(** The integer nearest to [100 * s / 3]. *)
Definition mean_hundredths (s : Z) : Z := (200 * s + 3) / 6.

(** The relative error of binary64 rounding to nearest. *)
Definition unit_roundoff : Q := 1 # 9007199254740992.

(** [cvi_of_sum s] is the float of the numeral [mean_hundredths s / 100],
    a canonical float within the rounding error of that number. *)
Definition cvi_sum_ok (s : Z) : bool :=
  let k := mean_hundredths s in
  match cvi_of_sum s with
  | Ret (VFloat f) =>
      match b64_value f with
      | Some v =>
          b64_same f (b64_of_hundredths k) && b64_valid f &&
          Qle_bool (Qabs (v - hundredths k)) (Qabs (hundredths k) * unit_roundoff)
      | None => false
      end
  | _ => false
  end.

Definition score_bound : Z := 1000.

(** ** Sample data *)

Definition sub_assessment (score : pyval) (description : string) : pyval :=
  VDict [("score"%string, score); ("description"%string, VStr description)].

Definition sample_landmark (name : string) (g n e : pyval) : pyval :=
  VDict [("name"%string, VStr name);
         ("geomorphology"%string, sub_assessment g "low-lying shore");
         ("natural_buffers"%string, sub_assessment n "mangrove strip");
         ("engineering_structures"%string, sub_assessment e "sea wall")].

(** ** Notions the theorems are stated with *)

(** The mean of three scores in Python's arithmetic: [(g + n + e) / 3]. *)
Definition py_mean3 (g n e : pyval) : result pyval :=
  s1 <- py_add g n ;; s2 <- py_add s1 e ;; py_truediv s2 (VInt 3).

(** The sign bit of a float. *)
Definition b64_sign (f : spec_float) : bool :=
  match f with
  | S754_zero s | S754_infinity s | S754_finite s _ _ => s
  | S754_nan => false
  end.

(** An entry of a coordinate ring that reads [lon,lat,alt]. *)
Definition well_formed_triple (c : string) (lon lat : spec_float) : Prop :=
  exists (a b z : string) (alt : spec_float),
    py_split_on "," c = [a; b; z] /\
    py_float a = Ret lon /\ py_float b = Ret lat /\ py_float z = Ret alt.

(** From the source's order (lon, lat) to the stored order (lat, lon). *)
Definition swap_lon_lat (p : spec_float * spec_float) : coord := (snd p, fst p).

(** The arithmetic mean of a list of floats, in Python's arithmetic:
    [sum(xs) / len(xs)]. *)
Definition arith_mean (alg : sum_algorithm) (xs : list spec_float) : result pyval :=
  py_truediv (py_sum alg xs) (VInt (Z.of_nat (length xs))).

(** The images shown in column [j] of the gallery, from top to bottom. *)
Fixpoint column_items (j : nat) (tr : list ui_event) : list pyval :=
  match tr with
  | [] => []
  | Render (Column 1 i) (Image img _) :: r =>
      if (i =? j)%nat then img :: column_items j r else column_items j r
  | _ :: r => column_items j r
  end.

(** Row [r] of the gallery: the [r]-th image of each of the three columns
    that has one, from left to right. *)
Definition grid_row (tr : list ui_event) (r : nat) : list pyval :=
  omap (fun j => column_items j tr !! r) [0; 1; 2]%nat.

(** The captions of the images shown. *)
Fixpoint captions (tr : list ui_event) : list pyval :=
  match tr with
  | [] => []
  | Render _ (Image _ caption) :: r => caption :: captions r
  | _ :: r => captions r
  end.

(** The map that [st_folium] displays, if the run got there. *)
Fixpoint shown_map (tr : list ui_event) : option folium_map :=
  match tr with
  | [] => None
  | Render _ (StFolium m) :: _ => Some m
  | _ :: r => shown_map r
  end.

(** The floats of the numerals [11.2], [125.0], [11.4] and [125.5]. *)
Definition f_11_2 : spec_float := Eval vm_compute in b64_of_decimal false 112 (-1).
Definition f_125_0 : spec_float := Eval vm_compute in b64_of_decimal false 1250 (-1).
Definition f_11_4 : spec_float := Eval vm_compute in b64_of_decimal false 114 (-1).
Definition f_125_5 : spec_float := Eval vm_compute in b64_of_decimal false 1255 (-1).

(** A placemark with a name and a coordinate ring. *)
Definition sample_placemark (name coordinates : string) : placemark :=
  {| pm_name := Some (Some name); pm_coordinates := Some (Some coordinates) |}.

(** The landmark [l] is the one the selection names. *)
Definition is_selected (selected_name : pyval) (l : pyval) : Prop :=
  exists name, py_getitem l "name" = Ret name /\ py_eq name selected_name = true.

(** The polygon [p] is the landmark [l] as the map shows it: filled with
    the colour of the landmark's index, at opacity 0.6, outlined in black,
    along the landmark's boundary, the outline 4 wide when the landmark is
    selected and 1 wide when it is not. *)
Definition drawn_as (kml_polygons : gmap (option string) (list coord))
    (selected_name : pyval) (l : pyval) (p : polygon) : Prop :=
  exists cvi name,
    compute_cvi l = Ret cvi /\
    get_color cvi = Ret (fill_color p) /\
    fill p = true /\
    fill_opacity p = f_0_6 /\
    color p = "black"%string /\
    py_getitem l "name" = Ret name /\
    kml_getitem kml_polygons name = Ret (locations p) /\
    weight p = (if py_eq name selected_name then 4 else 1).

(** The landmark [l] has an index, a colour and a boundary. *)
Definition drawable (kml_polygons : gmap (option string) (list coord))
    (l : pyval) : Prop :=
  exists cvi col name coords,
    compute_cvi l = Ret cvi /\ get_color cvi = Ret col /\
    py_getitem l "name" = Ret name /\
    kml_getitem kml_polygons name = Ret coords.

(** The three sub-assessment fields of a landmark record. *)
Definition sub_assessment_fields : list string :=
  ["geomorphology"; "natural_buffers"; "engineering_structures"]%string.

(** What the loop over the images renders, from index [idx] on. *)
Fixpoint image_events (selected_name : pyval) (idx : nat) (images : list pyval)
  : list ui_event :=
  match images with
  | [] => []
  | img :: r =>
      Render (Column 1 (idx mod 3)) (Image img selected_name)
      :: image_events selected_name (S idx) r
  end.

(** What the script has rendered when the sidebar is complete. *)
Definition sidebar_trace (landmark_names : list pyval) : list ui_event :=
  [PageConfig; Render Sidebar SidebarTitle; Render Sidebar (Radio landmark_names)].

(** The script from [st.title] on, once the map is built. *)
Definition main_ui (selected_name : pyval) (sel : selection) (m : folium_map)
  : ui unit :=
  emit (Render Page PageTitle) ;;;
  emit (Columns 0 2) ;;;
  emit (Render (Column 0 0) (StFolium m)) ;;;
  details_panel selected_name sel ;;;
  emit (Render Page MarkdownInterpretation) ;;;
  image_showcase selected_name sel ;;;
  emit (Render Page MarkdownRule) ;;;
  emit (Render Page MarkdownCopyright).

(** A landmark file with one complete record, and no boundary at all. *)
Definition unmatched_world : world :=
  {| landmarks_json :=
       JsonValue (VDict [("landmarks"%string,
                          VList [sample_landmark "Anibong" (VInt 4) (VInt 3) (VInt 5)])]);
     boundaries_kml := KmlTree [];
     radio_value := VNone;
     python_sum := Compensated |}.

(** A landmark file whose only record has a name and nothing else, with
    its boundary. *)
Definition incomplete_world : world :=
  {| landmarks_json :=
       JsonValue (VDict [("landmarks"%string,
                          VList [VDict [("name"%string, VStr "Anibong")]])]);
     boundaries_kml := KmlTree [sample_placemark "Anibong" "125.0,11.2,0"];
     radio_value := VNone;
     python_sum := Compensated |}.

(** A complete data set: two landmarks with their boundaries, the first
    with four photos, and the first selected. *)
Definition sample_images : list pyval :=
  [VStr "img/a1.jpg"; VStr "img/a2.jpg"; VStr "img/a3.jpg"; VStr "img/a4.jpg"].

Definition anibong : pyval :=
  VDict [("name"%string, VStr "Anibong");
         ("geomorphology"%string, sub_assessment (VInt 4) "low-lying shore");
         ("natural_buffers"%string, sub_assessment (VInt 3) "mangrove strip");
         ("engineering_structures"%string, sub_assessment (VInt 5) "sea wall");
         ("images"%string, VList sample_images)].

Definition astrodome : pyval :=
  sample_landmark "Astrodome" (VInt 1) (VInt 2) (VInt 2).

Definition sample_world : world :=
  {| landmarks_json :=
       JsonValue (VDict [("landmarks"%string, VList [anibong; astrodome])]);
     boundaries_kml :=
       KmlTree [sample_placemark "Anibong" "125.0,11.2,0 125.5,11.4,0";
                sample_placemark "Astrodome" "
                  125.0,11.2,0 125.5,11.2,0 125.5,11.4,0
                "];
     radio_value := VStr "Anibong";
     python_sum := Compensated |}.

Definition sample_polygons : gmap (option string) (list coord) :=
  <[Some "Astrodome"%string := [(f_11_2, f_125_0); (f_11_2, f_125_5); (f_11_4, f_125_5)]]>
    (<[Some "Anibong"%string := [(f_11_2, f_125_0); (f_11_4, f_125_5)]]> ∅).

(** ** Notions the further theorems are stated with *)

(** The colour by the sum of three int scores: the thresholds 1, 2, 3 and 4
    on the mean are 3, 6, 9 and 12 on the sum. *)
Definition color_of_sum (s : Z) : string :=
  if s <=? 3 then "red"
  else if s <=? 6 then "orange"
  else if s <=? 9 then "yellow"
  else if s <=? 12 then "green"
  else "blue".

(** [get_color(compute_cvi(l))] *)
Definition landmark_color (l : pyval) : result string :=
  cvi <- compute_cvi l ;; get_color cvi.

(** The colour of a record whose int scores sum to [s] is [color_of_sum s]. *)
Definition color_sum_ok (s : Z) : bool :=
  match cvi <- cvi_of_sum s ;; get_color cvi with
  | Ret c => String.eqb c (color_of_sum s)
  | Raise _ => false
  end.

(** What one placemark contributes to the boundaries: its name and its
    ring, as the body of the loop of [load_kml] reads them. *)
Definition placemark_entry (pm : placemark) : result (option string * list coord) :=
  name <- match pm_name pm with
          | Some text => Ret text
          | None => Raise AttributeError
          end ;;
  coords_text <- match pm_coordinates pm with
                 | Some (Some text) => Ret (py_strip text)
                 | _ => Raise AttributeError
                 end ;;
  coords <- parse_ring coords_text ;;
  Ret (name, coords).

(** [polygons[name] = coords] for a list of pairs, in order. *)
Definition store_entries (polygons : gmap (option string) (list coord))
    (entries : list (option string * list coord))
  : gmap (option string) (list coord) :=
  fold_left (fun p e => <[fst e := snd e]> p) entries polygons.

(** Every character of [s] is whitespace; no character of [s] is. *)
Fixpoint all_space (s : string) : bool :=
  match s with
  | EmptyString => true
  | String c r => is_space c && all_space r
  end.

Fixpoint no_space (s : string) : bool :=
  match s with
  | EmptyString => true
  | String c r => negb (is_space c) && no_space r
  end.

(** The text of a ring: leading whitespace, then every entry followed by
    its separator. *)
Fixpoint ring_text (entries : list (string * string)) : string :=
  match entries with
  | [] => EmptyString
  | (e, sep) :: r => (e ++ sep ++ ring_text r)%string
  end.

(** Every entry is a nonempty run without whitespace, every separator is
    whitespace, and only the last separator may be empty. *)
Fixpoint ring_layout (entries : list (string * string)) : bool :=
  match entries with
  | [] => true
  | (e, sep) :: r =>
      negb (is_empty e) && no_space e && all_space sep &&
      (match r with [] => true | _ => negb (is_empty sep) end) &&
      ring_layout r
  end.

(** A landmark with a name other than the selected one. *)
Definition other_name (selected_name : pyval) (l : pyval) : Prop :=
  exists name, py_getitem l "name" = Ret name /\ py_eq name selected_name = false.

(** The view of the map with nothing selected. *)
Definition overview : selection :=
  {| map_center := [VFloat f_11_230; VFloat f_125_003];
     zoom_level := VFloat f_13_5;
     selected_landmark := VNone;
     selected_cvi := VNone;
     selected_color := VNone |}.

(** The view and the map of the sample data with Anibong selected. *)
Definition sample_view : selection :=
  {| map_center := [VFloat (b64_of_decimal false 113 (-1));
                    VFloat (b64_of_decimal false 12525 (-2))];
     zoom_level := VInt 15;
     selected_landmark := anibong;
     selected_cvi := VFloat f_4_0;
     selected_color := VStr "green" |}.

Definition sample_map : folium_map :=
  {| location := map_center sample_view;
     zoom_start := zoom_level sample_view;
     children :=
       [FullscreenControl;
        PolygonLayer {| locations := [(f_11_2, f_125_0); (f_11_4, f_125_5)];
                        fill := true; fill_color := "green";
                        fill_opacity := f_0_6; color := "black";
                        weight := 4 |};
        PolygonLayer {| locations := [(f_11_2, f_125_0); (f_11_2, f_125_5);
                                      (f_11_4, f_125_5)];
                        fill := true; fill_color := "orange";
                        fill_opacity := f_0_6; color := "black";
                        weight := 1 |}] |}.

(** What the scoring breakdown reads from the selected record: the score
    and the description of the three sub-assessments, in the order of the
    text. *)
Definition scoring_breakdown (l : pyval) : result (list pyval) :=
  g <- py_getitem l "geomorphology" ;;
  gs <- py_getitem g "score" ;;
  g' <- py_getitem l "geomorphology" ;;
  gd <- py_getitem g' "description" ;;
  n <- py_getitem l "natural_buffers" ;;
  ns <- py_getitem n "score" ;;
  n' <- py_getitem l "natural_buffers" ;;
  nd <- py_getitem n' "description" ;;
  e <- py_getitem l "engineering_structures" ;;
  es <- py_getitem e "score" ;;
  e' <- py_getitem l "engineering_structures" ;;
  ed <- py_getitem e' "description" ;;
  Ret [gs; gd; ns; nd; es; ed].

(** The record has a description in each of its three sub-assessments. *)
Definition described (l : pyval) : Prop :=
  forall field, In field sub_assessment_fields ->
                exists a d, py_getitem l field = Ret a /\
                            py_getitem a "description" = Ret d.

(** What the script renders from [st.title] to the map. *)
Definition map_events (m : folium_map) : list ui_event :=
  [Render Page PageTitle; Columns 0 2; Render (Column 0 0) (StFolium m)].

(** The details panel with nothing selected, and with a landmark selected. *)
Definition idle_panel : list ui_event :=
  [Render (Column 0 1) SubheaderNoSelection;
   Render (Column 0 1) InfoSelectLandmark].

Definition selected_panel (selected_name cvi : pyval) (level : string)
    (values : list pyval) : list ui_event :=
  [Render (Column 0 1) (Subheader selected_name);
   Render (Column 0 1) (MarkdownIndex cvi level);
   Render (Column 0 1) MarkdownBreakdownHeading;
   Render (Column 0 1) (MarkdownBreakdown values)].

(** The gallery for the value [images] of the selected record. *)
Definition gallery (selected_name : pyval) (images : list pyval) : list ui_event :=
  match images with
  | [] => [Render Page WarningNoImages]
  | _ => Columns 1 3 :: image_events selected_name 0 images
  end.

Definition footer : list ui_event :=
  [Render Page MarkdownRule; Render Page MarkdownCopyright].

(** The whole page with nothing selected. *)
Definition idle_page (landmark_names : list pyval) (m : folium_map) : list ui_event :=
  sidebar_trace landmark_names ++ map_events m ++ idle_panel ++
  [Render Page MarkdownInterpretation; Render Page MarkdownPhotosHeading;
   Render Page InfoSelectForImages] ++ footer.

(** The whole page with a landmark selected. *)
Definition selected_page (landmark_names : list pyval) (m : folium_map)
    (selected_name cvi : pyval) (level : string) (values images : list pyval)
  : list ui_event :=
  sidebar_trace landmark_names ++ map_events m ++
  selected_panel selected_name cvi level values ++
  [Render Page MarkdownInterpretation; Render Page MarkdownPhotosHeading] ++
  gallery selected_name images ++ footer.

(** The names of the five levels, as the panel shows them. *)
Definition levels : list string := ["Red"; "Orange"; "Yellow"; "Green"; "Blue"]%string.

(** The events of the details panel, and those of the image showcase. *)
Definition panel_event (e : ui_event) : bool :=
  match e with
  | Render (Column 0 1) _ => true
  | _ => false
  end.

Definition showcase_event (e : ui_event) : bool :=
  match e with
  | Render Page MarkdownPhotosHeading
  | Render Page InfoSelectForImages
  | Render Page WarningNoImages
  | Columns 1 3
  | Render (Column 1 _) (Image _ _) => true
  | _ => false
  end.

(** The radio widgets of a trace, with their options. *)
Fixpoint radios (tr : list ui_event) : list (list pyval) :=
  match tr with
  | [] => []
  | Render _ (Radio options) :: r => options :: radios r
  | _ :: r => radios r
  end.

(** The maps a trace displays. *)
Fixpoint shown_maps (tr : list ui_event) : list folium_map :=
  match tr with
  | [] => []
  | Render _ (StFolium m) :: r => m :: shown_maps r
  | _ :: r => shown_maps r
  end.

(** The trace ends with the copyright line. *)
Definition footer_shown (tr : list ui_event) : bool :=
  match last tr with
  | Some (Render Page MarkdownCopyright) => true
  | _ => false
  end.

(** A record whose first sub-assessment has a score and no description,
    selected, with its boundary. *)
Definition undescribed : pyval :=
  VDict [("name"%string, VStr "Anibong");
         ("geomorphology"%string, VDict [("score"%string, VInt 4)]);
         ("natural_buffers"%string, sub_assessment (VInt 3) "mangrove strip");
         ("engineering_structures"%string, sub_assessment (VInt 5) "sea wall")].

Definition undescribed_world : world :=
  {| landmarks_json := JsonValue (VDict [("landmarks"%string, VList [undescribed])]);
     boundaries_kml := KmlTree [sample_placemark "Anibong" "125.0,11.2,0 125.5,11.4,0"];
     radio_value := VStr "Anibong";
     python_sum := Compensated |}.

Definition undescribed_view : selection :=
  {| map_center := map_center sample_view;
     zoom_level := VInt 15;
     selected_landmark := undescribed;
     selected_cvi := VFloat f_4_0;
     selected_color := VStr "green" |}.

Definition undescribed_map : folium_map :=
  {| location := map_center sample_view;
     zoom_start := VInt 15;
     children :=
       [FullscreenControl;
        PolygonLayer {| locations := [(f_11_2, f_125_0); (f_11_4, f_125_5)];
                        fill := true; fill_color := "green";
                        fill_opacity := f_0_6; color := "black";
                        weight := 4 |}] |}.

(** A selected record whose [images] is [null]. *)
Definition null_images_view : selection :=
  {| map_center := map_center sample_view;
     zoom_level := VInt 15;
     selected_landmark := VDict [("name"%string, VStr "Anibong");
                                 ("images"%string, VNone)];
     selected_cvi := VFloat f_4_0;
     selected_color := VStr "green" |}.

(** * Theorems *)

(** ** Binary64 comparison is comparison of the denoted values *)

Lemma digits2_pos_bounds (m : positive) :
  2 ^ (Zpos (digits2_pos m) - 1) <= Zpos m < 2 ^ Zpos (digits2_pos m).
Proof.
  induction m as [m IH | m IH |]; cbn [digits2_pos].
  - rewrite Pos2Z.inj_succ.
    replace (Z.succ (Zpos (digits2_pos m)) - 1) with (Z.succ (Zpos (digits2_pos m) - 1)) by lia.
    rewrite !Z.pow_succ_r by lia. lia.
  - rewrite Pos2Z.inj_succ.
    replace (Z.succ (Zpos (digits2_pos m)) - 1) with (Z.succ (Zpos (digits2_pos m) - 1)) by lia.
    rewrite !Z.pow_succ_r by lia. lia.
  - cbn. lia.
Qed.

Lemma valid_finite_bounds s m e :
  b64_valid (S754_finite s m e) = true ->
  -1074 <= e <= 971 /\ Zpos m < 2 ^ 53 /\ (-1074 < e -> 2 ^ 52 <= Zpos m).
Proof.
  unfold b64_valid, valid_binary, bounded, canonical_mantissa, fexp, emin, prec64, emax64.
  intros H. apply andb_prop in H as [Hc He].
  apply Z.eqb_eq in Hc. apply Z.leb_le in He.
  pose proof (digits2_pos_bounds m) as [Hlo Hhi].
  set (d := Zpos (digits2_pos m)) in *.
  assert (Hd : d <= 53) by lia.
  split; [lia|]. split.
  - eapply Z.lt_le_trans; [exact Hhi|]. apply Z.pow_le_mono_r; lia.
  - intros Hgt. assert (d = 53) by lia. subst d. rewrite H in Hlo. exact Hlo.
Qed.

Lemma scaled_lt_of_exp_lt m1 e1 m2 e2 :
  -1074 <= e1 -> e1 < e2 ->
  Zpos m1 < 2 ^ 53 -> 2 ^ 52 <= Zpos m2 ->
  Zpos m1 * 2 ^ (e1 + 1074) < Zpos m2 * 2 ^ (e2 + 1074).
Proof.
  intros He1 Hlt Hm1 Hm2.
  assert (Hp1 : 0 < 2 ^ (e1 + 1074)) by (apply Z.pow_pos_nonneg; lia).
  assert (Hp2 : 2 ^ (e1 + 1074 + 1) <= 2 ^ (e2 + 1074))
    by (apply Z.pow_le_mono_r; lia).
  rewrite Z.pow_add_r in Hp2 by lia.
  change (2 ^ 53) with (2 ^ 52 * 2) in Hm1.
  change (2 ^ 1) with 2 in Hp2.
  set (a := 2 ^ (e1 + 1074)) in *. set (b := 2 ^ (e2 + 1074)) in *.
  set (h := 2 ^ 52) in *.
  assert (0 < h) by (subst h; lia).
  nia.
Qed.

Lemma Zcompare_mul_pos_r (a b p : Z) :
  0 < p -> (a * p ?= b * p) = (a ?= b).
Proof.
  intros Hp. destruct (Z.compare_spec a b) as [-> | H | H].
  - apply Z.compare_refl.
  - apply Z.compare_lt_iff. nia.
  - apply Z.compare_gt_iff. nia.
Qed.

Lemma b64_compare_scaled (f g : spec_float) :
  b64_valid f = true -> b64_valid g = true ->
  is_finite f = true -> is_finite g = true ->
  SFcompare f g = Some (b64_scaled f ?= b64_scaled g).
Proof.
  intros Vf Vg Ff Fg.
  destruct f as [sf | sf | | sf mf ef], g as [sg | sg | | sg mg eg];
    try discriminate; cbn [SFcompare b64_scaled].
  - reflexivity.
  - apply valid_finite_bounds in Vg as (Heg & _ & _).
    assert (0 < 2 ^ (eg + 1074)) by (apply Z.pow_pos_nonneg; lia).
    f_equal. symmetry. destruct sg; cbn [cond_Zopp].
    + apply Z.compare_gt_iff. nia.
    + apply Z.compare_lt_iff. nia.
  - apply valid_finite_bounds in Vf as (Hef & _ & _).
    assert (0 < 2 ^ (ef + 1074)) by (apply Z.pow_pos_nonneg; lia).
    f_equal. symmetry. destruct sf; cbn [cond_Zopp].
    + apply Z.compare_lt_iff. nia.
    + apply Z.compare_gt_iff. nia.
  - apply valid_finite_bounds in Vf as (Hef & Hmf & Hnf).
    apply valid_finite_bounds in Vg as (Heg & Hmg & Hng).
    assert (Hpf : 0 < 2 ^ (ef + 1074)) by (apply Z.pow_pos_nonneg; lia).
    assert (Hpg : 0 < 2 ^ (eg + 1074)) by (apply Z.pow_pos_nonneg; lia).
    f_equal. symmetry.
    destruct sf, sg; cbn [cond_Zopp].
    + destruct (Z.compare_spec ef eg) as [-> | Hlt | Hgt].
      * rewrite !Z.mul_opp_l, Z.compare_opp.
        rewrite Zcompare_mul_pos_r by exact Hpg.
        exact (Z.compare_antisym (Zpos mf) (Zpos mg)).
      * apply Z.compare_gt_iff.
        pose proof (scaled_lt_of_exp_lt mf ef mg eg ltac:(lia) Hlt Hmf ltac:(apply Hng; lia)).
        lia.
      * apply Z.compare_lt_iff.
        pose proof (scaled_lt_of_exp_lt mg eg mf ef ltac:(lia) Hgt Hmg ltac:(apply Hnf; lia)).
        lia.
    + apply Z.compare_lt_iff. nia.
    + apply Z.compare_gt_iff. nia.
    + destruct (Z.compare_spec ef eg) as [-> | Hlt | Hgt].
      * rewrite Zcompare_mul_pos_r by exact Hpg. reflexivity.
      * apply Z.compare_lt_iff.
        apply scaled_lt_of_exp_lt; [lia | exact Hlt | exact Hmf | apply Hng; lia].
      * apply Z.compare_gt_iff.
        apply scaled_lt_of_exp_lt; [lia | exact Hgt | exact Hmg | apply Hnf; lia].
Qed.

(** The rational number a finite float denotes. *)

(** The rational number a Python number denotes. *)

(** Floats inside a value are canonical binary64 numbers. *)

Lemma pow2_1074_split (e : Z) :
  -1074 <= e < 0 -> 2 ^ 1074 = 2 ^ (- e) * 2 ^ (e + 1074).
Proof.
  intros He. rewrite <- Z.pow_add_r by lia. f_equal. lia.
Qed.

Lemma two_1074_eq : Zpos two_1074 = 2 ^ 1074.
Proof. unfold two_1074. apply Z2Pos.id. apply Z.pow_pos_nonneg; lia. Qed.

(** A finite number is its scaled integer over [2 ^ 1074]. *)

Lemma py_value_scaled (v : pyval) (q : Q) :
  py_valid v = true -> py_value v = Some q ->
  (q == Qmake (py_scaled v) two_1074)%Q.
Proof.
  intros Vv Hq.
  assert (H0 : 0 < 2 ^ 1074) by (apply Z.pow_pos_nonneg; lia).
  unfold py_value, py_scaled in *.
  destruct (as_num v) as [[z | f] | ] eqn:Hn; try discriminate.
  - injection Hq as <-. unfold Qeq; cbn [Qnum Qden inject_Z].
    rewrite two_1074_eq. lia.
  - assert (Vf : b64_valid f = true).
    { destruct v; cbn in Hn; try discriminate; injection Hn as <-; exact Vv. }
    destruct f as [s | s | | s m e]; try discriminate; cbn in Hq.
    + injection Hq as <-. reflexivity.
    + apply valid_finite_bounds in Vf as (He & _ & _).
      cbn [b64_scaled]. set (sm := cond_Zopp s (Z.pos m)) in *.
      destruct (Z.leb_spec 0 e) as [Hpos | Hneg]; injection Hq as <-;
        unfold Qeq; cbn [Qnum Qden inject_Z]; rewrite two_1074_eq.
      * rewrite Z.pow_add_r by lia. lia.
      * assert (Hd : 0 < 2 ^ (- e)) by (apply Z.pow_pos_nonneg; lia).
        rewrite Z2Pos.id by exact Hd.
        rewrite (pow2_1074_split e) by lia. lia.
Qed.

Lemma py_value_le_scaled (v : pyval) (q : Q) (k : Z) :
  py_valid v = true -> py_value v = Some q ->
  (q <= inject_Z k)%Q <-> py_scaled v <= k * 2 ^ 1074.
Proof.
  intros Vv Hq. rewrite (py_value_scaled v q Vv Hq).
  unfold Qle; cbn [Qnum Qden inject_Z]. rewrite two_1074_eq. lia.
Qed.

Lemma py_value_le_le_scaled (v1 v2 : pyval) (q1 q2 : Q) :
  py_valid v1 = true -> py_value v1 = Some q1 ->
  py_valid v2 = true -> py_value v2 = Some q2 ->
  (q1 <= q2)%Q <-> py_scaled v1 <= py_scaled v2.
Proof.
  intros V1 H1 V2 H2.
  rewrite (py_value_scaled v1 q1 V1 H1), (py_value_scaled v2 q2 V2 H2).
  unfold Qle; cbn [Qnum Qden]. rewrite two_1074_eq.
  assert (H0 : 0 < 2 ^ 1074) by (apply Z.pow_pos_nonneg; lia).
  set (p := 2 ^ 1074) in *. split; intros; nia.
Qed.

Lemma Z_b64_compare_scaled (z : Z) (c : spec_float) :
  b64_valid c = true -> is_finite c = true ->
  Z_b64_compare z c = Some (z * 2 ^ 1074 ?= b64_scaled c).
Proof.
  intros Vc Fc.
  assert (H0 : 0 < 2 ^ 1074) by (apply Z.pow_pos_nonneg; lia).
  destruct c as [s | s | | s m e]; try discriminate;
    cbn [Z_b64_compare b64_scaled].
  - f_equal. change 0 with (0 * 2 ^ 1074) at 2.
    symmetry. apply Zcompare_mul_pos_r. exact H0.
  - apply valid_finite_bounds in Vc as (He & _ & _).
    set (sm := cond_Zopp s (Z.pos m)).
    destruct (Z.leb_spec 0 e) as [Hpos | Hneg]; f_equal.
    + rewrite Z.pow_add_r, Z.mul_assoc by lia.
      symmetry. apply Zcompare_mul_pos_r. exact H0.
    + rewrite (pow2_1074_split e), Z.mul_assoc by lia.
      symmetry. apply Zcompare_mul_pos_r. apply Z.pow_pos_nonneg; lia.
Qed.

(** Against a finite constant, [<=] on Python numbers is [<=] on the
    rationals they denote. *)

Lemma py_le_float_scaled (v : pyval) (q : Q) (c : spec_float) :
  py_valid v = true -> py_value v = Some q ->
  b64_valid c = true -> is_finite c = true ->
  py_le_float v c = Ret (py_scaled v <=? b64_scaled c).
Proof.
  intros Vv Hq Vc Fc. unfold py_le_float, py_scaled, py_value in *.
  destruct (as_num v) as [[z | f] | ] eqn:Hn; try discriminate.
  - rewrite Z_b64_compare_scaled by assumption.
    unfold Z.leb. destruct (z * 2 ^ 1074 ?= b64_scaled c); reflexivity.
  - assert (Vf : b64_valid f = true).
    { destruct v; cbn in Hn; try discriminate; injection Hn as <-; exact Vv. }
    assert (Ff : is_finite f = true).
    { destruct f; cbn in Hq; try discriminate; reflexivity. }
    unfold b64_leb, SFleb. rewrite b64_compare_scaled by assumption.
    unfold Z.leb. destruct (b64_scaled f ?= b64_scaled c); reflexivity.
Qed.

(** ** [get_color] *)

Lemma scaled_thresholds :
  b64_scaled f_1_0 = 1 * 2 ^ 1074 /\ b64_scaled f_2_0 = 2 * 2 ^ 1074 /\
  b64_scaled f_3_0 = 3 * 2 ^ 1074 /\ b64_scaled f_4_0 = 4 * 2 ^ 1074.
Proof. repeat split; vm_compute; reflexivity. Qed.

(** [get_color] on a finite number, by the number's scaled value. *)
Lemma get_color_scaled (v : pyval) (q : Q) :
  py_valid v = true -> py_value v = Some q ->
  get_color v =
  Ret (if py_scaled v <=? 1 * 2 ^ 1074 then "red"%string
       else if py_scaled v <=? 2 * 2 ^ 1074 then "orange"%string
       else if py_scaled v <=? 3 * 2 ^ 1074 then "yellow"%string
       else if py_scaled v <=? 4 * 2 ^ 1074 then "green"%string
       else "blue"%string).
Proof.
  intros Vv Hq. destruct scaled_thresholds as (E1 & E2 & E3 & E4).
  unfold get_color.
  rewrite !(py_le_float_scaled v q) by (assumption || reflexivity).
  rewrite E1, E2, E3, E4. cbn [rbind].
  repeat match goal with |- context [?a <=? ?b] => destruct (a <=? b) end;
    reflexivity.
Qed.

(** C2: for every finite numeric index (an int, or a binary64 float) with
    exact value [q], [get_color] picks the bucket by closed upper bounds:
    [q <= 1] red, [1 < q <= 2] orange, [2 < q <= 3] yellow, [3 < q <= 4]
    green, [4 < q] blue; a not-a-number index falls to the final [else],
    blue, minus infinity is red and plus infinity blue.  Boundary values
    fall in the lower bucket: 1.0 is red, 1.01 orange, 2.0 orange, 4.0
    green, 4.01 blue. *)
Theorem get_color_closed_upper_bounds :
  (forall (v : pyval) (q : Q),
      py_valid v = true -> py_value v = Some q ->
      ((q <= inject_Z 1)%Q -> get_color v = Ret "red"%string) /\
      ((inject_Z 1 < q)%Q -> (q <= inject_Z 2)%Q -> get_color v = Ret "orange"%string) /\
      ((inject_Z 2 < q)%Q -> (q <= inject_Z 3)%Q -> get_color v = Ret "yellow"%string) /\
      ((inject_Z 3 < q)%Q -> (q <= inject_Z 4)%Q -> get_color v = Ret "green"%string) /\
      ((inject_Z 4 < q)%Q -> get_color v = Ret "blue"%string)) /\
  get_color (VFloat S754_nan) = Ret "blue"%string /\
  get_color (VFloat (S754_infinity true)) = Ret "red"%string /\
  get_color (VFloat (S754_infinity false)) = Ret "blue"%string /\
  get_color (VFloat f_1_0) = Ret "red"%string /\
  get_color (VFloat f_1_01) = Ret "orange"%string /\
  get_color (VFloat f_2_0) = Ret "orange"%string /\
  get_color (VFloat f_4_0) = Ret "green"%string /\
  get_color (VFloat f_4_01) = Ret "blue"%string.
Proof.
  split; [| repeat split; vm_compute; reflexivity].
  intros v q Vv Hq.
  pose proof (py_value_le_scaled v q 1 Vv Hq) as L1.
  pose proof (py_value_le_scaled v q 2 Vv Hq) as L2.
  pose proof (py_value_le_scaled v q 3 Vv Hq) as L3.
  pose proof (py_value_le_scaled v q 4 Vv Hq) as L4.
  rewrite (get_color_scaled v q Vv Hq).
  assert (H0 : 0 < 2 ^ 1074) by (apply Z.pow_pos_nonneg; lia).
  set (p := 2 ^ 1074) in *. clearbody p.
  repeat split; intros;
    repeat match goal with
      | H : (_ < _)%Q |- _ => apply Qlt_not_le in H
      end;
    repeat match goal with
      | |- context [?a <=? ?b] => destruct (Z.leb_spec a b)
      end;
    try reflexivity; exfalso;
    repeat match goal with
      | H : context [(q <= inject_Z ?k)%Q] |- _ =>
          first [rewrite L1 in H | rewrite L2 in H | rewrite L3 in H | rewrite L4 in H]
      end;
    lia.
Qed.

Lemma get_color_closed_upper_bounds_witness :
  exists q : Q,
    py_valid (VFloat f_1_01) = true /\
    py_value (VFloat f_1_01) = Some q /\
    (inject_Z 1 < q)%Q /\ (q <= inject_Z 2)%Q /\
    get_color (VFloat f_1_01) = Ret "orange"%string.
Proof.
  eexists. split; [reflexivity |]. split; [reflexivity |].
  assert (H1 : (inject_Z 1 < 4548635623644201 # 4503599627370496)%Q)
    by reflexivity.
  assert (H2 : (4548635623644201 # 4503599627370496 <= inject_Z 2)%Q)
    by (unfold Qle; cbn; lia).
  split; [exact H1 |]. split; [exact H2 |].
  exact (proj1 (proj2 (proj1 get_color_closed_upper_bounds
                         (VFloat f_1_01) _ eq_refl eq_refl)) H1 H2).
Defined.

Lemma get_color_numeric (v : pyval) (n : pynum) :
  as_num v = Some n -> exists c, get_color v = Ret c /\ In c colors.
Proof.
  intros Hn. unfold get_color, py_le_float. rewrite Hn.
  destruct n as [z | f]; cbn [rbind];
    repeat match goal with
      | |- context [if ?b then _ else _] => destruct b; cbn [rbind]
      | |- context [match ?o with Some _ => _ | None => _ end] =>
          destruct o as [[ | | ] | ]; cbn [rbind]
      end;
    eexists; (split; [reflexivity | cbn; tauto]).
Qed.

(** C10: [get_color] is total on numbers and monotone.  Every number (a
    bool, an int, or any float, not-a-number and the infinities included)
    gets exactly one result, one of the five colours; and for two finite
    indices with exact values [q1 <= q2] the colour of the first precedes
    or equals the colour of the second in the order red, orange, yellow,
    green, blue. *)
Theorem get_color_total_monotone :
  (forall (v : pyval) (n : pynum),
      as_num v = Some n ->
      exists c, get_color v = Ret c /\ In c colors /\
                forall c', get_color v = Ret c' -> c' = c) /\
  (forall (v1 v2 : pyval) (q1 q2 : Q),
      py_valid v1 = true -> py_value v1 = Some q1 ->
      py_valid v2 = true -> py_value v2 = Some q2 ->
      (q1 <= q2)%Q ->
      exists c1 c2, get_color v1 = Ret c1 /\ get_color v2 = Ret c2 /\
                    (severity_rank c1 <= severity_rank c2)%nat).
Proof.
  split.
  - intros v n Hn. destruct (get_color_numeric v n Hn) as (c & Hc & Hin).
    exists c. repeat split; try assumption.
    intros c' Hc'. congruence.
  - intros v1 v2 q1 q2 V1 H1 V2 H2 Hle.
    apply (py_value_le_le_scaled v1 v2 q1 q2 V1 H1 V2 H2) in Hle.
    rewrite (get_color_scaled v1 q1 V1 H1), (get_color_scaled v2 q2 V2 H2).
    assert (H0 : 0 < 2 ^ 1074) by (apply Z.pow_pos_nonneg; lia).
    set (p := 2 ^ 1074) in *. clearbody p.
    do 2 eexists. split; [reflexivity |]. split; [reflexivity |].
    repeat match goal with
      | |- context [?a <=? ?b] => destruct (Z.leb_spec a b)
      end;
      cbn; lia.
Qed.

Lemma get_color_total_monotone_witness :
  as_num (VInt 2) = Some (NInt 2) /\
  (inject_Z 2 <= 4514858626438922 # 1125899906842624)%Q /\
  (exists c, get_color (VInt 2) = Ret c /\ In c colors /\
             forall c', get_color (VInt 2) = Ret c' -> c' = c) /\
  (exists c1 c2, get_color (VInt 2) = Ret c1 /\
                 get_color (VFloat f_4_01) = Ret c2 /\
                 (severity_rank c1 <= severity_rank c2)%nat).
Proof.
  assert (H : (inject_Z 2 <= 4514858626438922 # 1125899906842624)%Q)
    by (unfold Qle; cbn; lia).
  split; [reflexivity |]. split; [exact H |]. split.
  - exact (proj1 get_color_total_monotone (VInt 2) (NInt 2) eq_refl).
  - exact (proj2 get_color_total_monotone (VInt 2) (VFloat f_4_01) _ _
             eq_refl eq_refl eq_refl eq_refl H).
Defined.

(** ** Rounding to two decimals *)

(** [round_half_even_scaled m e 2] is an integer nearest to
    [100 * m * 2 ^ e]. *)
Lemma round_half_even_scaled_nearest (m : positive) (e : Z) :
  let k := Z.of_N (round_half_even_scaled m e 2) in
  if 0 <=? e then k = Zpos m * 100 * 2 ^ e
  else Z.abs (2 * (Zpos m * 100) - 2 * k * 2 ^ (- e)) <= 2 ^ (- e).
Proof.
  unfold round_half_even_scaled. change (10 ^ Z.of_N 2) with 100.
  destruct (Z.leb_spec 0 e) as [Hpos | Hneg]; cbv zeta.
  - assert (0 < 2 ^ e) by (apply Z.pow_pos_nonneg; lia).
    rewrite Z2N.id by nia. reflexivity.
  - assert (Hden : 0 < 2 ^ (- e)) by (apply Z.pow_pos_nonneg; lia).
    set (den := 2 ^ (- e)) in *. set (scaled := Zpos m * 100).
    pose proof (Z.div_mod scaled den ltac:(lia)) as Hdm.
    pose proof (Z.mod_pos_bound scaled den Hden) as Hr.
    assert (Hq : 0 <= scaled / den) by (apply Z.div_pos; lia).
    set (q := scaled / den) in *. set (r := scaled mod den) in *.
    destruct (Z.compare_spec (2 * r) den) as [Heq | Hlt | Hgt];
      [destruct (Z.even q) |..]; rewrite Z2N.id by lia; nia.
Qed.

(** [round(f, 2)] on a finite float: the float of a two-decimal numeral
    [k / 100], with [k] within one half of a hundred times the float. *)
Lemma b64_round_two_decimals (s : bool) (m : positive) (e : Z) (v : Q) :
  b64_value (S754_finite s m e) = Some v ->
  exists k : N,
    b64_round (S754_finite s m e) 2 = b64_of_decimal s k (-2) /\
    (Qabs (v * inject_Z 100 - inject_Z (cond_Zopp s (Z.of_N k))) <= 1 # 2)%Q.
Proof.
  intros Hv. exists (round_half_even_scaled m e 2). split; [reflexivity |].
  pose proof (round_half_even_scaled_nearest m e) as Hk. cbv zeta in Hk.
  set (k := Z.of_N (round_half_even_scaled m e 2)) in *.
  cbn [b64_value] in Hv. apply Qabs_Qle_condition.
  destruct (Z.leb_spec 0 e) as [Hpos | Hneg]; injection Hv as <-.
  - rewrite Hk. unfold Qle, Qminus, Qplus, Qmult, Qopp; cbn [Qnum Qden inject_Z].
    destruct s; cbn [cond_Zopp]; lia.
  - assert (Hden : 0 < 2 ^ (- e)) by (apply Z.pow_pos_nonneg; lia).
    unfold Qle, Qminus, Qplus, Qmult, Qopp; cbn [Qnum Qden inject_Z].
    rewrite !Pos2Z.inj_mul, !Z2Pos.id by exact Hden.
    set (den := 2 ^ (- e)) in *.
    destruct s; cbn [cond_Zopp]; lia.
Qed.

(** [round(f, 2)] on any float that is a number: the float of the numeral
    [k / 100] with the sign of [f], for an integer [k] within one half of a
    hundred times [f]. *)
Lemma b64_round_nearest_hundredth (f : spec_float) (v : Q) :
  b64_value f = Some v ->
  exists k : N,
    b64_round f 2 = b64_of_decimal (b64_sign f) k (-2) /\
    (Qabs (v * inject_Z 100 - inject_Z (cond_Zopp (b64_sign f) (Z.of_N k))) <= 1 # 2)%Q.
Proof.
  intros Hv. destruct f as [s | s | | s m e]; try discriminate.
  - exists 0%N. split; [reflexivity |].
    injection Hv as <-. destruct s; vm_compute; intros H; discriminate H.
  - apply b64_round_two_decimals. exact Hv.
Qed.

Lemma py_truediv_float (v w q : pyval) :
  py_truediv v w = Ret q -> exists f, q = VFloat f.
Proof.
  unfold py_truediv, to_float. intros H.
  repeat match type of H with
    | context [match ?x with _ => _ end] =>
        destruct x; cbn [rbind] in H; try discriminate
    end;
    injection H as <-; eexists; reflexivity.
Qed.

(** ** [compute_cvi] *)

Lemma b64_same_eq (f g : spec_float) : b64_same f g = true -> f = g.
Proof.
  destruct f as [s | s | | s m e], g as [s' | s' | | s' m' e'];
    cbn; try discriminate; intros H.
  - apply Bool.eqb_prop in H. congruence.
  - apply Bool.eqb_prop in H. congruence.
  - reflexivity.
  - apply andb_prop in H as [H He]. apply andb_prop in H as [Hs Hm].
    apply Bool.eqb_prop in Hs. apply Pos.eqb_eq in Hm. apply Z.eqb_eq in He.
    congruence.
Qed.

(** With int scores the index depends on their sum only. *)
Lemma compute_cvi_int_scores (l : pyval) (g n e : Z) :
  sub_score l "geomorphology" = Ret (VInt g) ->
  sub_score l "natural_buffers" = Ret (VInt n) ->
  sub_score l "engineering_structures" = Ret (VInt e) ->
  compute_cvi l = cvi_of_sum (g + n + e).
Proof.
  intros Hg Hn He. unfold compute_cvi. rewrite Hg, Hn, He. reflexivity.
Qed.

Lemma cvi_sum_ok_range :
  forallb cvi_sum_ok (seqZ (- (3 * score_bound)) (6 * score_bound + 1)) = true.
Proof. vm_compute. reflexivity. Qed.

Lemma mean_hundredths_nearest (g n e : Z) :
  (Qabs (mean3 g n e - hundredths (mean_hundredths (g + n + e))) < 1 # 200)%Q.
Proof.
  apply Qabs_diff_Qlt_condition.
  unfold mean3, hundredths, mean_hundredths.
  set (s := g + n + e).
  pose proof (Z.div_mod (200 * s + 3) 6 ltac:(lia)) as Hd.
  pose proof (Z.mod_pos_bound (200 * s + 3) 6 ltac:(lia)) as Hm.
  set (k := (200 * s + 3) / 6) in *.
  unfold Qlt, Qminus, Qplus, Qdiv, Qmult, Qinv, Qopp; cbn. lia.
Qed.

Lemma compute_cvi_scores (l gs ns es : pyval) :
  sub_score l "geomorphology" = Ret gs ->
  sub_score l "natural_buffers" = Ret ns ->
  sub_score l "engineering_structures" = Ret es ->
  compute_cvi l = (q <- py_mean3 gs ns es ;; py_round q 2).
Proof.
  intros Hg Hn He. unfold compute_cvi, py_mean3. rewrite Hg, Hn, He; cbn [rbind].
  destruct (py_add gs ns) as [s1 | ]; cbn [rbind]; [| reflexivity].
  destruct (py_add s1 es) as [s2 | ]; cbn [rbind]; reflexivity.
Qed.

(** C1: for every landmark record with the three scores present,
    [compute_cvi] is [round] to two places of the mean [(g + n + e) / 3];
    the mean is a float, and when it is a number the result is the float
    of a numeral [k / 100] nearest to it (an [OverflowError] were that
    float infinite).  When the three scores are ints between -1000 and
    1000, the result is the float of the two-decimal number [k / 100]
    nearest to the exact arithmetic mean of the scores, a canonical float
    within binary64 rounding error of [k / 100].  In particular scores 4,
    3, 5 give 4.0. *)
Theorem compute_cvi_mean_rounded :
  (forall (l gs ns es : pyval),
      sub_score l "geomorphology" = Ret gs ->
      sub_score l "natural_buffers" = Ret ns ->
      sub_score l "engineering_structures" = Ret es ->
      compute_cvi l = (q <- py_mean3 gs ns es ;; py_round q 2) /\
      forall q : pyval,
        py_mean3 gs ns es = Ret q ->
        exists f : spec_float,
          q = VFloat f /\
          forall v : Q,
            b64_value f = Some v ->
            exists k : N,
              (Qabs (v * inject_Z 100
                     - inject_Z (cond_Zopp (b64_sign f) (Z.of_N k))) <= 1 # 2)%Q /\
              compute_cvi l =
              (if is_inf (b64_of_decimal (b64_sign f) k (-2))
               then Raise OverflowError
               else Ret (VFloat (b64_of_decimal (b64_sign f) k (-2))))) /\
  (forall (l : pyval) (g n e : Z),
      sub_score l "geomorphology" = Ret (VInt g) ->
      sub_score l "natural_buffers" = Ret (VInt n) ->
      sub_score l "engineering_structures" = Ret (VInt e) ->
      - score_bound <= g <= score_bound ->
      - score_bound <= n <= score_bound ->
      - score_bound <= e <= score_bound ->
      exists (k : Z) (f : spec_float) (v : Q),
        compute_cvi l = Ret (VFloat f) /\
        (Qabs (mean3 g n e - hundredths k) < 1 # 200)%Q /\
        f = b64_of_hundredths k /\
        b64_valid f = true /\
        b64_value f = Some v /\
        (Qabs (v - hundredths k) <= Qabs (hundredths k) * unit_roundoff)%Q) /\
  (forall (l : pyval),
      sub_score l "geomorphology" = Ret (VInt 4) ->
      sub_score l "natural_buffers" = Ret (VInt 3) ->
      sub_score l "engineering_structures" = Ret (VInt 5) ->
      compute_cvi l = Ret (VFloat f_4_0)).
Proof.
  split; [| split].
  - intros l gs ns es Hg Hn He.
    pose proof (compute_cvi_scores l gs ns es Hg Hn He) as Hc.
    split; [exact Hc |].
    intros q Hq.
    assert (Hf : exists f, q = VFloat f).
    { unfold py_mean3 in Hq.
      destruct (py_add gs ns) as [s1 | ]; cbn [rbind] in Hq; [| discriminate].
      destruct (py_add s1 es) as [s2 | ]; cbn [rbind] in Hq; [| discriminate].
      eapply py_truediv_float. exact Hq. }
    destruct Hf as [f ->]. exists f. split; [reflexivity |].
    intros v Hv.
    destruct (b64_round_nearest_hundredth f v Hv) as (k & Hk & Hnear).
    exists k. split; [exact Hnear |].
    rewrite Hc, Hq; cbn [rbind]. unfold py_round; cbn [as_num]. rewrite Hk.
    assert (Hfin : is_finite f = true)
      by (destruct f; try discriminate; reflexivity).
    rewrite Hfin, andb_true_r. reflexivity.
  - intros l g n e Hg Hn He Bg Bn Be.
    rewrite (compute_cvi_int_scores l g n e Hg Hn He).
    pose proof cvi_sum_ok_range as Hall.
    rewrite forallb_forall in Hall.
    specialize (Hall (g + n + e)).
    assert (Hin : In (g + n + e) (seqZ (- (3 * score_bound)) (6 * score_bound + 1))).
    { apply list_elem_of_In, elem_of_seqZ. unfold score_bound in *. lia. }
    apply Hall in Hin. unfold cvi_sum_ok in Hin.
    destruct (cvi_of_sum (g + n + e)) as [[ | | | f | | | ] | ]; try discriminate.
    destruct (b64_value f) as [v | ] eqn:Hv; try discriminate.
    apply andb_prop in Hin as [Hin Herr]. apply andb_prop in Hin as [Hsame Hvalid].
    exists (mean_hundredths (g + n + e)), f, v.
    split; [reflexivity |].
    split; [apply mean_hundredths_nearest |].
    split; [apply b64_same_eq; exact Hsame |].
    split; [exact Hvalid |].
    split; [exact Hv |].
    apply Qle_bool_iff. exact Herr.
  - intros l Hg Hn He.
    rewrite (compute_cvi_int_scores l 4 3 5 Hg Hn He). vm_compute. reflexivity.
Qed.

Lemma compute_cvi_mean_rounded_witness :
  exists (k : Z) (f : spec_float) (v : Q),
    compute_cvi (sample_landmark "Astrodome" (VInt 4) (VInt 4) (VInt 5))
    = Ret (VFloat f) /\
    (Qabs (mean3 4 4 5 - hundredths k) < 1 # 200)%Q /\
    f = b64_of_hundredths k /\
    b64_valid f = true /\
    b64_value f = Some v /\
    (Qabs (v - hundredths k) <= Qabs (hundredths k) * unit_roundoff)%Q.
Proof.
  apply (proj1 (proj2 compute_cvi_mean_rounded)
           (sample_landmark "Astrodome" (VInt 4) (VInt 4) (VInt 5)) 4 4 5);
    try reflexivity; unfold score_bound; lia.
Defined.

(** ** The boundary loader *)

Lemma py_float_raises_ValueError (s : string) (e : exn) :
  py_float s = Raise e -> e = ValueError.
Proof.
  unfold py_float.
  destruct (drop_underscores None _) as [u | ]; [| congruence].
  destruct (parse_sign u) as [neg r].
  destruct (_ || _); [discriminate |].
  destruct (String.eqb _ _); [discriminate |].
  destruct (parse_decimal r) as [[d x] | ]; congruence.
Qed.

Lemma parse_coordinate_triple (c : string) (lon lat : spec_float) :
  well_formed_triple c lon lat -> parse_coordinate c = Ret (lat, lon).
Proof.
  intros (a & b & z & alt & Hs & Ha & Hb & Hz).
  unfold parse_coordinate. rewrite Hs. cbn [rbind].
  rewrite Ha; cbn [rbind]. rewrite Hb; cbn [rbind]. rewrite Hz; cbn [rbind].
  reflexivity.
Qed.

Lemma rmap_Forall2 {A B : Type} (f : A -> result B) (l : list A) (l' : list B) :
  Forall2 (fun a b => f a = Ret b) l l' -> rmap f l = Ret l'.
Proof.
  induction 1 as [ | a b l l' Hab _ IH]; cbn [rmap rbind].
  - reflexivity.
  - rewrite Hab; cbn [rbind]. rewrite IH; cbn [rbind]. reflexivity.
Qed.

Lemma parse_ring_triples (text : string) (pts : list (spec_float * spec_float)) :
  Forall2 (fun c p => well_formed_triple c (fst p) (snd p)) (py_split text) pts ->
  parse_ring text = Ret (map swap_lon_lat pts).
Proof.
  intros H. unfold parse_ring. apply rmap_Forall2.
  induction H as [ | c p cs ps Hc _ IH]; cbn [map].
  - constructor.
  - constructor; [| exact IH].
    apply parse_coordinate_triple. exact Hc.
Qed.

(** C3: a well-formed triple [lon,lat,alt] is stored as the pair
    [(lat, lon)]: the order is swapped and the altitude dropped.  A ring
    whose whitespace-separated entries are all well formed is stored as the
    list of the swapped pairs, in the ring's order, under the placemark's
    name.  The triple [125.0,11.2,0] is stored as (11.2, 125.0). *)
Theorem load_kml_swaps_lon_lat :
  (forall (c : string) (lon lat : spec_float),
      well_formed_triple c lon lat -> parse_coordinate c = Ret (lat, lon)) /\
  (forall (polygons : gmap (option string) (list coord)) (name : option string)
          (text : string) (pts : list (spec_float * spec_float)),
      Forall2 (fun c p => well_formed_triple c (fst p) (snd p))
              (py_split (py_strip text)) pts ->
      load_placemark polygons
        {| pm_name := Some name; pm_coordinates := Some (Some text) |}
      = Ret (<[name := map swap_lon_lat pts]> polygons)) /\
  well_formed_triple "125.0,11.2,0" f_125_0 f_11_2 /\
  parse_coordinate "125.0,11.2,0" = Ret (f_11_2, f_125_0) /\
  (exists polygons : gmap (option string) (list coord),
      load_kml (KmlTree [sample_placemark "Anibong" "125.0,11.2,0"]) = Ret polygons /\
      polygons !! Some "Anibong"%string = Some [(f_11_2, f_125_0)]).
Proof.
  split; [exact parse_coordinate_triple |].
  split.
  { intros polygons name text pts H. unfold load_placemark.
    cbn [pm_name pm_coordinates rbind].
    rewrite (parse_ring_triples _ pts H). reflexivity. }
  split.
  { exists "125.0"%string, "11.2"%string, "0"%string, (S754_zero false).
    repeat split; vm_compute; reflexivity. }
  split; [vm_compute; reflexivity |].
  exists (<[Some "Anibong"%string := [(f_11_2, f_125_0)]]> ∅). split.
  - unfold load_kml, load_placemarks, load_placemark, sample_placemark.
    cbn [pm_name pm_coordinates rbind].
    replace (parse_ring (py_strip "125.0,11.2,0")) with (Ret [(f_11_2, f_125_0)])
      by (vm_compute; reflexivity).
    reflexivity.
  - apply lookup_insert_eq.
Qed.

Lemma load_kml_swaps_lon_lat_witness :
  well_formed_triple "125.5,11.4,7" f_125_5 f_11_4 /\
  parse_coordinate "125.5,11.4,7" = Ret (f_11_4, f_125_5).
Proof.
  assert (H : well_formed_triple "125.5,11.4,7" f_125_5 f_11_4).
  { exists "125.5"%string, "11.4"%string, "7"%string, (b64_of_decimal false 7 0).
    repeat split; vm_compute; reflexivity. }
  split; [exact H |].
  exact (proj1 load_kml_swaps_lon_lat _ _ _ H).
Defined.

Lemma parse_coordinate_not_three (c : string) :
  length (py_split_on "," c) <> 3%nat -> parse_coordinate c = Raise ValueError.
Proof.
  intros Hlen. unfold parse_coordinate.
  destruct (py_split_on "," c) as [ | a [ | b [ | z [ | d r]]]];
    cbn [length] in Hlen; try congruence;
    repeat match goal with
      | |- context [py_float ?s] =>
          let H := fresh "H" in
          destruct (py_float s) eqn:H; cbn [rbind];
          [| f_equal; eapply py_float_raises_ValueError; eassumption]
      end;
    reflexivity.
Qed.

(** C7, as the spec states it, fails: the entry [125.0,11.2], a longitude
    and a latitude that both read as floats and no altitude, is not stored
    as a pair; reading it raises [ValueError], and so does the load of a
    placemark whose ring holds it. *)
Lemma two_component_entry_rejected :
  py_split_on "," "125.0,11.2" = ["125.0"; "11.2"]%string /\
  py_float "125.0" = Ret f_125_0 /\
  py_float "11.2" = Ret f_11_2 /\
  parse_coordinate "125.0,11.2" <> Ret (f_11_2, f_125_0) /\
  parse_coordinate "125.0,11.2" = Raise ValueError /\
  load_kml (KmlTree [sample_placemark "Anibong" "125.0,11.2"]) = Raise ValueError.
Proof.
  repeat split; try (vm_compute; reflexivity).
  vm_compute. discriminate.
Qed.

(** C7, amended: the loader accepts an entry only when it has exactly three
    comma-separated components.  An entry with any other number of
    components, a bare [lon,lat] included, raises [ValueError], and the
    load of a placemark whose ring contains such an entry raises
    [ValueError] too. *)
Theorem load_kml_needs_three_components :
  forall (c : string),
    length (py_split_on "," c) <> 3%nat ->
    parse_coordinate c = Raise ValueError /\
    forall (polygons : gmap (option string) (list coord)) (name : option string)
           (text : string),
      py_split (py_strip text) = [c] ->
      load_placemark polygons
        {| pm_name := Some name; pm_coordinates := Some (Some text) |}
      = Raise ValueError.
Proof.
  intros c Hlen.
  pose proof (parse_coordinate_not_three c Hlen) as Hc.
  split; [exact Hc |].
  intros polygons name text Hsplit. unfold load_placemark, parse_ring.
  cbn [pm_name pm_coordinates rbind]. rewrite Hsplit.
  cbn [rmap rbind]. rewrite Hc. reflexivity.
Qed.

Lemma load_kml_needs_three_components_witness :
  length (py_split_on "," "125.0,11.2") <> 3%nat /\
  parse_coordinate "125.0,11.2" = Raise ValueError.
Proof.
  assert (H : length (py_split_on "," "125.0,11.2") <> 3%nat)
    by (vm_compute; discriminate).
  split; [exact H |].
  exact (proj1 (load_kml_needs_three_components "125.0,11.2" H)).
Defined.

(** ** Loops that may raise *)

Lemma rmap_inv {A B : Type} (f : A -> result B) (l : list A) (l' : list B) :
  rmap f l = Ret l' -> Forall2 (fun a b => f a = Ret b) l l'.
Proof.
  revert l'. induction l as [ | a l IH]; intros l' H; cbn [rmap rbind] in H.
  - injection H as <-. constructor.
  - destruct (f a) as [b | e] eqn:Hb; cbn [rbind] in H; [| discriminate].
    destruct (rmap f l) as [bs | e] eqn:Hbs; cbn [rbind] in H; [| discriminate].
    injection H as <-. constructor; [exact Hb | apply IH; reflexivity].
Qed.

Lemma rmap_total {A B : Type} (f : A -> result B) (l : list A) :
  (forall a, In a l -> exists b, f a = Ret b) -> exists l', rmap f l = Ret l'.
Proof.
  induction l as [ | a l IH]; intros H; cbn [rmap rbind].
  - eexists; reflexivity.
  - destruct (H a (or_introl eq_refl)) as [b Hb].
    destruct IH as [bs Hbs]; [intros x Hx; apply H; right; exact Hx |].
    rewrite Hb; cbn [rbind]. rewrite Hbs; cbn [rbind]. eexists; reflexivity.
Qed.

Lemma rmap_raises {A B : Type} (f : A -> result B) (l : list A) (a : A) (e : exn) :
  In a l -> f a = Raise e -> exists e', rmap f l = Raise e'.
Proof.
  intros Hin Ha. induction l as [ | x l IH]; [destruct Hin |].
  cbn [rmap rbind]. destruct (f x) as [b | e0] eqn:Hx; cbn [rbind].
  - destruct Hin as [-> | Hin]; [congruence |].
    destruct (IH Hin) as [e' He']. rewrite He'; cbn [rbind]. eexists; reflexivity.
  - eexists; reflexivity.
Qed.

(** ** The landmark store *)

(** C5, as the spec states it, fails: a landmark file whose only record has
    a name and none of the three sub-assessment fields loads without an
    error; the record is returned as it is, and it is [compute_cvi] that
    raises on it, in the loop that draws the map, after the sidebar has
    been rendered. *)
Lemma load_landmarks_accepts_incomplete_record :
  load_landmarks (landmarks_json incomplete_world)
  = Ret (VList [VDict [("name"%string, VStr "Anibong")]]) /\
  dict_get [("name"%string, VStr "Anibong")] "geomorphology" = None /\
  compute_cvi (VDict [("name"%string, VStr "Anibong")]) = Raise KeyError /\
  run incomplete_world
  = ([PageConfig; Render Sidebar SidebarTitle;
      Render Sidebar (Radio [VStr "Anibong"])], Raise KeyError).
Proof.
  split; [reflexivity |]. split; [reflexivity |]. split; [reflexivity |].
  vm_compute. reflexivity.
Qed.

(** C5, amended: the load returns the value under the key [landmarks] as it
    is in the file, whatever the records hold; a list keeps the file's
    order.  It raises when the file is missing, is not JSON, is not an
    object, or has no key [landmarks].  A record that lacks one of the
    three sub-assessment fields does not fail the load: [compute_cvi]
    raises on it (a [KeyError] when it is the first field that is missing). *)
Theorem load_landmarks_contract :
  (forall (d : list (string * pyval)) (v : pyval),
      dict_get d "landmarks" = Some v ->
      load_landmarks (JsonValue (VDict d)) = Ret v) /\
  (forall ls : list pyval, py_iter (VList ls) = Ret ls) /\
  load_landmarks JsonMissing = Raise FileNotFoundError /\
  load_landmarks JsonMalformed = Raise JSONDecodeError /\
  (forall d : list (string * pyval),
      dict_get d "landmarks" = None ->
      load_landmarks (JsonValue (VDict d)) = Raise KeyError) /\
  (forall v : pyval,
      (forall d, v <> VDict d) -> load_landmarks (JsonValue v) = Raise TypeError) /\
  (forall (d : list (string * pyval)) (field : string),
      In field sub_assessment_fields -> dict_get d field = None ->
      exists e, compute_cvi (VDict d) = Raise e) /\
  (forall d : list (string * pyval),
      dict_get d "geomorphology" = None -> compute_cvi (VDict d) = Raise KeyError).
Proof.
  split; [intros d v H; cbn; rewrite H; reflexivity |].
  split; [reflexivity |].
  split; [reflexivity |].
  split; [reflexivity |].
  split; [intros d H; cbn; rewrite H; reflexivity |].
  split.
  { intros v H. destruct v; try reflexivity. exfalso. eapply H. reflexivity. }
  split.
  - intros d field Hin Hnone. unfold compute_cvi, sub_score.
    cbn [py_getitem].
    destruct Hin as [<- | [<- | [<- | []]]].
    + rewrite Hnone. eexists; reflexivity.
    + destruct (dict_get d "geomorphology") as [g | ]; cbn [rbind];
        [| eexists; reflexivity].
      destruct (py_getitem g "score") as [gs | ]; cbn [rbind];
        [| eexists; reflexivity].
      rewrite Hnone. eexists; reflexivity.
    + destruct (dict_get d "geomorphology") as [g | ]; cbn [rbind];
        [| eexists; reflexivity].
      destruct (py_getitem g "score") as [gs | ]; cbn [rbind];
        [| eexists; reflexivity].
      destruct (dict_get d "natural_buffers") as [n | ]; cbn [rbind];
        [| eexists; reflexivity].
      destruct (py_getitem n "score") as [ns | ]; cbn [rbind];
        [| eexists; reflexivity].
      destruct (py_add gs ns) as [s1 | ]; cbn [rbind];
        [| eexists; reflexivity].
      rewrite Hnone. eexists; reflexivity.
  - intros d H. unfold compute_cvi, sub_score. cbn [py_getitem].
    rewrite H. reflexivity.
Qed.

Lemma load_landmarks_contract_witness :
  dict_get [("name"%string, VStr "Anibong");
            ("geomorphology"%string, sub_assessment (VInt 4) "shore")]
           "natural_buffers" = None /\
  exists e,
    compute_cvi (VDict [("name"%string, VStr "Anibong");
                        ("geomorphology"%string, sub_assessment (VInt 4) "shore")])
    = Raise e.
Proof.
  split; [reflexivity |].
  apply (proj1 (proj2 (proj2 (proj2 (proj2 (proj2 (proj2 load_landmarks_contract))))))
           _ "natural_buffers"%string).
  - cbn. tauto.
  - reflexivity.
Defined.

(** ** The map *)

Section MapLayer.

(** The boundaries loaded and the name the radio widget returned. *)
Variable P : gmap (option string) (list coord).
Variable sel : pyval.

Lemma draw_landmark_drawn_as (l : pyval) (p : polygon) :
  draw_landmark P sel l = Ret p -> drawn_as P sel l p.
Proof.
  unfold draw_landmark. intros H.
  destruct (compute_cvi l) as [cvi | ] eqn:Hcvi; cbn [rbind] in H; [| discriminate].
  destruct (get_color cvi) as [col | ] eqn:Hcol; cbn [rbind] in H; [| discriminate].
  destruct (py_getitem l "name") as [name | ] eqn:Hname; cbn [rbind] in H; [| discriminate].
  destruct (kml_getitem P name) as [coords | ] eqn:Hco; cbn [rbind] in H; [| discriminate].
  injection H as <-. exists cvi, name. cbn. repeat split; assumption.
Qed.

Lemma drawable_draw_landmark (l : pyval) :
  drawable P l -> exists p, draw_landmark P sel l = Ret p.
Proof.
  intros (cvi & col & name & coords & Hcvi & Hcol & Hname & Hco).
  unfold draw_landmark. rewrite Hcvi; cbn [rbind]. rewrite Hcol; cbn [rbind].
  rewrite Hname; cbn [rbind]. rewrite Hco; cbn [rbind]. eexists; reflexivity.
Qed.

Lemma drawn_as_weight (l : pyval) (p : polygon) :
  drawn_as P sel l p ->
  (is_selected sel l -> weight p = 4) /\ (~ is_selected sel l -> weight p = 1).
Proof.
  intros (cvi & name & _ & _ & _ & _ & _ & Hname & _ & Hw). split.
  - intros (name' & Hname' & Heq). rewrite Hname in Hname'. injection Hname' as <-.
    rewrite Heq in Hw. exact Hw.
  - intros Hns. destruct (py_eq name sel) eqn:Heq; [| exact Hw].
    exfalso. apply Hns. exists name. split; assumption.
Qed.

(** C9: the loop over the landmarks draws every landmark that has an index,
    a colour and a boundary, and when it completes the map holds, after the
    full-screen control, one polygon per landmark in order: filled, in the
    colour [get_color (compute_cvi l)], at opacity 0.6, outlined in black
    along the landmark's boundary.  The outline of a landmark the selection
    names is 4 wide, that of any other landmark 1 wide: the selected
    outline is strictly thicker, and all the others are equal. *)
Theorem map_polygons_styled (ls : list pyval) :
  ((forall l, In l ls -> drawable P l) ->
   exists polys, rmap (draw_landmark P sel) ls = Ret polys) /\
  (forall polys : list polygon,
      rmap (draw_landmark P sel) ls = Ret polys ->
      Forall2 (drawn_as P sel) ls polys /\
      (forall view, exists m,
          draw_map ls P sel view = Ret m /\
          children m = FullscreenControl :: map PolygonLayer polys)) /\
  (forall (l1 l2 : pyval) (p1 p2 : polygon),
      drawn_as P sel l1 p1 -> drawn_as P sel l2 p2 ->
      (is_selected sel l1 -> ~ is_selected sel l2 -> weight p2 < weight p1) /\
      (~ is_selected sel l1 -> ~ is_selected sel l2 -> weight p1 = weight p2)).
Proof.
  split.
  { intros H. apply rmap_total. intros l Hl.
    apply drawable_draw_landmark. apply H. exact Hl. }
  split.
  { intros polys H. split.
    - apply rmap_inv in H.
      induction H as [ | l p ls' ps Hlp _ IH]; constructor; [| exact IH].
      apply draw_landmark_drawn_as. exact Hlp.
    - intros view. unfold draw_map. rewrite H; cbn [rbind].
      eexists. split; reflexivity. }
  intros l1 l2 p1 p2 H1 H2.
  destruct (drawn_as_weight l1 p1 H1) as [S1 N1].
  destruct (drawn_as_weight l2 p2 H2) as [S2 N2].
  split.
  - intros Hs1 Hn2. rewrite (S1 Hs1), (N2 Hn2). lia.
  - intros Hn1 Hn2. rewrite (N1 Hn1), (N2 Hn2). reflexivity.
Qed.

End MapLayer.

Lemma map_polygons_styled_witness :
  (forall l, In l [anibong; astrodome] -> drawable sample_polygons l) /\
  exists polys,
    rmap (draw_landmark sample_polygons (VStr "Anibong")) [anibong; astrodome]
    = Ret polys.
Proof.
  assert (H : forall l, In l [anibong; astrodome] -> drawable sample_polygons l).
  { intros l [<- | [<- | []]].
    - exists (VFloat f_4_0), "green"%string, (VStr "Anibong"),
        [(f_11_2, f_125_0); (f_11_4, f_125_5)].
      repeat split; vm_compute; reflexivity.
    - exists (VFloat (b64_of_hundredths 167)), "orange"%string, (VStr "Astrodome"),
        [(f_11_2, f_125_0); (f_11_2, f_125_5); (f_11_4, f_125_5)].
      repeat split; vm_compute; reflexivity. }
  split; [exact H |].
  exact (proj1 (map_polygons_styled sample_polygons (VStr "Anibong")
                  [anibong; astrodome]) H).
Defined.

(** ** Small ints as floats *)

Lemma digits2_iter_xO (p k : positive) :
  Zpos (digits2_pos (Pos.iter xO p k)) = Zpos (digits2_pos p) + Zpos k.
Proof.
  induction k as [ | k IH] using Pos.peano_ind.
  - cbn [Pos.iter digits2_pos]. lia.
  - rewrite Pos.iter_succ. cbn [digits2_pos]. lia.
Qed.

(** An int below [2 ^ 53] converts to a finite, nonzero float. *)
Lemma b64_of_Z_small (p : positive) :
  Zpos p < 2 ^ 53 ->
  exists m e, b64_of_Z (Zpos p) = S754_finite false m e.
Proof.
  intros Hp.
  pose proof (digits2_pos_bounds p) as [Hlo _].
  assert (Hd : Zpos (digits2_pos p) <= 53).
  { destruct (Z.le_gt_cases (Zpos (digits2_pos p)) 53) as [H | H]; [exact H |].
    exfalso. assert (2 ^ 53 <= 2 ^ (Zpos (digits2_pos p) - 1))
      by (apply Z.pow_le_mono_r; lia). lia. }
  unfold b64_of_Z, binary_normalize, binary_round, prec64, emax64.
  assert (Hal : exists mz ez,
             shl_align p 0 (fexp 53 1024 (Zpos (digits2_pos p) + 0)) = (mz, ez) /\
             Zpos (digits2_pos mz) + ez = Zpos (digits2_pos p) /\
             ez = Zpos (digits2_pos p) - 53).
  { unfold shl_align, fexp, emin.
    replace (Z.max (Zpos (digits2_pos p) + 0 - 53) (3 - 1024 - 53))
      with (Zpos (digits2_pos p) - 53) by lia.
    destruct (Zpos (digits2_pos p) - 53 - 0) as [ | k | k] eqn:Hk; try lia.
    - exists p, 0. repeat split; lia.
    - exists (Pos.iter xO p k), (Zpos (digits2_pos p) - 53).
      repeat split. rewrite digits2_iter_xO. lia. }
  destruct Hal as (mz & ez & -> & Hdig & Hez).
  unfold binary_round_aux, shr_fexp, fexp, emin.
  cbn [Zdigits2 shr_record_of_loc].
  replace (Z.max (Zpos (digits2_pos mz) + ez - 53) (3 - 1024 - 53) - ez) with 0 by lia.
  cbn [shr shr_m loc_of_shr_record round_nearest_even Zdigits2 shr_record_of_loc].
  replace (Z.max (Zpos (digits2_pos mz) + ez - 53) (3 - 1024 - 53) - ez) with 0 by lia.
  cbn [shr shr_m].
  destruct (Z.leb_spec ez (1024 - 53)); [| lia].
  eexists _, _. reflexivity.
Qed.

Lemma to_float_small (z : Z) :
  0 < z < 2 ^ 53 -> exists m e, to_float (NInt z) = Ret (S754_finite false m e).
Proof.
  intros [H0 H1]. destruct z as [ | p | p]; try lia.
  destruct (b64_of_Z_small p H1) as (m & e & E).
  exists m, e. unfold to_float. rewrite E. reflexivity.
Qed.

(** ** The centroid *)

(** The mean of a nonempty list of floats is a float: neither the sum nor
    the division raises. *)
Lemma arith_mean_total (alg : sum_algorithm) (xs : list spec_float) :
  xs <> [] -> Z.of_nat (length xs) < 2 ^ 53 ->
  exists f, arith_mean alg xs = Ret (VFloat f).
Proof.
  intros Hne Hlen. destruct xs as [ | x xs]; [congruence |].
  unfold arith_mean. cbn [py_sum].
  destruct (to_float_small (Z.of_nat (length (x :: xs)))) as (m & e & E).
  { split; [cbn [length]; lia | exact Hlen]. }
  unfold py_truediv. cbn [as_num].
  change (to_float (NFloat ?f)) with (Ret f). cbn [rbind].
  rewrite E. cbn [rbind is_zero]. eexists; reflexivity.
Qed.

(** Case analysis on the innermost result of a chain of binds. *)
Ltac bind_cases :=
  repeat match goal with
    | |- context [rbind ?r _] =>
        lazymatch r with
        | context [rbind] => fail
        | _ => destruct r; cbn [rbind]; try reflexivity
        end
    end.

(** With a selection, the centre is the pair of the two means. *)
Lemma map_center_logic_selected (alg : sum_algorithm) (ls : list pyval)
    (P : gmap (option string) (list coord)) (sel : pyval) :
  sel <> VNone ->
  map_center_logic alg ls P sel =
  (l <- next_named ls sel ;;
   cvi <- compute_cvi l ;;
   col <- get_color cvi ;;
   selected_coords <- kml_getitem P sel ;;
   c0 <- arith_mean alg (map fst selected_coords) ;;
   c1 <- arith_mean alg (map snd selected_coords) ;;
   Ret {| map_center := [c0; c1];
          zoom_level := VInt 15;
          selected_landmark := l;
          selected_cvi := cvi;
          selected_color := VStr col |}).
Proof.
  intros Hsel. unfold map_center_logic, arith_mean.
  destruct sel; try congruence;
    (destruct (next_named ls _); cbn [rbind]; [| reflexivity];
     destruct (compute_cvi _); cbn [rbind]; [| reflexivity];
     destruct (get_color _); cbn [rbind]; [| reflexivity];
     destruct (kml_getitem P _) as [sc | ]; cbn [rbind]; [| reflexivity];
     rewrite !length_map; unfold coord; bind_cases; reflexivity).
Qed.



(** ** The image gallery *)

Lemma show_images_trace (sel : pyval) (imgs : list pyval) :
  forall (idx : nat) (tr : list ui_event),
    show_images sel idx imgs tr = (tr ++ image_events sel idx imgs, Ret tt).
Proof.
  induction imgs as [ | img r IH]; intros idx tr; cbn [show_images image_events].
  - unfold ui_ret. rewrite app_nil_r. reflexivity.
  - unfold ui_bind, emit. rewrite IH, <- app_assoc. reflexivity.
Qed.

Lemma captions_image_events (sel : pyval) (imgs : list pyval) :
  forall idx, captions (image_events sel idx imgs) = map (fun _ => sel) imgs.
Proof.
  induction imgs as [ | img r IH]; intros idx; cbn [image_events captions map].
  - reflexivity.
  - rewrite IH. reflexivity.
Qed.

(** Induction on a list, three items at a time. *)
Lemma list_ind3 {A : Type} (Q : list A -> Prop) :
  Q [] -> (forall a, Q [a]) -> (forall a b, Q [a; b]) ->
  (forall a b c l, Q l -> Q (a :: b :: c :: l)) ->
  forall l, Q l.
Proof.
  intros H0 H1 H2 H3 l.
  assert (H : Q l /\ (forall a, Q (a :: l)) /\ (forall a b, Q (a :: b :: l))).
  { induction l as [ | x l (IH0 & IH1 & IH2)].
    - repeat split; auto.
    - repeat split; auto. }
  apply H.
Qed.

Lemma mod3_of_3q (q : nat) :
  ((3 * q) mod 3 = 0 /\ (S (3 * q)) mod 3 = 1 /\ (S (S (3 * q))) mod 3 = 2)%nat.
Proof.
  repeat split; symmetry.
  - apply (Nat.mod_unique _ _ q); lia.
  - apply (Nat.mod_unique _ _ q); lia.
  - apply (Nat.mod_unique _ _ q); lia.
Qed.

(** Column [j] holds, at depth [r], image number [3 * r + j]. *)
Lemma column_items_lookup (sel : pyval) (imgs : list pyval) :
  forall (q r j : nat),
    (j < 3)%nat ->
    column_items j (image_events sel (3 * q) imgs) !! r = imgs !! (3 * r + j)%nat.
Proof.
  induction imgs as [ | a | a b | a b c l IH] using list_ind3; intros q r j Hj;
    destruct (mod3_of_3q q) as (M0 & M1 & M2);
    cbn [image_events column_items]; rewrite ?M0, ?M1, ?M2.
  - reflexivity.
  - destruct j as [ | [ | [ | ]]]; try lia; cbn [Nat.eqb];
      destruct r; cbn; try reflexivity;
      replace (3 * S r + 0)%nat with (S (S (S (3 * r)))) by lia; reflexivity.
  - destruct j as [ | [ | [ | ]]]; try lia; cbn [Nat.eqb column_items];
      destruct r; try reflexivity.
    + replace (3 * S r + 0)%nat with (S (S (S (3 * r)))) by lia. reflexivity.
    + replace (3 * S r + 1)%nat with (S (S (S (S (3 * r))))) by lia. reflexivity.
    + replace (3 * S r + 2)%nat with (S (S (S (S (S (3 * r)))))) by lia. reflexivity.
  - replace (S (S (S (3 * q)))) with (3 * S q)%nat by lia.
    destruct j as [ | [ | [ | ]]]; try lia; cbn [Nat.eqb column_items];
      (destruct r as [ | r];
       [ reflexivity
       | rewrite lookup_cons_ne_0 by lia; cbn [Nat.pred];
         rewrite (IH (S q) r) by lia ]).
    + replace (3 * S r + 0)%nat with (S (S (S (3 * r + 0)))) by lia. reflexivity.
    + replace (3 * S r + 1)%nat with (S (S (S (3 * r + 1)))) by lia. reflexivity.
    + replace (3 * S r + 2)%nat with (S (S (S (3 * r + 2)))) by lia. reflexivity.
Qed.

Lemma take3_drop_lookup {A : Type} (l : list A) (n : nat) :
  take 3 (drop n l) = omap (fun j => l !! (n + j)%nat) [0; 1; 2]%nat.
Proof.
  unfold omap; cbn [list_omap]. rewrite <- !(lookup_drop l n).
  destruct (drop n l) as [ | a [ | b [ | c l']]]; reflexivity.
Qed.

Lemma image_events_only_images (sel : pyval) (imgs : list pyval) (e : ui_event) :
  forall idx, In e (image_events sel idx imgs) ->
              exists i img, e = Render (Column 1 i) (Image img sel).
Proof.
  induction imgs as [ | img r IH]; intros idx H; cbn [image_events] in H.
  - destruct H.
  - destruct H as [<- | H]; [eexists _, _; reflexivity | eapply IH; exact H].
Qed.

(** The showcase on a selected landmark that has images. *)
Lemma image_showcase_images (sel : pyval) (view : selection)
    (d : list (string * pyval)) (imgs : list pyval) :
  sel <> VNone -> selected_landmark view = VDict d ->
  imgs <> [] -> dict_get d "images" = Some (VList imgs) ->
  image_showcase sel view []
  = (Render Page MarkdownPhotosHeading :: Columns 1 3 :: image_events sel 0 imgs,
     Ret tt).
Proof.
  intros Hsel Hd Hne Himgs.
  assert (E : image_showcase sel view [] =
              show_images sel 0 imgs
                [Render Page MarkdownPhotosHeading; Columns 1 3]).
  { unfold image_showcase, ui_bind, emit, lift, py_get.
    rewrite Hd, Himgs. cbn [app].
    destruct imgs as [ | x r]; [congruence |].
    destruct sel; try congruence; reflexivity. }
  rewrite E, show_images_trace. reflexivity.
Qed.

Lemma grid_row_gallery (sel : pyval) (imgs : list pyval) (r : nat) :
  grid_row (Render Page MarkdownPhotosHeading :: Columns 1 3 :: image_events sel 0 imgs) r
  = take 3 (drop (3 * r) imgs).
Proof.
  rewrite take3_drop_lookup. unfold grid_row, omap; cbn [list_omap column_items].
  change (image_events sel 0 imgs) with (image_events sel (3 * 0) imgs).
  rewrite !column_items_lookup by lia. reflexivity.
Qed.

(** C8: for a selected landmark, the gallery shows the notice that there
    are no images when the landmark has no image list or an empty one.
    Otherwise it opens three columns and shows every image, captioned with
    the landmark's name, image number [i] in column [i mod 3]; read row by
    row, the grid is the image list in load order, three to a row.  Four
    images make a row of three and a row of one. *)
Theorem image_gallery_layout (sel : pyval) (view : selection)
    (d : list (string * pyval)) :
  sel <> VNone -> selected_landmark view = VDict d ->
  ((dict_get d "images" = None \/ dict_get d "images" = Some (VList [])) ->
   image_showcase sel view []
   = ([Render Page MarkdownPhotosHeading; Render Page WarningNoImages], Ret tt)) /\
  (forall imgs : list pyval,
      imgs <> [] -> dict_get d "images" = Some (VList imgs) ->
      exists tr,
        image_showcase sel view [] = (tr, Ret tt) /\
        ~ In (Render Page WarningNoImages) tr /\
        In (Columns 1 3) tr /\
        (forall r, grid_row tr r = take 3 (drop (3 * r) imgs)) /\
        captions tr = map (fun _ => sel) imgs) /\
  (forall a b c e : pyval,
      dict_get d "images" = Some (VList [a; b; c; e]) ->
      exists tr,
        image_showcase sel view [] = (tr, Ret tt) /\
        grid_row tr 0 = [a; b; c] /\ grid_row tr 1 = [e] /\ grid_row tr 2 = []).
Proof.
  intros Hsel Hd. split; [| split].
  - intros H. unfold image_showcase, ui_bind, emit, lift, py_get. rewrite Hd.
    destruct H as [-> | ->]; destruct sel; try congruence; reflexivity.
  - intros imgs Hne Himgs. eexists. split.
    { apply (image_showcase_images sel view d imgs); assumption. }
    split.
    { intros [H | [H | H]]; try discriminate.
      apply image_events_only_images in H as (i & img & H). discriminate. }
    split; [right; left; reflexivity |].
    split; [intros r; apply grid_row_gallery |].
    cbn [captions]. apply captions_image_events.
  - intros a b c e Himgs. eexists. split.
    { apply (image_showcase_images sel view d [a; b; c; e]);
        [assumption | assumption | discriminate | assumption]. }
    rewrite !grid_row_gallery. repeat split.
Qed.

Lemma image_gallery_layout_witness :
  exists tr,
    image_showcase (VStr "Anibong")
      {| map_center := []; zoom_level := VInt 15; selected_landmark := anibong;
         selected_cvi := VFloat f_4_0; selected_color := VStr "green" |} []
    = (tr, Ret tt) /\
    grid_row tr 0 = [VStr "img/a1.jpg"; VStr "img/a2.jpg"; VStr "img/a3.jpg"] /\
    grid_row tr 1 = [VStr "img/a4.jpg"] /\
    grid_row tr 2 = [].
Proof.
  refine (proj2 (proj2 (image_gallery_layout (VStr "Anibong")
                          {| map_center := []; zoom_level := VInt 15;
                             selected_landmark := anibong;
                             selected_cvi := VFloat f_4_0;
                             selected_color := VStr "green" |}
                          _ _ eq_refl))
            _ _ _ _ eq_refl).
  discriminate.
Defined.

(** ** The run of the script *)

(** The run, phase by phase: what has been rendered when a phase raises. *)
Lemma run_phases (w : world) :
  run w =
  match load_landmarks (landmarks_json w) with
  | Raise e => ([PageConfig], Raise e)
  | Ret landmarks =>
      match load_kml (boundaries_kml w) with
      | Raise e => ([PageConfig], Raise e)
      | Ret P =>
          match py_iter landmarks with
          | Raise e => ([PageConfig; Render Sidebar SidebarTitle], Raise e)
          | Ret ls =>
              match rmap (fun l => py_getitem l "name") ls with
              | Raise e => ([PageConfig; Render Sidebar SidebarTitle], Raise e)
              | Ret names =>
                  match map_center_logic (python_sum w) ls P (radio_value w) with
                  | Raise e => (sidebar_trace names, Raise e)
                  | Ret view =>
                      match draw_map ls P (radio_value w) view with
                      | Raise e => (sidebar_trace names, Raise e)
                      | Ret m => main_ui (radio_value w) view m (sidebar_trace names)
                      end
                  end
              end
          end
      end
  end.
Proof.
  unfold run, script, main_ui, ui_bind, emit, lift, sidebar_trace. cbn [app].
  destruct (load_landmarks _) as [landmarks | ]; [| reflexivity].
  destruct (load_kml _) as [P | ]; [| reflexivity].
  destruct (py_iter landmarks) as [ls | ]; [| reflexivity].
  destruct (rmap _ ls) as [names | ]; [| reflexivity].
  destruct (map_center_logic _ _ _ _) as [view | ]; [| reflexivity].
  destruct (draw_map _ _ _ _) as [m | ]; reflexivity.
Qed.

Lemma draw_landmark_unmatched (P : gmap (option string) (list coord))
    (sel l : pyval) (nm : string) :
  py_getitem l "name" = Ret (VStr nm) -> P !! Some nm = None ->
  exists e, draw_landmark P sel l = Raise e /\
            (is_ret (cvi <- compute_cvi l ;; get_color cvi) = true -> e = KeyError).
Proof.
  intros Hname Hnone. unfold draw_landmark.
  destruct (compute_cvi l) as [cvi | e]; cbn [rbind];
    [| exists e; split; [reflexivity | discriminate]].
  destruct (get_color cvi) as [col | e]; cbn [rbind];
    [| exists e; split; [reflexivity | discriminate]].
  rewrite Hname; cbn [rbind kml_getitem]. rewrite Hnone; cbn [rbind].
  exists KeyError. split; reflexivity.
Qed.

Lemma rmap_raises_only {A B : Type} (f : A -> result B) (l : list A) (e0 : exn) :
  (forall a e, In a l -> f a = Raise e -> e = e0) ->
  forall e, rmap f l = Raise e -> e = e0.
Proof.
  induction l as [ | x l IH]; intros Hall e H; cbn [rmap rbind] in H.
  - discriminate.
  - destruct (f x) as [b | ex] eqn:Hx; cbn [rbind] in H.
    + destruct (rmap f l) as [bs | el] eqn:Hl; cbn [rbind] in H; [discriminate |].
      injection H as <-. eapply IH; [| reflexivity].
      intros a e' Ha. apply Hall. right. exact Ha.
    + injection H as <-. eapply Hall; [left; reflexivity | exact Hx].
Qed.

(** C4, as the spec states it, fails: with a landmark named Anibong and no
    boundary at all, both loads return; the script renders the sidebar and
    only then raises, a [KeyError] from the loop that draws the map. *)
Lemma unmatched_name_passes_load :
  load_landmarks (landmarks_json unmatched_world)
  = Ret (VList [sample_landmark "Anibong" (VInt 4) (VInt 3) (VInt 5)]) /\
  load_kml (boundaries_kml unmatched_world) = Ret ∅ /\
  (∅ : gmap (option string) (list coord)) !! Some "Anibong"%string = None /\
  run unmatched_world
  = ([PageConfig; Render Sidebar SidebarTitle;
      Render Sidebar (Radio [VStr "Anibong"])], Raise KeyError).
Proof.
  split; [reflexivity |]. split; [reflexivity |]. split; [reflexivity |].
  rewrite run_phases. vm_compute. reflexivity.
Qed.

Section LoadedRun.

(** A run in which both loads return. *)
Variable w : world.
Variable landmarks : pyval.
Variable P : gmap (option string) (list coord).
Variable ls : list pyval.
Hypothesis Hl : load_landmarks (landmarks_json w) = Ret landmarks.
Hypothesis Hk : load_kml (boundaries_kml w) = Ret P.
Hypothesis Hi : py_iter landmarks = Ret ls.

(** C4, amended: the loads do not compare the names of the two stores.
    When both loads return and some landmark's name has no boundary, the
    run raises after the sidebar title has been rendered and before the map
    is displayed; it raises a [KeyError] from the loop that draws the map,
    with the sidebar complete, when nothing is selected and every landmark
    has a string for a name, an index and a colour.  Hence in a run that
    completes every landmark name has a boundary. *)
Theorem unmatched_name_raises_after_load :
  (forall (l : pyval) (nm : string),
      In l ls -> py_getitem l "name" = Ret (VStr nm) -> P !! Some nm = None ->
      (exists tr e,
          run w = (tr, Raise e) /\
          In (Render Sidebar SidebarTitle) tr /\ shown_map tr = None) /\
      (radio_value w = VNone ->
       (forall l', In l' ls ->
                   (exists nm', py_getitem l' "name" = Ret (VStr nm')) /\
                   is_ret (cvi <- compute_cvi l' ;; get_color cvi) = true) ->
       exists names,
         rmap (fun l => py_getitem l "name") ls = Ret names /\
         run w = (sidebar_trace names, Raise KeyError))) /\
  (forall tr, run w = (tr, Ret tt) ->
              forall (l : pyval) (nm : string),
                In l ls -> py_getitem l "name" = Ret (VStr nm) ->
                is_Some (P !! Some nm)).
Proof.
  assert (Hraise : forall (l : pyval) (nm : string),
             In l ls -> py_getitem l "name" = Ret (VStr nm) -> P !! Some nm = None ->
             exists tr e, run w = (tr, Raise e) /\
                          In (Render Sidebar SidebarTitle) tr /\ shown_map tr = None).
  { intros l nm Hin Hname Hnone. rewrite run_phases, Hl, Hk, Hi.
    destruct (rmap _ ls) as [names | e].
    2:{ eexists _, e. split; [reflexivity |]. split; [cbn; tauto | reflexivity]. }
    destruct (map_center_logic _ _ _ _) as [view | e].
    2:{ eexists _, e. split; [reflexivity |]. split; [cbn; tauto | reflexivity]. }
    destruct (draw_landmark_unmatched P (radio_value w) l nm Hname Hnone)
      as (e & He & _).
    destruct (rmap_raises _ ls l e Hin He) as [e' He'].
    unfold draw_map. rewrite He'; cbn [rbind].
    eexists _, e'. split; [reflexivity |]. split; [cbn; tauto | reflexivity]. }
  split.
  - intros l nm Hin Hname Hnone. split; [eapply Hraise; eassumption |].
    intros Hsel Hwf.
    destruct (rmap_total (fun l => py_getitem l "name") ls) as [names Hnames].
    { intros a Ha. destruct (Hwf a Ha) as [[nm' Hn] _].
      rewrite Hn. eexists; reflexivity. }
    exists names. split; [exact Hnames |].
    rewrite run_phases, Hl, Hk, Hi, Hnames, Hsel. cbn [map_center_logic].
    destruct (draw_landmark_unmatched P VNone l nm Hname Hnone) as (e & He & _).
    destruct (rmap_raises _ ls l e Hin He) as [e' He'].
    assert (e' = KeyError) as ->.
    { eapply (rmap_raises_only (draw_landmark P VNone) ls); [| exact He'].
      intros a ea Ha Hea. destruct (Hwf a Ha) as [[nm' Hn] Hc].
      unfold draw_landmark in Hea.
      destruct (compute_cvi a) as [cvi | ]; cbn [rbind is_ret] in Hc, Hea;
        [| discriminate].
      destruct (get_color cvi) as [col | ]; cbn [rbind is_ret] in Hc, Hea;
        [| discriminate].
      rewrite Hn in Hea; cbn [rbind kml_getitem] in Hea.
      destruct (P !! Some nm'); cbn [rbind] in Hea; congruence. }
    unfold draw_map. rewrite He'. reflexivity.
  - intros tr Hrun l nm Hin Hname.
    destruct (P !! Some nm) as [c | ] eqn:Hc; [eexists; reflexivity |].
    destruct (Hraise l nm Hin Hname Hc) as (tr' & e & Hr & _).
    rewrite Hr in Hrun. discriminate.
Qed.

End LoadedRun.

Lemma unmatched_name_raises_after_load_witness :
  exists tr e,
    run unmatched_world = (tr, Raise e) /\
    In (Render Sidebar SidebarTitle) tr /\ shown_map tr = None.
Proof.
  refine (proj1 (proj1 (unmatched_name_raises_after_load unmatched_world
                          _ ∅ _ eq_refl eq_refl eq_refl)
                   (sample_landmark "Anibong" (VInt 4) (VInt 3) (VInt 5))
                   "Anibong"%string _ eq_refl eq_refl)).
  left. reflexivity.
Defined.

(** ** A complete run *)

(** The sample data loads, and the run on it completes: the map shows both
    landmarks and the gallery the four photos of the selected one. *)
Example sample_world_runs :
  load_kml (boundaries_kml sample_world) = Ret sample_polygons /\
  snd (run sample_world) = Ret tt /\
  (exists m, shown_map (fst (run sample_world)) = Some m /\
             location m = [VFloat (b64_of_decimal false 113 (-1));
                           VFloat (b64_of_decimal false 12525 (-2))] /\
             length (children m) = 3%nat) /\
  grid_row (fst (run sample_world)) 1 = [VStr "img/a4.jpg"].
Proof.
  split; [vm_compute; reflexivity |].
  split; [vm_compute; reflexivity |].
  split; [| vm_compute; reflexivity].
  eexists. split; [vm_compute; reflexivity |].
  split; vm_compute; reflexivity.
Qed.

(** * Further properties of the code *)

(** ** The index and its colour *)

Lemma py_round_float (f : spec_float) (n : N) (v : pyval) :
  py_round (VFloat f) n = Ret v -> exists r, v = VFloat r.
Proof.
  unfold py_round; cbn [as_num]. destruct (_ && _); [discriminate |].
  intros H. injection H as <-. eexists; reflexivity.
Qed.

Lemma compute_cvi_float (l cvi : pyval) :
  compute_cvi l = Ret cvi -> exists f, cvi = VFloat f.
Proof.
  unfold compute_cvi. intros H.
  destruct (sub_score l "geomorphology") as [gs | ]; cbn [rbind] in H; [| discriminate].
  destruct (sub_score l "natural_buffers") as [ns | ]; cbn [rbind] in H; [| discriminate].
  destruct (py_add gs ns) as [s1 | ]; cbn [rbind] in H; [| discriminate].
  destruct (sub_score l "engineering_structures") as [es | ]; cbn [rbind] in H; [| discriminate].
  destruct (py_add s1 es) as [s2 | ]; cbn [rbind] in H; [| discriminate].
  destruct (py_truediv s2 (VInt 3)) as [q | ] eqn:Hq; cbn [rbind] in H; [| discriminate].
  destruct (py_truediv_float _ _ _ Hq) as [f0 ->].
  exact (py_round_float _ _ _ H).
Qed.

(** X1: whenever [compute_cvi] returns, it returns a float, and [get_color]
    accepts it: a landmark that has an index has one of the five colours.
    [get_color] never raises on what [compute_cvi] returns. *)
Theorem compute_cvi_float_has_color (l cvi : pyval) :
  compute_cvi l = Ret cvi ->
  exists (f : spec_float) (c : string),
    cvi = VFloat f /\ get_color cvi = Ret c /\ In c colors.
Proof.
  intros H. destruct (compute_cvi_float l cvi H) as [f ->].
  destruct (get_color_numeric (VFloat f) (NFloat f) eq_refl) as (c & Hc & Hin).
  exists f, c. repeat split; assumption.
Qed.

Lemma compute_cvi_float_has_color_witness :
  exists (f : spec_float) (c : string),
    VFloat f_4_0 = VFloat f /\ get_color (VFloat f_4_0) = Ret c /\ In c colors.
Proof.
  apply (compute_cvi_float_has_color
           (sample_landmark "Anibong" (VInt 4) (VInt 3) (VInt 5))).
  vm_compute. reflexivity.
Defined.

Lemma py_add_raises (v w : pyval) (e : exn) :
  py_add v w = Raise e -> e = TypeError \/ e = OverflowError.
Proof.
  unfold py_add, to_float. intros H.
  repeat match type of H with
    | context [match ?x with _ => _ end] =>
        destruct x; cbn [rbind] in H; try discriminate
    end;
    injection H as <-; tauto.
Qed.

Lemma py_add_not_number (v w : pyval) :
  as_num v = None \/ as_num w = None ->
  py_add v w = Raise TypeError \/
  exists r, py_add v w = Ret r /\ as_num r = None.
Proof.
  intros H. unfold py_add.
  destruct v, w; cbn [as_num] in *;
    try (left; reflexivity);
    try (right; eexists; split; reflexivity);
    destruct H; discriminate.
Qed.

Lemma py_truediv_not_number (v w : pyval) :
  as_num v = None -> py_truediv v w = Raise TypeError.
Proof.
  intros H. unfold py_truediv. rewrite H. destruct (as_num w); reflexivity.
Qed.

(** X2: a record whose three scores are present but not all numbers has
    no index: [compute_cvi] raises, a [TypeError] (or the [OverflowError]
    of an addition that comes first).  Two strings are concatenated by
    [+], and it is then the division that raises. *)
Theorem compute_cvi_rejects_non_numbers (l gs ns es : pyval) :
  sub_score l "geomorphology" = Ret gs ->
  sub_score l "natural_buffers" = Ret ns ->
  sub_score l "engineering_structures" = Ret es ->
  as_num gs = None \/ as_num ns = None \/ as_num es = None ->
  exists e, compute_cvi l = Raise e /\ (e = TypeError \/ e = OverflowError).
Proof.
  intros Hg Hn He Hnum.
  rewrite (compute_cvi_scores l gs ns es Hg Hn He). unfold py_mean3.
  destruct (py_add gs ns) as [s1 | e1] eqn:H1; cbn [rbind].
  2:{ exists e1. split; [reflexivity | eapply py_add_raises; exact H1]. }
  assert (Hs1 : as_num s1 = None \/ as_num es = None).
  { destruct Hnum as [Hx | [Hx | Hx]]; [| | right; exact Hx].
    - destruct (py_add_not_number gs ns (or_introl Hx)) as [Hr | (r & Hr & Hnone)];
        rewrite H1 in Hr; [discriminate |].
      injection Hr as <-. left; exact Hnone.
    - destruct (py_add_not_number gs ns (or_intror Hx)) as [Hr | (r & Hr & Hnone)];
        rewrite H1 in Hr; [discriminate |].
      injection Hr as <-. left; exact Hnone. }
  destruct (py_add s1 es) as [s2 | e2] eqn:H2; cbn [rbind].
  2:{ exists e2. split; [reflexivity | eapply py_add_raises; exact H2]. }
  destruct (py_add_not_number s1 es Hs1) as [Hr | (r & Hr & Hnone)];
    rewrite H2 in Hr; [discriminate |].
  injection Hr as <-.
  rewrite (py_truediv_not_number s2 (VInt 3) Hnone); cbn [rbind].
  exists TypeError. split; [reflexivity | left; reflexivity].
Qed.

Lemma compute_cvi_rejects_non_numbers_witness :
  exists e,
    compute_cvi (sample_landmark "Anibong" (VStr "4") (VStr "3") (VStr "5"))
    = Raise e /\ (e = TypeError \/ e = OverflowError).
Proof.
  apply (compute_cvi_rejects_non_numbers _ (VStr "4") (VStr "3") (VStr "5"));
    try reflexivity.
  left. reflexivity.
Defined.

Lemma color_sum_ok_range :
  forallb color_sum_ok (seqZ (- (3 * score_bound)) (6 * score_bound + 1)) = true.
Proof. vm_compute. reflexivity. Qed.

Lemma color_of_sum_monotone (s t : Z) :
  s <= t -> (severity_rank (color_of_sum s) <= severity_rank (color_of_sum t))%nat.
Proof.
  intros H. unfold color_of_sum.
  repeat match goal with
    | |- context [?a <=? ?b] => destruct (Z.leb_spec a b)
    end; cbn; lia.
Qed.

(** X3: for int scores between -1000 and 1000 the colour of a landmark is
    decided by the sum of the three scores: red up to 3, orange up to 6,
    yellow up to 9, green up to 12, blue above; the rounding of the index
    to two decimals never moves a landmark to another bucket.  Hence a
    landmark with the larger sum is never in a more severe bucket. *)
Theorem landmark_color_by_sum :
  (forall (l : pyval) (g n e : Z),
      sub_score l "geomorphology" = Ret (VInt g) ->
      sub_score l "natural_buffers" = Ret (VInt n) ->
      sub_score l "engineering_structures" = Ret (VInt e) ->
      - score_bound <= g <= score_bound ->
      - score_bound <= n <= score_bound ->
      - score_bound <= e <= score_bound ->
      landmark_color l = Ret (color_of_sum (g + n + e))) /\
  (forall s t : Z,
      s <= t ->
      (severity_rank (color_of_sum s) <= severity_rank (color_of_sum t))%nat).
Proof.
  split; [| exact color_of_sum_monotone].
  intros l g n e Hg Hn He Bg Bn Be. unfold landmark_color.
  rewrite (compute_cvi_int_scores l g n e Hg Hn He).
  pose proof color_sum_ok_range as Hall. rewrite forallb_forall in Hall.
  specialize (Hall (g + n + e)).
  assert (Hin : In (g + n + e) (seqZ (- (3 * score_bound)) (6 * score_bound + 1))).
  { apply list_elem_of_In, elem_of_seqZ. unfold score_bound in *. lia. }
  apply Hall in Hin. unfold color_sum_ok in Hin.
  destruct (cvi <- cvi_of_sum (g + n + e) ;; get_color cvi) as [c | ];
    [| discriminate].
  apply String.eqb_eq in Hin. rewrite Hin. reflexivity.
Qed.

Lemma landmark_color_by_sum_witness :
  landmark_color (sample_landmark "Astrodome" (VInt 1) (VInt 2) (VInt 2))
  = Ret "orange"%string.
Proof.
  apply (proj1 landmark_color_by_sum _ 1 2 2);
    try reflexivity; unfold score_bound; lia.
Defined.

(** ** The boundary loader, placemark by placemark *)

(** X4: an entry of a ring is stored exactly when it is a well-formed
    triple: [parse_coordinate] returns the pair [(lat, lon)] if and only if
    the entry splits at its commas into three fields that all read as
    floats, the first [lon] and the second [lat]. *)
Theorem parse_coordinate_iff (c : string) (lat lon : spec_float) :
  parse_coordinate c = Ret (lat, lon) <-> well_formed_triple c lon lat.
Proof.
  split; [| apply parse_coordinate_triple].
  unfold parse_coordinate, well_formed_triple. intros H.
  destruct (py_split_on "," c) as [ | a [ | b [ | z [ | d r]]]];
    try discriminate;
    repeat match type of H with
      | context [py_float ?s] =>
          let E := fresh "E" in
          destruct (py_float s) eqn:E; cbn [rbind] in H; try discriminate
      end.
  injection H as <- <-. eexists a, b, z, _. repeat split; eassumption.
Qed.

Lemma parse_coordinate_iff_witness :
  well_formed_triple "125.5,11.4,12.5" f_125_5 f_11_4.
Proof.
  apply (proj1 (parse_coordinate_iff "125.5,11.4,12.5" f_11_4 f_125_5)).
  vm_compute. reflexivity.
Defined.

Lemma load_placemark_entry (P : gmap (option string) (list coord)) (pm : placemark) :
  load_placemark P pm = (e <- placemark_entry pm ;; Ret (<[fst e := snd e]> P)).
Proof.
  unfold load_placemark, placemark_entry.
  destruct (pm_name pm) as [name | ]; cbn [rbind]; [| reflexivity].
  destruct (pm_coordinates pm) as [[text | ] | ]; cbn [rbind]; try reflexivity.
  destruct (parse_ring _); reflexivity.
Qed.

Lemma load_placemarks_entries (pms : list placemark) :
  forall P : gmap (option string) (list coord),
    load_placemarks P pms
    = (es <- rmap placemark_entry pms ;; Ret (store_entries P es)).
Proof.
  induction pms as [ | pm r IH]; intros P; cbn [load_placemarks rmap rbind].
  - reflexivity.
  - rewrite load_placemark_entry.
    destruct (placemark_entry pm) as [e | ]; cbn [rbind]; [| reflexivity].
    rewrite IH. destruct (rmap placemark_entry r); reflexivity.
Qed.

Lemma rmap_first_raise {A B : Type} (f : A -> result B) (pre post : list A)
    (a : A) (e : exn) :
  Forall (fun x => is_ret (f x) = true) pre -> f a = Raise e ->
  rmap f (pre ++ a :: post) = Raise e.
Proof.
  intros Hpre Ha. induction Hpre as [ | x pre Hx _ IH]; cbn [app rmap rbind].
  - rewrite Ha. reflexivity.
  - destruct (f x); [| discriminate]. cbn [rbind]. rewrite IH. reflexivity.
Qed.

Lemma load_kml_entries (pms : list placemark)
    (polygons : gmap (option string) (list coord)) :
  load_kml (KmlTree pms) = Ret polygons <->
  exists entries,
    Forall2 (fun pm e => placemark_entry pm = Ret e) pms entries /\
    polygons = store_entries ∅ entries.
Proof.
  cbn [load_kml]. rewrite load_placemarks_entries. split.
  - destruct (rmap placemark_entry pms) as [es | ] eqn:Hes; cbn [rbind];
      [| discriminate].
    intros H. injection H as <-. exists es. split; [| reflexivity].
    apply rmap_inv. exact Hes.
  - intros (es & Hes & ->). rewrite (rmap_Forall2 _ _ _ Hes). reflexivity.
Qed.

(** X5: [load_kml] is all or nothing, and it stops at the first bad
    placemark.  It returns exactly when every placemark has a name element,
    a coordinates text and a ring of well-formed entries, and then the
    result is the placemarks' rings stored under their names in document
    order; otherwise it raises what the first bad placemark raises, and no
    boundary of the placemarks before it is kept. *)
Theorem load_kml_all_or_nothing (pms : list placemark) :
  (forall polygons,
      load_kml (KmlTree pms) = Ret polygons <->
      exists entries,
        Forall2 (fun pm e => placemark_entry pm = Ret e) pms entries /\
        polygons = store_entries ∅ entries) /\
  (forall (pre post : list placemark) (pm : placemark) (e : exn),
      pms = pre ++ pm :: post ->
      Forall (fun p => is_ret (placemark_entry p) = true) pre ->
      placemark_entry pm = Raise e ->
      load_kml (KmlTree pms) = Raise e).
Proof.
  split; [apply load_kml_entries |].
  intros pre post pm e -> Hpre Hpm. cbn [load_kml].
  rewrite load_placemarks_entries.
  rewrite (rmap_first_raise _ pre post pm e Hpre Hpm). reflexivity.
Qed.

Lemma load_kml_all_or_nothing_witness :
  load_kml (KmlTree [sample_placemark "Anibong" "125.0,11.2,0";
                     {| pm_name := Some (Some "Astrodome"%string);
                        pm_coordinates := None |};
                     sample_placemark "Balyuan" "125.0,11.2"])
  = Raise AttributeError.
Proof.
  apply (proj2 (load_kml_all_or_nothing _)
           [sample_placemark "Anibong" "125.0,11.2,0"]
           [sample_placemark "Balyuan" "125.0,11.2"]
           {| pm_name := Some (Some "Astrodome"%string); pm_coordinates := None |}).
  - reflexivity.
  - repeat constructor.
  - reflexivity.
Defined.

Lemma store_entries_lookup_other (es : list (option string * list coord))
    (k : option string) :
  forall P : gmap (option string) (list coord),
    (forall e, In e es -> fst e <> k) -> store_entries P es !! k = P !! k.
Proof.
  induction es as [ | e es IH]; intros P H; cbn [store_entries fold_left].
  - reflexivity.
  - change (fold_left _ es ?Q) with (store_entries Q es).
    rewrite IH by (intros x Hx; apply H; right; exact Hx).
    apply lookup_insert_ne. apply H. left. reflexivity.
Qed.

Lemma store_entries_lookup_last (pre post : list (option string * list coord))
    (k : option string) (r : list coord) (P : gmap (option string) (list coord)) :
  (forall e, In e post -> fst e <> k) ->
  store_entries P (pre ++ (k, r) :: post) !! k = Some r.
Proof.
  intros H. unfold store_entries. rewrite fold_left_app. cbn [fold_left fst snd].
  change (fold_left _ post ?Q) with (store_entries Q post).
  rewrite store_entries_lookup_other by exact H.
  apply lookup_insert_eq.
Qed.

Lemma placemark_entry_inv (pm : placemark) (k : option string) (r : list coord) :
  placemark_entry pm = Ret (k, r) ->
  pm_name pm = Some k /\
  exists text, pm_coordinates pm = Some (Some text) /\
               parse_ring (py_strip text) = Ret r.
Proof.
  unfold placemark_entry.
  destruct (pm_name pm) as [name | ]; cbn [rbind]; [| discriminate].
  destruct (pm_coordinates pm) as [[text | ] | ]; cbn [rbind]; try discriminate.
  destruct (parse_ring (py_strip text)) as [coords | ] eqn:Hr; cbn [rbind];
    [| discriminate].
  intros H. injection H as <- <-. split; [reflexivity |].
  exists text. split; [reflexivity | exact Hr].
Qed.

Lemma entries_names (pms : list placemark) (es : list (option string * list coord))
    (k : option string) :
  Forall2 (fun pm e => placemark_entry pm = Ret e) pms es ->
  (forall pm, In pm pms -> pm_name pm <> Some k) ->
  forall e, In e es -> fst e <> k.
Proof.
  induction 1 as [ | pm e pms es Hpe _ IH]; intros Hn x Hx; [destruct Hx |].
  destruct Hx as [<- | Hx].
  - destruct e as [k' r]. apply placemark_entry_inv in Hpe as [Hname _].
    cbn [fst]. intros ->. eapply Hn; [left; reflexivity | exact Hname].
  - apply IH; [| exact Hx]. intros p Hp. apply Hn. right. exact Hp.
Qed.

(** X6: the boundaries are keyed by the placemark names, and of two
    placemarks with one name the later one wins.  After a load that
    returns, a name that no placemark bears has no boundary, and a name
    has the ring of the last placemark that bears it. *)
Theorem load_kml_last_placemark_wins (pms : list placemark)
    (polygons : gmap (option string) (list coord)) :
  load_kml (KmlTree pms) = Ret polygons ->
  (forall k : option string,
      (forall pm, In pm pms -> pm_name pm <> Some k) -> polygons !! k = None) /\
  (forall (pre post : list placemark) (pm : placemark) (k : option string),
      pms = pre ++ pm :: post ->
      pm_name pm = Some k ->
      (forall p, In p post -> pm_name p <> Some k) ->
      exists (text : string) (ring : list coord),
        pm_coordinates pm = Some (Some text) /\
        parse_ring (py_strip text) = Ret ring /\
        polygons !! k = Some ring).
Proof.
  intros H. apply load_kml_entries in H as (es & Hes & ->).
  split.
  - intros k Hk.
    rewrite (store_entries_lookup_other es k ∅ (entries_names pms es k Hes Hk)).
    apply lookup_empty.
  - intros pre post pm k -> Hname Hpost.
    apply Forall2_app_inv_l in Hes as (epre & erest & Hpre & Hrest & ->).
    inversion Hrest as [ | pm' e post' epost Hpm Hpost' ]; subst.
    destruct e as [k' r].
    destruct (placemark_entry_inv pm k' r Hpm) as (Hname' & text & Htext & Hring).
    assert (k' = k) as -> by congruence.
    exists text, r. split; [exact Htext |]. split; [exact Hring |].
    apply store_entries_lookup_last.
    apply (entries_names post epost k Hpost' Hpost).
Qed.

Lemma load_kml_last_placemark_wins_witness :
  exists (text : string) (ring : list coord),
    pm_coordinates (sample_placemark "Anibong" "125.5,11.4,0") = Some (Some text) /\
    parse_ring (py_strip text) = Ret ring /\
    (<[Some "Anibong"%string := [(f_11_4, f_125_5)]]>
       (<[Some "Anibong"%string := [(f_11_2, f_125_0)]]> ∅)
     : gmap (option string) (list coord)) !! Some "Anibong"%string = Some ring.
Proof.
  refine (proj2 (load_kml_last_placemark_wins
                   [sample_placemark "Anibong" "125.0,11.2,0";
                    sample_placemark "Anibong" "125.5,11.4,0"] _ _)
            [sample_placemark "Anibong" "125.0,11.2,0"] []
            (sample_placemark "Anibong" "125.5,11.4,0") _ eq_refl eq_refl _).
  - cbn [load_kml]. rewrite load_placemarks_entries.
    replace (rmap placemark_entry _)
      with (Ret [(Some "Anibong"%string, [(f_11_2, f_125_0)]);
                 (Some "Anibong"%string, [(f_11_4, f_125_5)])])
      by (vm_compute; reflexivity).
    reflexivity.
  - intros p [].
Defined.

(** ** Whitespace in a coordinate ring *)

Lemma string_append_cons (c : ascii) (s t : string) :
  (String c s ++ t)%string = String c (s ++ t).
Proof. reflexivity. Qed.

Lemma string_append_nil_l (t : string) : ("" ++ t)%string = t.
Proof. reflexivity. Qed.

Lemma string_append_nil_r (s : string) : (s ++ "")%string = s.
Proof.
  induction s as [ | c s IH]; [reflexivity |].
  rewrite string_append_cons. f_equal. exact IH.
Qed.

Lemma string_append_assoc (s t u : string) :
  ((s ++ t) ++ u)%string = (s ++ (t ++ u))%string.
Proof.
  induction s as [ | c s IH]; [reflexivity |].
  rewrite !string_append_cons. f_equal. exact IH.
Qed.


Lemma split_ws_token (e : string) :
  no_space e = true ->
  forall s tok, split_ws (e ++ s) tok = split_ws s (tok ++ e).
Proof.
  induction e as [ | c e IH]; intros He s tok; rewrite ?string_append_cons, ?string_append_nil_l.
  - rewrite string_append_nil_r. reflexivity.
  - cbn [no_space] in He. apply andb_prop in He as [Hc He].
    apply negb_true_iff in Hc. cbn [split_ws]. rewrite Hc.
    rewrite (IH He), string_append_assoc. reflexivity.
Qed.

Lemma split_ws_leading (sp : string) :
  all_space sp = true -> forall s, split_ws (sp ++ s) "" = split_ws s "".
Proof.
  induction sp as [ | c sp IH]; intros Hsp s; rewrite ?string_append_cons, ?string_append_nil_l.
  - reflexivity.
  - cbn [all_space] in Hsp. apply andb_prop in Hsp as [Hc Hsp].
    cbn [split_ws is_empty]. rewrite Hc. apply IH. exact Hsp.
Qed.

Lemma split_ws_separator (sep : string) (tok : string) :
  all_space sep = true -> is_empty sep = false -> is_empty tok = false ->
  forall s, split_ws (sep ++ s) tok = tok :: split_ws s "".
Proof.
  intros Hsp Hne Htok s. destruct sep as [ | c sp]; [discriminate |].
  cbn [all_space] in Hsp. apply andb_prop in Hsp as [Hc Hsp].
  rewrite string_append_cons. cbn [split_ws]. rewrite Hc, Htok.
  rewrite (split_ws_leading sp Hsp). reflexivity.
Qed.

Lemma split_ws_trailing (sep : string) (tok : string) :
  all_space sep = true -> is_empty tok = false -> split_ws sep tok = [tok].
Proof.
  intros Hsp Htok. destruct sep as [ | c sp]; cbn [split_ws].
  - rewrite Htok. reflexivity.
  - cbn [all_space] in Hsp. apply andb_prop in Hsp as [Hc Hsp].
    rewrite Hc, Htok. f_equal.
    rewrite <- (string_append_nil_r sp), (split_ws_leading sp Hsp). reflexivity.
Qed.

Lemma py_split_ring_text (entries : list (string * string)) :
  ring_layout entries = true ->
  split_ws (ring_text entries) "" = map fst entries.
Proof.
  induction entries as [ | [e sep] r IH]; intros H; cbn [ring_text map fst].
  - reflexivity.
  - cbn [ring_layout] in H.
    apply andb_prop in H as [H Hr]. apply andb_prop in H as [H Hlast].
    apply andb_prop in H as [H Hsep]. apply andb_prop in H as [Hne He].
    apply negb_true_iff in Hne.
    rewrite (split_ws_token e He), string_append_nil_l.
    destruct r as [ | e2 r'].
    + cbn [ring_text map]. rewrite string_append_nil_r.
      apply split_ws_trailing; assumption.
    + apply negb_true_iff in Hlast.
      rewrite (split_ws_separator sep e Hsep Hlast Hne), (IH Hr). reflexivity.
Qed.

Lemma split_ws_lstrip (s : string) :
  split_ws (lstrip is_space s) "" = split_ws s "".
Proof.
  induction s as [ | c s IH]; cbn [lstrip]; [reflexivity |].
  destruct (is_space c) eqn:Hc; [| reflexivity].
  cbn [split_ws is_empty]. rewrite Hc. exact IH.
Qed.

Lemma split_ws_rstrip (s : string) :
  forall tok, split_ws (rstrip is_space s) tok = split_ws s tok.
Proof.
  induction s as [ | c s IH]; intros tok; cbn [rstrip]; [reflexivity |].
  destruct (is_space c && is_empty (rstrip is_space s)) eqn:Hd.
  - apply andb_prop in Hd as [Hc Hr].
    assert (Hs : split_ws s "" = []).
    { rewrite <- IH. destruct (rstrip is_space s); [reflexivity | discriminate]. }
    cbn [split_ws]. rewrite Hc, Hs. reflexivity.
  - cbn [split_ws]. destruct (is_space c); rewrite ?IH; reflexivity.
Qed.

Lemma py_split_strip (s : string) : py_split (py_strip s) = py_split s.
Proof.
  unfold py_split, py_strip. rewrite split_ws_lstrip. apply split_ws_rstrip.
Qed.

(** X7: the entries of a ring may be laid out with any whitespace.  The
    [strip] before the [split] changes nothing; and a text made of leading
    whitespace and of entries (nonempty, free of whitespace), each followed
    by a run of spaces, tabs or newlines that is nonempty between two
    entries, splits into exactly these entries, which the loader then reads
    one by one in order. *)
Theorem ring_whitespace_layout :
  (forall s : string, py_split (py_strip s) = py_split s) /\
  (forall (pre : string) (entries : list (string * string)),
      all_space pre = true -> ring_layout entries = true ->
      py_split (py_strip (pre ++ ring_text entries)) = map fst entries /\
      parse_ring (py_strip (pre ++ ring_text entries))
      = rmap parse_coordinate (map fst entries)).
Proof.
  split; [exact py_split_strip |].
  intros pre entries Hpre Hlay.
  assert (Hsplit : py_split (py_strip (pre ++ ring_text entries)) = map fst entries).
  { rewrite py_split_strip. unfold py_split.
    rewrite (split_ws_leading pre Hpre). apply py_split_ring_text. exact Hlay. }
  split; [exact Hsplit |].
  unfold parse_ring. rewrite Hsplit. reflexivity.
Qed.

Lemma ring_whitespace_layout_witness :
  py_split (py_strip ("
      " ++ ring_text [("125.0,11.2,0", "  "); ("125.5,11.4,0", "
    ")]))
  = ["125.0,11.2,0"; "125.5,11.4,0"]%string /\
  parse_ring (py_strip ("
      " ++ ring_text [("125.0,11.2,0", "  "); ("125.5,11.4,0", "
    ")]))
  = rmap parse_coordinate ["125.0,11.2,0"; "125.5,11.4,0"]%string.
Proof.
  apply (proj2 ring_whitespace_layout "
      " [("125.0,11.2,0", "  "); ("125.5,11.4,0", "
    ")]%string); reflexivity.
Defined.

(** ** An empty ring *)






(** ** The selected landmark *)

Lemma py_eq_VStr (name : pyval) (s : string) :
  py_eq name (VStr s) = true <-> name = VStr s.
Proof.
  split.
  - destruct name as [ | b | z | f | t | l | d]; cbn; try discriminate.
    intros H. apply String.eqb_eq in H. rewrite H. reflexivity.
  - intros ->. cbn. apply String.eqb_refl.
Qed.

Lemma next_named_skip (pre rest : list pyval) (sel : pyval) :
  Forall (other_name sel) pre ->
  next_named (pre ++ rest) sel = next_named rest sel.
Proof.
  induction 1 as [ | x pre (name & Hname & Hne) _ IH]; [reflexivity |].
  cbn [app next_named]. rewrite Hname; cbn [rbind]. rewrite Hne. exact IH.
Qed.


Lemma next_named_option (ls names : list pyval) (s : string) :
  rmap (fun l => py_getitem l "name") ls = Ret names ->
  In (VStr s) names ->
  exists l, next_named ls (VStr s) = Ret l /\ In l ls /\
            py_getitem l "name" = Ret (VStr s).
Proof.
  intros Hnames. apply rmap_inv in Hnames.
  induction Hnames as [ | x name ls names Hx _ IH]; intros Hin; [destruct Hin |].
  cbn [next_named]. rewrite Hx; cbn [rbind].
  destruct (py_eq name (VStr s)) eqn:Heq.
  - apply py_eq_VStr in Heq. subst name.
    exists x. split; [reflexivity |]. split; [left; reflexivity | exact Hx].
  - destruct Hin as [-> | Hin].
    { rewrite (proj2 (py_eq_VStr (VStr s) s) eq_refl) in Heq. discriminate. }
    destruct (IH Hin) as (l & Hl & Hinl & Hname).
    exists l. split; [exact Hl |]. split; [right; exact Hinl | exact Hname].
Qed.

(** X9: the selected landmark is the first record, in file order, whose
    name equals the selection; when no record bears the name, [next]
    raises [StopIteration].  A string that is among the options of the
    radio widget always finds its record. *)
Theorem next_named_first_match :
  (forall (pre post : list pyval) (l sel : pyval),
      Forall (other_name sel) pre -> is_selected sel l ->
      next_named (pre ++ l :: post) sel = Ret l) /\
  (forall (ls : list pyval) (sel : pyval),
      Forall (other_name sel) ls -> next_named ls sel = Raise StopIteration) /\
  (forall (ls names : list pyval) (s : string),
      rmap (fun l => py_getitem l "name") ls = Ret names ->
      In (VStr s) names ->
      exists l, next_named ls (VStr s) = Ret l /\ In l ls /\
                py_getitem l "name" = Ret (VStr s)).
Proof.
  split; [| split].
  - intros pre post l sel Hpre (name & Hname & Heq).
    rewrite (next_named_skip pre _ sel Hpre). cbn [next_named].
    rewrite Hname; cbn [rbind]. rewrite Heq. reflexivity.
  - intros ls sel Hall. rewrite <- (app_nil_r ls).
    rewrite (next_named_skip ls [] sel Hall). reflexivity.
  - exact next_named_option.
Qed.

Lemma next_named_first_match_witness :
  next_named ([astrodome] ++ anibong :: [astrodome]) (VStr "Anibong") = Ret anibong.
Proof.
  apply (proj1 next_named_first_match [astrodome] [astrodome] anibong (VStr "Anibong")).
  - constructor; [| constructor]. exists (VStr "Astrodome"). split; reflexivity.
  - exists (VStr "Anibong"). split; reflexivity.
Defined.

(** ** The panel and the map agree *)



(** ** The page, piece by piece *)

Lemma details_panel_selected (sel : pyval) (view : selection) (tr : list ui_event) :
  sel <> VNone ->
  details_panel sel view tr =
  match selected_color view with
  | VStr c =>
      match scoring_breakdown (selected_landmark view) with
      | Ret values =>
          (tr ++ selected_panel sel (selected_cvi view) (py_capitalize c) values,
           Ret tt)
      | Raise e =>
          (tr ++ [Render (Column 0 1) (Subheader sel);
                  Render (Column 0 1) (MarkdownIndex (selected_cvi view) (py_capitalize c));
                  Render (Column 0 1) MarkdownBreakdownHeading], Raise e)
      end
  | _ => (tr ++ [Render (Column 0 1) (Subheader sel)], Raise AttributeError)
  end.
Proof.
  intros Hsel.
  assert (E : details_panel sel view =
    (emit (Render (Column 0 1) (Subheader sel)) ;;;
     level <~ lift match selected_color view with
                   | VStr c => Ret (py_capitalize c)
                   | _ => Raise AttributeError
                   end ;;
     emit (Render (Column 0 1) (MarkdownIndex (selected_cvi view) level)) ;;;
     emit (Render (Column 0 1) MarkdownBreakdownHeading) ;;;
     values <~ lift (scoring_breakdown (selected_landmark view)) ;;
     emit (Render (Column 0 1) (MarkdownBreakdown values)))).
  { destruct sel; try congruence; reflexivity. }
  rewrite E. unfold ui_bind, emit, lift, selected_panel.
  destruct (selected_color view); try reflexivity.
  destruct (scoring_breakdown _); rewrite <- !app_assoc; reflexivity.
Qed.

Lemma image_showcase_selected (sel : pyval) (view : selection) (tr : list ui_event) :
  sel <> VNone ->
  image_showcase sel view tr =
  match py_get (selected_landmark view) "images" (VList []) with
  | Raise e => (tr ++ [Render Page MarkdownPhotosHeading], Raise e)
  | Ret images =>
      if negb (py_truthy images)
      then (tr ++ [Render Page MarkdownPhotosHeading; Render Page WarningNoImages],
            Ret tt)
      else
        match py_iter images with
        | Raise e =>
            (tr ++ [Render Page MarkdownPhotosHeading; Columns 1 3], Raise e)
        | Ret items =>
            (tr ++ Render Page MarkdownPhotosHeading :: Columns 1 3
                   :: image_events sel 0 items, Ret tt)
        end
  end.
Proof.
  intros Hsel.
  assert (E : image_showcase sel view =
    (emit (Render Page MarkdownPhotosHeading) ;;;
     images <~ lift (py_get (selected_landmark view) "images" (VList [])) ;;
     if negb (py_truthy images) then emit (Render Page WarningNoImages)
     else
       emit (Columns 1 3) ;;;
       items <~ lift (py_iter images) ;;
       show_images sel 0 items)).
  { destruct sel; try congruence; reflexivity. }
  rewrite E. unfold ui_bind, emit, lift.
  destruct (py_get _ _ _) as [images | ]; [| reflexivity].
  destruct (negb (py_truthy images)); [rewrite <- app_assoc; reflexivity |].
  destruct (py_iter images) as [items | ]; [| rewrite <- app_assoc; reflexivity].
  rewrite show_images_trace, <- !app_assoc. reflexivity.
Qed.

(** The main part of the page: the map, the panel, the interpretation, the
    showcase and the footer, where the panel or the showcase may raise. *)
Lemma main_ui_pieces (sel : pyval) (view : selection) (m : folium_map)
    (tr : list ui_event) :
  main_ui sel view m tr =
  match details_panel sel view (tr ++ map_events m) with
  | (tr1, Raise e) => (tr1, Raise e)
  | (tr1, Ret _) =>
      match image_showcase sel view (tr1 ++ [Render Page MarkdownInterpretation]) with
      | (tr2, Raise e) => (tr2, Raise e)
      | (tr2, Ret _) => (tr2 ++ footer, Ret tt)
      end
  end.
Proof.
  unfold main_ui, ui_bind, emit, map_events, footer. rewrite <- !app_assoc. cbn [app].
  destruct (details_panel _ _ _) as [tr1 [[] | e]]; [| reflexivity].
  destruct (image_showcase _ _ _) as [tr2 [[] | e]]; [| reflexivity].
  rewrite <- app_assoc. reflexivity.
Qed.

Lemma main_ui_idle (view : selection) (m : folium_map) (tr : list ui_event) :
  main_ui VNone view m tr
  = (tr ++ map_events m ++ idle_panel ++
     [Render Page MarkdownInterpretation; Render Page MarkdownPhotosHeading;
      Render Page InfoSelectForImages] ++ footer, Ret tt).
Proof.
  rewrite main_ui_pieces.
  unfold details_panel, image_showcase, ui_bind, emit, idle_panel, footer, map_events.
  rewrite <- !app_assoc. reflexivity.
Qed.

(** ** The run with nothing selected *)

Lemma draw_landmark_drawable (P : gmap (option string) (list coord))
    (sel l : pyval) (p : polygon) :
  draw_landmark P sel l = Ret p -> drawable P l.
Proof.
  intros H. apply draw_landmark_drawn_as in H.
  destruct H as (cvi & name & Hcvi & Hcol & _ & _ & _ & Hname & Hco & _).
  exists cvi, (fill_color p), name, (locations p). repeat split; assumption.
Qed.

Lemma drawable_names (P : gmap (option string) (list coord)) (ls : list pyval) :
  Forall (drawable P) ls ->
  exists names, rmap (fun l => py_getitem l "name") ls = Ret names.
Proof.
  intros H. apply rmap_total. intros a Ha.
  rewrite Forall_forall in H. apply list_elem_of_In, H in Ha.
  destruct Ha as (_ & _ & name & _ & _ & _ & Hname & _).
  exists name. exact Hname.
Qed.

Lemma drawable_polygons (P : gmap (option string) (list coord)) (sel : pyval)
    (ls : list pyval) :
  Forall (drawable P) ls <->
  exists polys, rmap (draw_landmark P sel) ls = Ret polys.
Proof.
  split.
  - intros H. apply rmap_total. intros a Ha.
    rewrite Forall_forall in H. apply list_elem_of_In, H in Ha.
    apply drawable_draw_landmark. exact Ha.
  - intros [polys H]. apply rmap_inv in H.
    induction H as [ | l p ls polys Hp _ IH]; constructor; [| exact IH].
    eapply draw_landmark_drawable. exact Hp.
Qed.

(** X11: the run with nothing selected.  Once both files have loaded, it
    completes exactly when every landmark has an index, a colour and a
    boundary; it then renders the sidebar, the map of all landmarks at the
    overview centre and zoom, the invitation to select a landmark, the
    interpretation, the invitation in place of the gallery, and the
    footer, and nothing else. *)
Theorem run_without_selection (w : world) (landmarks : pyval)
    (P : gmap (option string) (list coord)) (ls : list pyval) :
  load_landmarks (landmarks_json w) = Ret landmarks ->
  load_kml (boundaries_kml w) = Ret P ->
  py_iter landmarks = Ret ls ->
  radio_value w = VNone ->
  (snd (run w) = Ret tt <-> Forall (drawable P) ls) /\
  (Forall (drawable P) ls ->
   exists (names : list pyval) (polys : list polygon),
     rmap (fun l => py_getitem l "name") ls = Ret names /\
     Forall2 (drawn_as P VNone) ls polys /\
     run w = (idle_page names
                {| location := map_center overview;
                   zoom_start := zoom_level overview;
                   children := FullscreenControl :: map PolygonLayer polys |},
              Ret tt)).
Proof.
  intros Hl Hk Hi Hsel.
  assert (Hrun : Forall (drawable P) ls ->
    exists (names : list pyval) (polys : list polygon),
      rmap (fun l => py_getitem l "name") ls = Ret names /\
      Forall2 (drawn_as P VNone) ls polys /\
      run w = (idle_page names
                 {| location := map_center overview;
                    zoom_start := zoom_level overview;
                    children := FullscreenControl :: map PolygonLayer polys |},
               Ret tt)).
  { intros Hall. destruct (drawable_names P ls Hall) as [names Hnames].
    destruct (proj1 (drawable_polygons P VNone ls) Hall) as [polys Hpolys].
    exists names, polys. split; [exact Hnames |]. split.
    - apply rmap_inv in Hpolys.
      eapply Forall2_impl; [exact Hpolys |].
      intros l p. apply draw_landmark_drawn_as.
    - rewrite run_phases, Hl, Hk, Hi, Hnames, Hsel. cbn [map_center_logic].
      unfold draw_map. rewrite Hpolys; cbn [rbind].
      rewrite main_ui_idle. reflexivity. }
  split; [| exact Hrun]. split.
  - rewrite run_phases, Hl, Hk, Hi, Hsel.
    destruct (rmap _ ls) as [names | ]; [| discriminate].
    cbn [map_center_logic]. unfold draw_map.
    destruct (rmap (draw_landmark P VNone) ls) as [polys | ] eqn:Hpolys;
      cbn [rbind]; [| discriminate].
    intros _. apply (drawable_polygons P VNone ls). exists polys. exact Hpolys.
  - intros Hall. destruct (Hrun Hall) as (names & polys & _ & _ & ->). reflexivity.
Qed.

Lemma run_without_selection_witness :
  snd (run (Build_world (landmarks_json sample_world) (boundaries_kml sample_world)
              VNone Compensated)) = Ret tt.
Proof.
  apply (proj1 (run_without_selection
                  (Build_world (landmarks_json sample_world)
                     (boundaries_kml sample_world) VNone Compensated)
                  (VList [anibong; astrodome]) sample_polygons
                  [anibong; astrodome]
                  ltac:(reflexivity) ltac:(vm_compute; reflexivity)
                  ltac:(reflexivity) ltac:(reflexivity))).
  repeat constructor.
  - exists (VFloat f_4_0), "green"%string, (VStr "Anibong"), [(f_11_2, f_125_0); (f_11_4, f_125_5)].
    repeat split; vm_compute; reflexivity.
  - eexists _, _, (VStr "Astrodome"), _.
    repeat split; vm_compute; reflexivity.
Defined.

(** X12: with nothing selected no landmark is highlighted, as long as
    every placemark of the boundary file has a name text: every polygon is
    outlined 1 wide.  The one exception the code allows is a landmark whose
    name is null ([None] equals the empty selection): it is outlined 4
    wide. *)
Theorem no_selection_no_highlight :
  (forall (pms : list placemark) (P : gmap (option string) (list coord))
          (ls : list pyval) (polys : list polygon),
      load_kml (KmlTree pms) = Ret P ->
      (forall pm, In pm pms -> pm_name pm <> Some None) ->
      rmap (draw_landmark P VNone) ls = Ret polys ->
      Forall (fun p => weight p = 1) polys) /\
  (forall (P : gmap (option string) (list coord)) (l : pyval) (p : polygon),
      draw_landmark P VNone l = Ret p ->
      (weight p = 4 <-> py_getitem l "name" = Ret VNone) /\
      (weight p = 1 <-> exists s, py_getitem l "name" = Ret (VStr s))).
Proof.
  assert (Hone : forall (P : gmap (option string) (list coord)) (l : pyval) (p : polygon),
             draw_landmark P VNone l = Ret p ->
             (py_getitem l "name" = Ret VNone /\ weight p = 4 /\
              is_Some (P !! None)) \/
             (exists s, py_getitem l "name" = Ret (VStr s) /\ weight p = 1)).
  { intros P l p H. apply draw_landmark_drawn_as in H.
    destruct H as (cvi & name & _ & _ & _ & _ & _ & Hname & Hco & Hw).
    destruct name; cbn [kml_getitem] in Hco; try discriminate.
    - left. split; [exact Hname |]. split; [exact Hw |].
      destruct (P !! None); [eexists; reflexivity | discriminate].
    - right. exists s. split; [exact Hname | exact Hw]. }
  split.
  - intros pms P ls polys Hload Hnames Hpolys.
    assert (HP : P !! None = None).
    { apply load_kml_entries in Hload as (es & Hes & ->).
      rewrite (store_entries_lookup_other es None ∅ (entries_names pms es None Hes Hnames)).
      apply lookup_empty. }
    apply rmap_inv in Hpolys.
    induction Hpolys as [ | l p ls polys Hp _ IH]; constructor; [| exact IH].
    destruct (Hone P l p Hp) as [(_ & _ & Hsome) | (s & _ & Hw)]; [| exact Hw].
    rewrite HP in Hsome. destruct Hsome as [x Hx]. discriminate.
  - intros P l p H.
    destruct (Hone P l p H) as [(Hname & Hw & _) | (s & Hname & Hw)]; rewrite Hname, Hw.
    + split; split; try reflexivity; try discriminate.
      intros [s Hs]. discriminate.
    + split; split; try discriminate; try reflexivity.
      intros _. exists s. reflexivity.
Qed.

Lemma no_selection_no_highlight_witness :
  Forall (fun p => weight p = 1)
    [{| locations := [(f_11_2, f_125_0)]; fill := true; fill_color := "green";
        fill_opacity := f_0_6; color := "black"; weight := 1 |}].
Proof.
  apply (proj1 no_selection_no_highlight
           [sample_placemark "Anibong" "125.0,11.2,0"]
           (<[Some "Anibong"%string := [(f_11_2, f_125_0)]]> ∅)
           [sample_landmark "Anibong" (VInt 4) (VInt 3) (VInt 5)]).
  - vm_compute. reflexivity.
  - intros pm [<- | []]. discriminate.
  - vm_compute. reflexivity.
Defined.

(** ** The run with a landmark selected *)

Lemma py_capitalize_levels (col : string) :
  In col colors -> In (py_capitalize col) levels.
Proof.
  unfold colors. cbn [In].
  intros [<- | [<- | [<- | [<- | [<- | []]]]]]; vm_compute; tauto.
Qed.

Lemma sub_score_inv (l : pyval) (field : string) (v : pyval) :
  sub_score l field = Ret v ->
  exists d, py_getitem l field = Ret (VDict d) /\ dict_get d "score" = Some v.
Proof.
  unfold sub_score. destruct (py_getitem l field) as [a | ]; cbn [rbind]; [| discriminate].
  destruct a; cbn [py_getitem]; try discriminate.
  destruct (dict_get d "score") eqn:Hs; [| discriminate].
  intros H. injection H as <-. exists d. split; [reflexivity | exact Hs].
Qed.

Lemma compute_cvi_sub_scores (l cvi : pyval) :
  compute_cvi l = Ret cvi ->
  exists gs ns es,
    sub_score l "geomorphology" = Ret gs /\
    sub_score l "natural_buffers" = Ret ns /\
    sub_score l "engineering_structures" = Ret es.
Proof.
  unfold compute_cvi. intros H.
  destruct (sub_score l "geomorphology") as [gs | ]; cbn [rbind] in H; [| discriminate].
  destruct (sub_score l "natural_buffers") as [ns | ]; cbn [rbind] in H; [| discriminate].
  destruct (py_add gs ns) as [s1 | ]; cbn [rbind] in H; [| discriminate].
  destruct (sub_score l "engineering_structures") as [es | ]; cbn [rbind] in H;
    [| discriminate].
  exists gs, ns, es. repeat split; reflexivity.
Qed.

(** The breakdown of a record that has an index: it returns when the
    record has its three descriptions, and raises [KeyError] otherwise. *)
Lemma scoring_breakdown_cases (l cvi : pyval) :
  compute_cvi l = Ret cvi ->
  (described l /\ exists values, scoring_breakdown l = Ret values) \/
  (~ described l /\ scoring_breakdown l = Raise KeyError).
Proof.
  intros H. destruct (compute_cvi_sub_scores l cvi H) as (gs & ns & es & Hg & Hn & He).
  apply sub_score_inv in Hg as (dg & Hg & Hgs).
  apply sub_score_inv in Hn as (dn & Hn & Hns).
  apply sub_score_inv in He as (de & He & Hes).
  unfold scoring_breakdown.
  rewrite Hg, Hn, He; cbn [rbind py_getitem]. rewrite Hgs, Hns, Hes; cbn [rbind].
  assert (Hno : forall field d,
             In field sub_assessment_fields ->
             py_getitem l field = Ret (VDict d) ->
             dict_get d "description" = None -> ~ described l).
  { intros field d Hin Hf Hd Hdesc. destruct (Hdesc field Hin) as (a & x & Ha & Hx).
    rewrite Hf in Ha. injection Ha as <-. cbn [py_getitem] in Hx.
    rewrite Hd in Hx. discriminate. }
  destruct (dict_get dg "description") as [gd | ] eqn:Hgd; cbn [rbind].
  2:{ right. split; [| reflexivity].
      apply (Hno "geomorphology"%string dg); [cbn; tauto | exact Hg | exact Hgd]. }
  destruct (dict_get dn "description") as [nd | ] eqn:Hnd; cbn [rbind].
  2:{ right. split; [| reflexivity].
      apply (Hno "natural_buffers"%string dn); [cbn; tauto | exact Hn | exact Hnd]. }
  destruct (dict_get de "description") as [ed | ] eqn:Hed; cbn [rbind].
  2:{ right. split; [| reflexivity].
      apply (Hno "engineering_structures"%string de); [cbn; tauto | exact He | exact Hed]. }
  left. split; [| eexists; reflexivity].
  intros field [<- | [<- | [<- | []]]]; eexists _, _;
    (split; [eassumption |]); cbn [py_getitem];
    [rewrite Hgd | rewrite Hnd | rewrite Hed]; reflexivity.
Qed.

(** X13: a run with a listed landmark selected completes, given data that
    is complete: every landmark has an index, a colour and a boundary, the
    selected boundary is not empty, and the records of the selected name
    have their three descriptions and, for images, no value or a list.
    The page is then the sidebar, the map at zoom 15 with one polygon per
    landmark, the panel with the index and the capitalised level of the
    first record of that name, the interpretation, the gallery of its
    images and the footer. *)
Theorem run_with_selection_completes (w : world) (landmarks : pyval)
    (P : gmap (option string) (list coord)) (ls names : list pyval)
    (s : string) (pts : list coord) :
  load_landmarks (landmarks_json w) = Ret landmarks ->
  load_kml (boundaries_kml w) = Ret P ->
  py_iter landmarks = Ret ls ->
  rmap (fun l => py_getitem l "name") ls = Ret names ->
  radio_value w = VStr s ->
  In (VStr s) names ->
  Forall (drawable P) ls ->
  P !! Some s = Some pts -> pts <> [] -> Z.of_nat (length pts) < 2 ^ 53 ->
  (forall l, In l ls -> py_getitem l "name" = Ret (VStr s) ->
             described l /\
             (forall v, py_getitem l "images" = Ret v -> exists imgs, v = VList imgs)) ->
  exists (m : folium_map) (l cvi : pyval) (col : string) (values imgs : list pyval),
    next_named ls (VStr s) = Ret l /\
    compute_cvi l = Ret cvi /\ get_color cvi = Ret col /\
    In (py_capitalize col) levels /\
    scoring_breakdown l = Ret values /\
    py_get l "images" (VList []) = Ret (VList imgs) /\
    zoom_start m = VInt 15 /\
    length (children m) = S (length ls) /\
    run w = (selected_page names m (VStr s) cvi (py_capitalize col) values imgs,
             Ret tt).
Proof.
  intros Hl Hk Hi Hnames Hsel Hin Hall HP Hne Hlen Hrec.
  destruct (next_named_option ls names s Hnames Hin) as (l & Hnext & Hinl & Hname).
  destruct (Hrec l Hinl Hname) as [Hdesc Himg].
  assert (Hdr : drawable P l).
  { rewrite Forall_forall in Hall. apply Hall, list_elem_of_In. exact Hinl. }
  destruct Hdr as (cvi & col & _ & _ & Hcvi & Hcol & _ & _).
  destruct (arith_mean_total (python_sum w) (map fst pts)) as [lat Hlat].
  { destruct pts; [congruence | discriminate]. }
  { rewrite length_map. exact Hlen. }
  destruct (arith_mean_total (python_sum w) (map snd pts)) as [lon Hlon].
  { destruct pts; [congruence | discriminate]. }
  { rewrite length_map. exact Hlen. }
  destruct (proj1 (drawable_polygons P (VStr s) ls) Hall) as [polys Hpolys].
  destruct (scoring_breakdown_cases l cvi Hcvi) as [[_ [values Hvalues]] | [Hnd _]];
    [| contradiction].
  assert (Hcolors : In col colors).
  { destruct (compute_cvi_float l cvi Hcvi) as [f ->].
    destruct (get_color_numeric (VFloat f) (NFloat f) eq_refl) as (c & Hc & Hinc).
    rewrite Hcol in Hc. injection Hc as <-. exact Hinc. }
  assert (Hget : exists imgs, py_get l "images" (VList []) = Ret (VList imgs)).
  { destruct l as [ | | | | | | d]; cbn [py_getitem] in Hname; try discriminate.
    cbn [py_get]. destruct (dict_get d "images") as [v | ] eqn:Hv.
    - destruct (Himg v) as [imgs ->]; [cbn [py_getitem]; rewrite Hv; reflexivity |].
      exists imgs. reflexivity.
    - exists []. reflexivity. }
  destruct Hget as [imgs Hget].
  exists {| location := [VFloat lat; VFloat lon]; zoom_start := VInt 15;
            children := FullscreenControl :: map PolygonLayer polys |},
    l, cvi, col, values, imgs.
  split; [exact Hnext |]. split; [exact Hcvi |]. split; [exact Hcol |].
  split; [apply py_capitalize_levels; exact Hcolors |].
  split; [exact Hvalues |]. split; [exact Hget |]. split; [reflexivity |].
  split.
  { cbn [children length]. rewrite length_map.
    apply rmap_inv, Forall2_length in Hpolys. rewrite Hpolys. reflexivity. }
  rewrite run_phases, Hl, Hk, Hi, Hnames, Hsel.
  rewrite (map_center_logic_selected (python_sum w) ls P (VStr s)) by discriminate.
  rewrite Hnext; cbn [rbind]. rewrite Hcvi; cbn [rbind]. rewrite Hcol; cbn [rbind].
  cbn [kml_getitem]. rewrite HP; cbn [rbind].
  rewrite Hlat; cbn [rbind]. rewrite Hlon; cbn [rbind].
  unfold draw_map. rewrite Hpolys; cbn [rbind map_center zoom_level].
  rewrite main_ui_pieces.
  rewrite details_panel_selected by discriminate.
  cbn [selected_color selected_landmark selected_cvi]. rewrite Hvalues.
  rewrite image_showcase_selected by discriminate.
  cbn [selected_landmark]. rewrite Hget.
  unfold selected_page, gallery.
  destruct imgs as [ | img imgs]; cbn [py_truthy negb py_iter];
    rewrite <- !app_assoc; reflexivity.
Qed.

Lemma run_with_selection_completes_witness :
  exists (m : folium_map) (l cvi : pyval) (col : string) (values imgs : list pyval),
    next_named [anibong; astrodome] (VStr "Anibong") = Ret l /\
    compute_cvi l = Ret cvi /\ get_color cvi = Ret col /\
    In (py_capitalize col) levels /\
    scoring_breakdown l = Ret values /\
    py_get l "images" (VList []) = Ret (VList imgs) /\
    zoom_start m = VInt 15 /\
    length (children m) = 3%nat /\
    run sample_world
    = (selected_page [VStr "Anibong"; VStr "Astrodome"] m (VStr "Anibong") cvi
         (py_capitalize col) values imgs, Ret tt).
Proof.
  refine (run_with_selection_completes sample_world
            (VList [anibong; astrodome]) sample_polygons [anibong; astrodome]
            [VStr "Anibong"; VStr "Astrodome"] "Anibong"
            [(f_11_2, f_125_0); (f_11_4, f_125_5)]
            eq_refl _ eq_refl eq_refl eq_refl _ _ _ _ _ _).
  - vm_compute. reflexivity.
  - left. reflexivity.
  - repeat constructor.
    + exists (VFloat f_4_0), "green"%string, (VStr "Anibong"),
        [(f_11_2, f_125_0); (f_11_4, f_125_5)].
      repeat split; vm_compute; reflexivity.
    + eexists _, _, (VStr "Astrodome"), _.
      repeat split; vm_compute; reflexivity.
  - vm_compute. reflexivity.
  - discriminate.
  - vm_compute. reflexivity.
  - intros l [<- | [<- | []]] Hname; [| vm_compute in Hname; discriminate].
    split.
    + intros field [<- | [<- | [<- | []]]]; eexists _, _; split; reflexivity.
    + intros v Hv. vm_compute in Hv. injection Hv as <-. eexists; reflexivity.
Defined.

(** ** When the panel or the gallery raises *)

Lemma map_center_logic_view (alg : sum_algorithm) (ls : list pyval)
    (P : gmap (option string) (list coord)) (sel : pyval) (view : selection) :
  sel <> VNone ->
  map_center_logic alg ls P sel = Ret view ->
  exists col,
    compute_cvi (selected_landmark view) = Ret (selected_cvi view) /\
    get_color (selected_cvi view) = Ret col /\
    selected_color view = VStr col /\ In col colors.
Proof.
  intros Hsel H. rewrite (map_center_logic_selected alg ls P sel Hsel) in H.
  destruct (next_named ls sel) as [l | ]; cbn [rbind] in H; [| discriminate].
  destruct (compute_cvi l) as [cvi | ] eqn:Hcvi; cbn [rbind] in H; [| discriminate].
  destruct (get_color cvi) as [col | ] eqn:Hcol; cbn [rbind] in H; [| discriminate].
  destruct (kml_getitem P sel) as [pts | ]; cbn [rbind] in H; [| discriminate].
  destruct (arith_mean alg (map fst pts)) as [c0 | ]; cbn [rbind] in H; [| discriminate].
  destruct (arith_mean alg (map snd pts)) as [c1 | ]; cbn [rbind] in H; [| discriminate].
  injection H as <-. cbn [selected_landmark selected_cvi selected_color].
  exists col. split; [exact Hcvi |]. split; [exact Hcol |]. split; [reflexivity |].
  destruct (compute_cvi_float l cvi Hcvi) as [f ->].
  destruct (get_color_numeric (VFloat f) (NFloat f) eq_refl) as (c & Hc & Hin).
  rewrite Hcol in Hc. injection Hc as <-. exact Hin.
Qed.

(** X14: a selected record that lacks one of its three descriptions.  The
    map and the index are computed from the scores alone, so the run gets
    as far as the panel: it displays the map, the name, the index and the
    level, and the heading of the breakdown, and then raises [KeyError];
    the interpretation, the gallery and the footer are not rendered. *)
Theorem missing_description_stops_panel (w : world) (landmarks : pyval)
    (P : gmap (option string) (list coord)) (ls names : list pyval)
    (view : selection) (m : folium_map) :
  load_landmarks (landmarks_json w) = Ret landmarks ->
  load_kml (boundaries_kml w) = Ret P ->
  py_iter landmarks = Ret ls ->
  rmap (fun l => py_getitem l "name") ls = Ret names ->
  radio_value w <> VNone ->
  map_center_logic (python_sum w) ls P (radio_value w) = Ret view ->
  draw_map ls P (radio_value w) view = Ret m ->
  ~ described (selected_landmark view) ->
  exists level,
    In level levels /\
    run w = (sidebar_trace names ++ map_events m ++
             [Render (Column 0 1) (Subheader (radio_value w));
              Render (Column 0 1) (MarkdownIndex (selected_cvi view) level);
              Render (Column 0 1) MarkdownBreakdownHeading],
             Raise KeyError).
Proof.
  intros Hl Hk Hi Hnames Hsel Hview Hmap Hnd.
  destruct (map_center_logic_view _ ls P _ view Hsel Hview)
    as (col & Hcvi & Hcol & Hcolor & Hin).
  exists (py_capitalize col). split; [apply py_capitalize_levels; exact Hin |].
  rewrite run_phases, Hl, Hk, Hi, Hnames, Hview, Hmap, main_ui_pieces.
  rewrite details_panel_selected by exact Hsel. rewrite Hcolor.
  destruct (scoring_breakdown_cases _ _ Hcvi) as [[Hd _] | [_ ->]]; [contradiction |].
  rewrite <- app_assoc. reflexivity.
Qed.

Lemma missing_description_stops_panel_witness :
  exists level,
    In level levels /\
    run undescribed_world
    = (sidebar_trace [VStr "Anibong"] ++ map_events undescribed_map ++
       [Render (Column 0 1) (Subheader (radio_value undescribed_world));
        Render (Column 0 1) (MarkdownIndex (selected_cvi undescribed_view) level);
        Render (Column 0 1) MarkdownBreakdownHeading],
       Raise KeyError).
Proof.
  apply (missing_description_stops_panel undescribed_world (VList [undescribed])
           (<[Some "Anibong"%string := [(f_11_2, f_125_0); (f_11_4, f_125_5)]]> ∅)
           [undescribed] [VStr "Anibong"] undescribed_view undescribed_map).
  - reflexivity.
  - vm_compute. reflexivity.
  - reflexivity.
  - reflexivity.
  - discriminate.
  - vm_compute. reflexivity.
  - vm_compute. reflexivity.
  - intros Hd. destruct (Hd "geomorphology"%string) as (a & d & Ha & Hdesc);
      [left; reflexivity |].
    vm_compute in Ha. injection Ha as <-. vm_compute in Hdesc. discriminate.
Defined.

(** X15: values of [images] other than a list.  A value that Python
    takes for false ([null], [false], [0], [0.0], the empty string, an
    empty object) shows the notice that there are no images, like a
    missing key.  A true or non-zero number opens the three columns and
    then raises [TypeError], since it cannot be enumerated. *)
Theorem images_value_edge_cases (sel : pyval) (view : selection)
    (d : list (string * pyval)) (v : pyval) :
  sel <> VNone -> selected_landmark view = VDict d ->
  dict_get d "images" = Some v ->
  (py_truthy v = false ->
   image_showcase sel view []
   = ([Render Page MarkdownPhotosHeading; Render Page WarningNoImages], Ret tt)) /\
  (py_truthy v = true -> is_Some (as_num v) ->
   image_showcase sel view []
   = ([Render Page MarkdownPhotosHeading; Columns 1 3], Raise TypeError)).
Proof.
  intros Hsel Hd Hv.
  rewrite (image_showcase_selected sel view [] Hsel), Hd. cbn [py_get]. rewrite Hv.
  split.
  - intros ->. reflexivity.
  - intros -> [n Hn]. cbn [negb].
    destruct v; cbn [as_num] in Hn; try discriminate; reflexivity.
Qed.

Lemma images_value_edge_cases_witness :
  image_showcase (VStr "Anibong") null_images_view []
  = ([Render Page MarkdownPhotosHeading; Render Page WarningNoImages], Ret tt).
Proof.
  apply (proj1 (images_value_edge_cases (VStr "Anibong") null_images_view
                  [("name"%string, VStr "Anibong"); ("images"%string, VNone)] VNone
                  ltac:(discriminate) eq_refl eq_refl)).
  reflexivity.
Defined.

(** ** What a trace tells *)

Lemma radios_app (a b : list ui_event) : radios (a ++ b) = radios a ++ radios b.
Proof.
  induction a as [ | e a IH]; [reflexivity |].
  destruct e as [ | | place []]; cbn [app radios]; rewrite IH; reflexivity.
Qed.

Lemma shown_maps_app (a b : list ui_event) :
  shown_maps (a ++ b) = shown_maps a ++ shown_maps b.
Proof.
  induction a as [ | e a IH]; [reflexivity |].
  destruct e as [ | | place []]; cbn [app shown_maps]; rewrite IH; reflexivity.
Qed.

Lemma image_events_quiet (sel : pyval) (imgs : list pyval) :
  forall idx, radios (image_events sel idx imgs) = [] /\
              shown_maps (image_events sel idx imgs) = [] /\
              ~ In (Render Page MarkdownCopyright) (image_events sel idx imgs).
Proof.
  induction imgs as [ | img r IH]; intros idx; cbn [image_events radios shown_maps In].
  - tauto.
  - destruct (IH (S idx)) as (H1 & H2 & H3).
    split; [exact H1 |]. split; [exact H2 |]. intros [H | H]; [discriminate | tauto].
Qed.

(** The main part of the page: after the map come events that are neither
    a radio widget nor a map, and the last of them is the copyright line
    exactly when nothing has raised. *)
Lemma main_ui_rest (sel : pyval) (view : selection) (m : folium_map)
    (tr : list ui_event) :
  exists rest r,
    main_ui sel view m tr = (tr ++ map_events m ++ rest, r) /\
    radios rest = [] /\ shown_maps rest = [] /\
    (In (Render Page MarkdownCopyright) rest <-> r = Ret tt).
Proof.
  assert (Hdec : sel = VNone \/ sel <> VNone)
    by (destruct sel; [left; reflexivity | right; discriminate ..]).
  destruct Hdec as [-> | Hsel].
  { rewrite main_ui_idle. eexists _, _. split; [reflexivity |].
    split; [reflexivity |]. split; [reflexivity |].
    split; [reflexivity | intros _; cbn; tauto]. }
  rewrite main_ui_pieces, (details_panel_selected sel view _ Hsel).
  assert (Hraise : forall (evs : list ui_event) (e : exn),
             radios evs = [] -> shown_maps evs = [] ->
             ~ In (Render Page MarkdownCopyright) evs ->
             exists rest r,
               ((tr ++ map_events m) ++ evs, @Raise unit e)
               = (tr ++ map_events m ++ rest, r) /\
               radios rest = [] /\ shown_maps rest = [] /\
               (In (Render Page MarkdownCopyright) rest <-> r = Ret tt)).
  { intros evs e H1 H2 H3. exists evs, (Raise e).
    split; [rewrite <- app_assoc; reflexivity |].
    split; [exact H1 |]. split; [exact H2 |].
    split; [intros H; contradiction | discriminate]. }
  destruct (selected_color view);
    try (apply Hraise; [reflexivity | reflexivity | cbn; intuition discriminate]).
  destruct (scoring_breakdown (selected_landmark view)) as [values | e];
    [| apply Hraise; [reflexivity | reflexivity | cbn; intuition discriminate]].
  rewrite (image_showcase_selected sel view _ Hsel).
  destruct (py_get _ _ _) as [images | e].
  2:{ eexists _, _. split; [rewrite <- !app_assoc; reflexivity |].
      split; [reflexivity |]. split; [reflexivity |].
      split; [cbn; intuition discriminate | discriminate]. }
  destruct (negb (py_truthy images)).
  { eexists _, _. split; [rewrite <- !app_assoc; reflexivity |].
    split; [reflexivity |]. split; [reflexivity |].
    split; [reflexivity | intros _; cbn; tauto]. }
  destruct (py_iter images) as [items | e].
  2:{ eexists _, _. split; [rewrite <- !app_assoc; reflexivity |].
      split; [reflexivity |]. split; [reflexivity |].
      split; [cbn; intuition discriminate | discriminate]. }
  destruct (image_events_quiet sel items 0) as (H1 & H2 & _).
  eexists _, _. split; [rewrite <- !app_assoc; reflexivity |].
  rewrite !radios_app, !shown_maps_app.
  cbn [radios shown_maps selected_panel footer app]. rewrite H1, H2.
  split; [reflexivity |]. split; [reflexivity |].
  split; [reflexivity |]. intros _.
  cbn [In]. do 7 right. apply in_or_app. right. cbn. tauto.
Qed.

(** X16: the footer is the mark of a run that completed: the copyright
    line is on the page if and only if the script has run to its end
    without raising. *)
Theorem footer_iff_completes (w : world) :
  In (Render Page MarkdownCopyright) (fst (run w)) <-> snd (run w) = Ret tt.
Proof.
  rewrite run_phases.
  destruct (load_landmarks _) as [landmarks | ];
    [| cbn; intuition discriminate].
  destruct (load_kml _) as [P | ]; [| cbn; intuition discriminate].
  destruct (py_iter landmarks) as [ls | ]; [| cbn; intuition discriminate].
  destruct (rmap _ ls) as [names | ]; [| cbn; intuition discriminate].
  destruct (map_center_logic _ _ _ _) as [view | ]; [| cbn; intuition discriminate].
  destruct (draw_map _ _ _ _) as [m | ]; [| cbn; intuition discriminate].
  destruct (main_ui_rest (radio_value w) view m (sidebar_trace names))
    as (rest & r & -> & _ & _ & Hfoot).
  cbn [fst snd]. rewrite <- Hfoot, !in_app_iff. cbn. intuition discriminate.
Qed.

Lemma footer_iff_completes_witness :
  In (Render Page MarkdownCopyright) (fst (run sample_world)).
Proof.
  apply (proj2 (footer_iff_completes sample_world)).
  vm_compute. reflexivity.
Defined.

(** X17: a map on the page is a complete map.  The run displays at most
    one map, and when it displays one, both files have loaded, the map
    centre logic has returned, and the map holds the full-screen control
    and one polygon for every landmark of the file, in file order. *)
Theorem map_shown_once_complete (w : world) (m : folium_map) :
  In m (shown_maps (fst (run w))) ->
  shown_maps (fst (run w)) = [m] /\
  exists (landmarks : pyval) (P : gmap (option string) (list coord))
         (ls : list pyval) (view : selection) (polys : list polygon),
    load_landmarks (landmarks_json w) = Ret landmarks /\
    load_kml (boundaries_kml w) = Ret P /\
    py_iter landmarks = Ret ls /\
    map_center_logic (python_sum w) ls P (radio_value w) = Ret view /\
    Forall2 (drawn_as P (radio_value w)) ls polys /\
    m = {| location := map_center view;
           zoom_start := zoom_level view;
           children := FullscreenControl :: map PolygonLayer polys |}.
Proof.
  rewrite run_phases.
  destruct (load_landmarks _) as [landmarks | ] eqn:Hl; [| intros []].
  destruct (load_kml _) as [P | ] eqn:Hk; [| intros []].
  destruct (py_iter landmarks) as [ls | ] eqn:Hi; [| intros []].
  destruct (rmap _ ls) as [names | ]; [| intros []].
  destruct (map_center_logic _ _ _ _) as [view | ] eqn:Hview; [| intros []].
  destruct (draw_map _ _ _ _) as [m' | ] eqn:Hmap; [| intros []].
  destruct (main_ui_rest (radio_value w) view m' (sidebar_trace names))
    as (rest & r & -> & _ & Hmaps & _).
  cbn [fst]. rewrite !shown_maps_app, Hmaps.
  change (shown_maps (sidebar_trace names) ++ shown_maps (map_events m') ++ [])
    with [m'].
  intros [<- | []]. split; [reflexivity |].
  unfold draw_map in Hmap.
  destruct (rmap (draw_landmark P (radio_value w)) ls) as [polys | ] eqn:Hpolys;
    cbn [rbind] in Hmap; [| discriminate].
  injection Hmap as <-.
  exists landmarks, P, ls, view, polys.
  split; [reflexivity |]. split; [reflexivity |]. split; [exact Hi |].
  split; [exact Hview |]. split; [| reflexivity].
  apply rmap_inv in Hpolys. eapply Forall2_impl; [exact Hpolys |].
  intros l p. apply draw_landmark_drawn_as.
Qed.

Lemma map_shown_once_complete_witness :
  shown_maps (fst (run sample_world)) = [sample_map].
Proof.
  apply (map_shown_once_complete sample_world sample_map).
  vm_compute. left. reflexivity.
Defined.

(** X18: the options of the radio widget are the names of the landmarks,
    in file order.  The run renders at most one radio widget, and only
    after both files have loaded; a record without a name makes the run
    raise before the widget, with nothing but the sidebar title on the
    page. *)
Theorem radio_lists_names (w : world) :
  (forall options : list pyval,
      In options (radios (fst (run w))) ->
      radios (fst (run w)) = [options] /\
      exists (landmarks : pyval) (ls : list pyval),
        load_landmarks (landmarks_json w) = Ret landmarks /\
        is_ret (load_kml (boundaries_kml w)) = true /\
        py_iter landmarks = Ret ls /\
        Forall2 (fun l name => py_getitem l "name" = Ret name) ls options) /\
  (forall (landmarks : pyval) (ls : list pyval) (l : pyval),
      load_landmarks (landmarks_json w) = Ret landmarks ->
      is_ret (load_kml (boundaries_kml w)) = true ->
      py_iter landmarks = Ret ls ->
      In l ls -> is_ret (py_getitem l "name") = false ->
      exists e, run w = ([PageConfig; Render Sidebar SidebarTitle], Raise e)).
Proof.
  split.
  - intros options. rewrite run_phases.
    destruct (load_landmarks _) as [landmarks | ] eqn:Hl; [| intros []].
    destruct (load_kml _) as [P | ] eqn:Hk; [| intros []].
    destruct (py_iter landmarks) as [ls | ] eqn:Hi; [| intros []].
    destruct (rmap _ ls) as [names | ] eqn:Hnames; [| intros []].
    assert (Hgoal : In options [names] ->
              [names] = [options] /\
              exists (landmarks0 : pyval) (ls0 : list pyval),
                Ret landmarks = Ret landmarks0 /\
                is_ret (Ret P) = true /\
                py_iter landmarks0 = Ret ls0 /\
                Forall2 (fun l name => py_getitem l "name" = Ret name) ls0 options).
    { intros [<- | []]. split; [reflexivity |].
      exists landmarks, ls. split; [reflexivity |]. split; [reflexivity |].
      split; [exact Hi |]. apply rmap_inv. exact Hnames. }
    destruct (map_center_logic _ _ _ _) as [view | ]; [| exact Hgoal].
    destruct (draw_map _ _ _ _) as [m | ]; [| exact Hgoal].
    destruct (main_ui_rest (radio_value w) view m (sidebar_trace names))
      as (rest & r & -> & Hradios & _ & _).
    cbn [fst]. rewrite !radios_app, Hradios. exact Hgoal.
  - intros landmarks ls l Hl Hk Hi Hin Hname.
    rewrite run_phases, Hl, Hi.
    destruct (load_kml _) as [P | ]; [| discriminate].
    destruct (py_getitem l "name") as [name | e] eqn:He; [discriminate |].
    destruct (rmap_raises (fun l => py_getitem l "name") ls l e Hin He) as [e' ->].
    exists e'. reflexivity.
Qed.

Lemma radio_lists_names_witness :
  radios (fst (run sample_world)) = [[VStr "Anibong"; VStr "Astrodome"]].
Proof.
  apply (proj1 (radio_lists_names sample_world) [VStr "Anibong"; VStr "Astrodome"]).
  vm_compute. left. reflexivity.
Defined.
